(** * content-engine: publication coordination core

    A shallow embedding of the multi-platform publishing code:
    - [PyStr]: the Python string primitives the code relies on
      ([str.strip], [str.lower], [str.split], [re.sub] on the patterns used);
    - [ContentProcessor]: [src/processors/content_processor.py];
    - [ErrorHandler]: the retry decorator of [src/utils/error_handler.py];
    - [PublicationManager]: [src/managers/publication_manager.py].

    Strings are sequences of code points below 256 (Rocq's [string]); the
    character classes follow Python's on that range. *)

From Stdlib Require Import ZArith QArith Qminmax Qpower Lia Bool Ascii String.
From Stdlib Require Import DecimalString.
From stdpp Require Import base gmap strings list.

Local Open Scope string_scope.
Local Open Scope nat_scope.

(* ===================================================================== *)
(** * Python string primitives *)
(* ===================================================================== *)

Module PyStr.

Definition nl : ascii := ascii_of_nat 10.
Definition dquote : ascii := ascii_of_nat 34.
Definition hyphen : ascii := ascii_of_nat 45.
Definition comma : ascii := ascii_of_nat 44.
Definition space : ascii := ascii_of_nat 32.

Definition chr (c : ascii) : string := String c "".

(** [str.isspace] on one character, which is also the class [\s] of [re]
    for [str] patterns: TAB..CR, FS..US, SPACE, NEL and NBSP. *)
Definition isspace (c : ascii) : bool :=
  let n := nat_of_ascii c in
  ((9 <=? n) && (n <=? 13)) || ((28 <=? n) && (n <=? 32))
  || (n =? 133) || (n =? 160).

Definition is_ascii_upper (c : ascii) : bool :=
  let n := nat_of_ascii c in (65 <=? n) && (n <=? 90).
Definition is_ascii_lower (c : ascii) : bool :=
  let n := nat_of_ascii c in (97 <=? n) && (n <=? 122).
Definition is_ascii_digit (c : ascii) : bool :=
  let n := nat_of_ascii c in (48 <=? n) && (n <=? 57).

(** [str.lower] on one code point below 256: A-Z and the Latin-1 capitals
    (U+00C0..U+00DE except the multiplication sign U+00D7) move up by 32. *)
Definition lower_char (c : ascii) : ascii :=
  let n := nat_of_ascii c in
  if is_ascii_upper c then ascii_of_nat (n + 32)
  else if (192 <=? n) && (n <=? 222) && negb (n =? 215)
       then ascii_of_nat (n + 32)
  else c.

Fixpoint lower (s : string) : string :=
  match s with
  | EmptyString => EmptyString
  | String c s' => String (lower_char c) (lower s')
  end.

(** [s.lstrip(chars)], [s.rstrip(chars)], [s.strip(chars)] with the set of
    characters given as a predicate. *)
Fixpoint lstrip_if (p : ascii -> bool) (s : string) : string :=
  match s with
  | EmptyString => EmptyString
  | String c s' => if p c then lstrip_if p s' else s
  end.

Fixpoint rstrip_if (p : ascii -> bool) (s : string) : string :=
  match s with
  | EmptyString => EmptyString
  | String c s' =>
      match rstrip_if p s' with
      | EmptyString => if p c then EmptyString else String c EmptyString
      | r => String c r
      end
  end.

Definition strip_if (p : ascii -> bool) (s : string) : string :=
  rstrip_if p (lstrip_if p s).

(** [s.strip()] *)
Definition strip (s : string) : string := strip_if isspace s.

(** [s.strip(c)] for a one-character set, as in the hyphen trimming *)
Definition strip_chars (c : ascii) (s : string) : string :=
  strip_if (Ascii.eqb c) s.

(** [s.split(sep)] for a one-character separator. *)
Fixpoint split (sep : ascii) (s : string) : list string :=
  match s with
  | EmptyString => [EmptyString]
  | String c s' =>
      if Ascii.eqb c sep then EmptyString :: split sep s'
      else match split sep s' with
           | h :: t => String c h :: t
           | [] => [String c EmptyString]
           end
  end.

(** [c in s] for a one-character [c]. *)
Fixpoint contains_char (c : ascii) (s : string) : bool :=
  match s with
  | EmptyString => false
  | String c' s' => Ascii.eqb c' c || contains_char c s'
  end.

(** [sub in s] *)
Fixpoint contains (sub s : string) : bool :=
  String.prefix sub s ||
  match s with
  | EmptyString => false
  | String _ s' => contains sub s'
  end.

(** [sep.join(l)] *)
Definition join (sep : string) (l : list string) : string :=
  String.concat sep l.

Fixpoint drop (n : nat) (s : string) : string :=
  match n, s with
  | O, _ => s
  | S n', String _ s' => drop n' s'
  | S _, EmptyString => EmptyString
  end.

(** Length of the longest prefix whose characters all satisfy [p]
    (what a greedy [[class]*] consumes). *)
Fixpoint span_len (p : ascii -> bool) (s : string) : nat :=
  match s with
  | String c s' => if p c then S (span_len p s') else O
  | EmptyString => O
  end.

(** [re.sub] of a one-character class by the empty string: every
    character of the class is deleted. *)
Fixpoint delete_chars (p : ascii -> bool) (s : string) : string :=
  match s with
  | EmptyString => EmptyString
  | String c s' =>
      if p c then delete_chars p s' else String c (delete_chars p s')
  end.

(** [re.sub] of [class+] by [repl]: every maximal run of characters of the
    class is replaced by [repl] (emitted when the run ends). *)
Fixpoint sub_runs (p : ascii -> bool) (repl : string) (s : string) : string :=
  match s with
  | EmptyString => EmptyString
  | String c s' =>
      if p c then
        match s' with
        | String c' _ =>
            if p c' then sub_runs p repl s'
            else repl +:+ sub_runs p repl s'
        | EmptyString => repl
        end
      else String c (sub_runs p repl s')
  end.

(** [re.sub] of a pattern by the empty string, for a pattern that never
    matches the empty string: [m suffix] is the length of the match of the
    pattern at the start of [suffix], if there is one.  The scan goes left
    to right; a match is deleted and the scan resumes after it ([skip]
    counts the characters of the current match still to be dropped). *)
Fixpoint re_delete_from (m : string -> option nat) (skip : nat) (s : string)
  : string :=
  match s with
  | EmptyString => EmptyString
  | String c s' =>
      match skip with
      | S k => re_delete_from m k s'
      | O =>
          match m s with
          | Some n => re_delete_from m (Nat.pred n) s'
          | None => String c (re_delete_from m 0 s')
          end
      end
  end.

Definition re_delete (m : string -> option nat) (s : string) : string :=
  re_delete_from m 0 s.

(** Match of [\s*] followed by the literal [lit] and then by [tail], where
    [tail rest] is the length matched by the remainder of the pattern.
    [\s*] is greedy and [lit] starts with a non-blank character, so
    backtracking into the blanks never produces another match. *)
Definition match_ws_lit (lit : string) (tail : string -> option nat)
           (s : string) : option nat :=
  let ws := span_len isspace s in
  let rest := drop ws s in
  if String.prefix lit rest then
    match tail (drop (String.length lit) rest) with
    | Some k => Some (ws + String.length lit + k)
    | None => None
    end
  else None.

(** The remainder after the first occurrence of [pat] in [s]. *)
Fixpoint find_after (pat : string) (s : string) : option string :=
  if String.prefix pat s then Some (drop (String.length pat) s)
  else match s with
       | EmptyString => None
       | String _ s' => find_after pat s'
       end.

End PyStr.

(* ===================================================================== *)
(** * Python values and src/models/post_content.py *)
(* ===================================================================== *)

Module Models.

(** The Python values that reach the coordinator through the dictionaries
    returned by platform clients. *)
Inductive pyval : Type :=
| VNone
| VBool (b : bool)
| VInt (z : Z)
| VStr (s : string)
| VList (l : list string).

#[global] Instance pyval_eq_dec : EqDecision pyval.
Proof. solve_decision. Defined.

(** Python's [==] on these values: a [bool] is an [int] (True == 1). *)
Definition py_eq (a b : pyval) : bool :=
  match a, b with
  | VBool x, VInt z | VInt z, VBool x => Z.eqb z (if x then 1 else 0)%Z
  | _, _ => bool_decide (a = b)
  end.

Definition py_ne (a b : pyval) : bool := negb (py_eq a b).

(** A JSON-like dictionary with string keys. *)
Abbreviation pydict := (gmap string pyval).

(** [d.get(key, default)] *)
Definition dict_get (d : pydict) (key : string) (default : pyval) : pyval :=
  match d !! key with
  | Some v => v
  | None => default
  end.

(** Truth value of an [Optional[Dict]]: [None] and the empty dictionary are
    false. *)
Definition truthy_dict (d : option pydict) : bool :=
  match d with
  | Some m => negb (bool_decide (m = ∅))
  | None => false
  end.

Record PostContent : Type := {
  title : string;
  subtitle : string;
  slug : string;
  tags : list string;
  cover : string;
  domain : string;
  save_as_draft : bool;
  enable_toc : bool;
  body_markdown : string;
  canonical_url : string;
  series_name : option string;
}.

Record PublicationResult : Type := {
  platform : string;
  success : bool;
  action : string;
  article_id : pyval;
  error_message : option string;
}.

End Models.

(* ===================================================================== *)
(** * src/processors/content_processor.py *)
(* ===================================================================== *)

Module ContentProcessor.
Import PyStr Models.

(** The front-matter pattern: three dashes and a newline, a lazy group,
    then newline, three dashes, newline, with [re.DOTALL].  It is anchored
    at the start of the text (no [re.MULTILINE]), and the lazy group stops
    at the first closing delimiter line. *)
Definition _remove_frontmatter (content : string) : string :=
  let opener := "---" +:+ chr nl in
  let closer := chr nl +:+ "---" +:+ chr nl in
  if String.prefix opener content then
    match find_after closer (drop (String.length opener) content) with
    | Some rest => rest
    | None => content
    end
  else content.

(** The attribute value: greedy up to a closing double quote, which must
    exist (any run of non-quote characters, then the quote). *)
Definition match_quoted_tail (s : string) : option nat :=
  let n := span_len (fun c => negb (Ascii.eqb c dquote)) s in
  match drop n s with
  | String _ _ => Some (S n)
  | EmptyString => None
  end.

(** Optional blanks, then an align attribute with any quoted value. *)
Definition match_align_any : string -> option nat :=
  match_ws_lit ("align=" +:+ chr dquote) match_quoted_tail.

(** Optional blanks, then an align attribute with the quoted value [v]. *)
Definition match_align_value (v : string) : string -> option nat :=
  match_ws_lit ("align=" +:+ chr dquote +:+ v +:+ chr dquote)
               (fun _ => Some 0).

Definition normalize_whitespace (content : string) : string :=
  sub_runs isspace " " (strip content).

Definition normalize_content_for_comparison (content : string) : string :=
  let content := _remove_frontmatter content in
  let content := normalize_whitespace content in
  re_delete match_align_any content.

Definition _apply_hashnode_transformations (content : string) : string :=
  let content := re_delete (match_align_value "center") content in
  let content := re_delete (match_align_value "left") content in
  re_delete (match_align_value "right") content.

Definition _apply_devto_transformations (content : string) : string :=
  content.

(** [[^a-zA-Z0-9\s-]] *)
Definition hashnode_special (c : ascii) : bool :=
  negb (is_ascii_lower c || is_ascii_upper c || is_ascii_digit c
        || isspace c || Ascii.eqb c hyphen).

Definition _sanitize_tag_for_hashnode (tag : string) : string :=
  let sanitized := delete_chars hashnode_special (strip (lower tag)) in
  let sanitized := sub_runs isspace "-" sanitized in
  let sanitized := sub_runs (Ascii.eqb hyphen) "-" sanitized in
  strip_chars hyphen sanitized.

Definition _sanitize_tag_for_devto (tag : string) : string :=
  lower (strip tag).

Definition truthy_str (s : string) : bool :=
  negb (String.eqb s "").

(** The loop that turns comma-separated entries into separate tags. *)
Fixpoint split_comma_tags (tags : list string) : list string :=
  match tags with
  | [] => []
  | tag :: rest =>
      (if contains_char comma tag
       then filter (fun t => truthy_str t = true)
                   (map strip (split comma tag))
       else [strip tag])
      ++ split_comma_tags rest
  end.

Definition convert_tags_for_platform (tags : list string) (platform : string)
  : list string :=
  match tags with
  | [] => []
  | _ =>
      let processed_tags := split_comma_tags tags in
      if String.eqb (lower platform) "hashnode" then
        map _sanitize_tag_for_hashnode
            (filter (fun t => truthy_str t = true) processed_tags)
      else if String.eqb (lower platform) "devto" then
        map _sanitize_tag_for_devto
            (filter (fun t => truthy_str t = true) processed_tags)
      else
        map (fun t => lower (strip t))
            (filter (fun t => truthy_str (strip t) = true) processed_tags)
  end.

(** All three branches of the source return the item's canonical URL. *)
Definition generate_canonical_url (post_content : PostContent)
           (platform : string) : string :=
  if String.eqb (lower platform) "devto" then canonical_url post_content
  else if String.eqb (lower platform) "hashnode"
       then canonical_url post_content
  else canonical_url post_content.

(** [_generate_table_of_contents] calls [build_toc] of the external
    [md_toc] package; the table-of-contents generator is a parameter
    here. *)
Definition process_content_for_platform
           (_generate_table_of_contents : string -> string)
           (post_content : PostContent) (platform : string) : string :=
  let content := body_markdown post_content in
  let content :=
    if enable_toc post_content then
      let toc := _generate_table_of_contents content in
      if truthy_str toc then toc +:+ chr nl +:+ chr nl +:+ content
      else content
    else content in
  if String.eqb (lower platform) "hashnode"
  then _apply_hashnode_transformations content
  else if String.eqb (lower platform) "devto"
       then _apply_devto_transformations content
  else content.

End ContentProcessor.

(* ===================================================================== *)
(** * src/utils/error_handler.py *)
(* ===================================================================== *)

Module ErrorHandler.
Import PyStr.

(** What the code reads of a [requests.Response]: the status code and the
    Retry-After header. *)
Record http_response : Type := {
  status_code : Z;
  retry_after_header : option string;
}.

(** The exception classes the code distinguishes.  The first three derive
    from [PublishingError]; [HTTPError], [ConnectionError] and [Timeout]
    derive from [requests]' [RequestException]; [OtherException] is any
    other subclass of [Exception]. *)
Inductive exn_class : Type :=
| AuthenticationError
| RateLimitError
| APIError
| HTTPError
| ConnectionError
| Timeout
| RequestException
| OtherException.

(** An exception: its class, [str(e)], and its [response] attribute:
    [None] when the object has no such attribute, [Some None] when the
    attribute holds [None]. *)
Record exn : Type := {
  exn_kind : exn_class;
  exn_msg : string;
  exn_response : option (option http_response);
}.

Inductive result (A : Type) : Type :=
| Ok (a : A)
| Raise (e : exn).
Arguments Ok {A} a.
Arguments Raise {A} e.

(** [PublishingError.__init__] sets no [response] attribute. *)
Definition publishing_error (k : exn_class) (message : string) : exn :=
  {| exn_kind := k; exn_msg := message; exn_response := None |}.

Definition builtin_error (message : string) : exn :=
  {| exn_kind := OtherException; exn_msg := message; exn_response := None |}.

(** [isinstance(e, (AuthenticationError, RateLimitError, APIError))] *)
Definition is_publishing_error (e : exn) : bool :=
  match exn_kind e with
  | AuthenticationError | RateLimitError | APIError => true
  | _ => false
  end.

(** Digits with single underscores between them, as [int] accepts. *)
Fixpoint parse_digits (s : string) (acc : Z) (after_digit : bool) : option Z :=
  match s with
  | EmptyString => if after_digit then Some acc else None
  | String c s' =>
      if is_ascii_digit c
      then parse_digits s' (acc * 10 + (Z.of_nat (nat_of_ascii c) - 48))%Z true
      else if Ascii.eqb c (ascii_of_nat 95)
           then if after_digit then parse_digits s' acc false else None
      else None
  end.

(** The blanks [int] skips around the digits: those of [isspace] except
    the separators FS..US. *)
Definition int_blank (c : ascii) : bool :=
  let n := nat_of_ascii c in
  isspace c && negb ((28 <=? n) && (n <=? 31)).

(** [int(s)] on a string; [None] stands for [ValueError]. *)
Definition py_int (s : string) : option Z :=
  match strip_if int_blank s with
  | String c r =>
      if Ascii.eqb c (ascii_of_nat 43) then parse_digits r 0%Z false
      else if Ascii.eqb c (ascii_of_nat 45)
           then option_map Z.opp (parse_digits r 0%Z false)
      else parse_digits (String c r) 0%Z false
  | EmptyString => None
  end.

Section Retry.

Context {St A : Type}.

Variable max_retries : Z.
Variables base_delay max_delay backoff_factor : Q.

(** The function under the decorator: it may change its world. *)
Variable func : St -> result A * St.

(** [min(base_delay * (backoff_factor**attempt), max_delay)] in exact
    arithmetic: the value the code computes whenever the power and the
    product are floats (see [exact_backoff] below). *)
Definition backoff_delay (attempt : nat) : Q :=
  Qmin (base_delay * backoff_factor ^ Z.of_nat attempt) max_delay.

(** [isinstance(e, RateLimitError) or (hasattr(e, "response") and
    e.response.status_code == 429)]; reading [status_code] off a [None]
    response raises [AttributeError]. *)
Definition is_rate_limited (e : exn) : result bool :=
  match exn_kind e with
  | RateLimitError => Ok true
  | _ =>
      match exn_response e with
      | None => Ok false
      | Some None =>
          Raise (builtin_error
                   "'NoneType' object has no attribute 'status_code'")
      | Some (Some r) => Ok (Z.eqb (status_code r) 429)
      end
  end.

(** The value of [retry_after] once the header has been read and parsed:
    [None] also when the header is missing, empty or not an integer. *)
Definition retry_after_of (e : exn) : option Z :=
  match exn_response e with
  | Some (Some r) =>
      match retry_after_header r with
      | Some h => if String.eqb h "" then None else py_int h
      | None => None
      end
  | _ => None
  end.

(** The delay chosen in the rate-limit branch ([if retry_after:] is false
    for 0 as well). *)
Definition rate_limit_delay (e : exn) (attempt : nat) : Q :=
  match retry_after_of e with
  | Some n => if Z.eqb n 0 then backoff_delay attempt
              else Qmin (inject_Z n) max_delay
  | None => backoff_delay attempt
  end.

(** [time.sleep(delay)]: a negative delay raises [ValueError]; otherwise the
    delay is recorded. *)
Definition sleep (delay : Q) (slept : list Q) : result (list Q) :=
  if Qle_bool 0 delay then Ok (slept ++ [delay])%list
  else Raise (builtin_error "sleep length must be non-negative").

(** What one [except] clause does with the failure of attempt [attempt],
    when this is not the last attempt: the delay to sleep, or the exception
    that leaves the wrapper. *)
Definition retry_delay (e : exn) (attempt : nat) : result Q :=
  match exn_kind e with
  | RateLimitError | HTTPError =>
      match is_rate_limited e with
      | Ok true => Ok (rate_limit_delay e attempt)
      | Ok false => Ok (backoff_delay attempt)
      | Raise e' => Raise e'
      end
  | ConnectionError | Timeout | RequestException =>
      Ok (backoff_delay attempt)
  | _ => Raise e
  end.

(** [raise last_exception] after the loop. *)
Definition raise_last (last_exception : option exn) : result A :=
  match last_exception with
  | Some e => Raise e
  | None => Raise (builtin_error "exceptions must derive from BaseException")
  end.

(** The [for attempt in range(max_retries + 1)] loop; [remaining] is the
    number of iterations left. *)
Fixpoint retry_loop (remaining : nat) (attempt : nat)
         (last_exception : option exn) (s : St) (slept : list Q)
  : result A * St * list Q :=
  match remaining with
  | O => (raise_last last_exception, s, slept)
  | S remaining' =>
      match func s with
      | (Ok v, s') => (Ok v, s', slept)
      | (Raise e, s') =>
          match exn_kind e with
          | RateLimitError | HTTPError
          | ConnectionError | Timeout | RequestException =>
              if Z.eqb (Z.of_nat attempt) max_retries
              then (raise_last (Some e), s', slept)
              else
                match retry_delay e attempt with
                | Ok delay =>
                    match sleep delay slept with
                    | Ok slept' =>
                        retry_loop remaining' (S attempt) (Some e)
                                   s' slept'
                    | Raise e' => (Raise e', s', slept)
                    end
                | Raise e' => (Raise e', s', slept)
                end
          | _ => (Raise e, s', slept)
          end
      end
  end.

(** The wrapper produced by the decorator: the outcome, the world after
    the call and the delays slept. *)
Definition with_retry_and_rate_limiting (s : St) : result A * St * list Q :=
  retry_loop (Z.to_nat (max_retries + 1)) 0 None s [].

End Retry.



(** The failures after which the wrapper sleeps and calls again, while
    attempts remain: a rate-limit failure, an HTTP failure that carries a
    response, a network failure; the Retry-After hint, if one is read, must
    not be negative ([time.sleep] would raise). *)
Definition transient (e : exn) : bool :=
  let hint_ok :=
    match retry_after_of e with
    | Some n => Z.leb 0 n
    | None => true
    end in
  match exn_kind e with
  | RateLimitError => hint_ok
  | HTTPError =>
      match exn_response e with
      | Some None => false
      | Some (Some r) => if Z.eqb (status_code r) 429 then hint_ok else true
      | None => true
      end
  | ConnectionError | Timeout | RequestException => true
  | _ => false
  end.


(** The failures the wrapper re-raises at once. *)
Definition not_retried (e : exn) : bool :=
  match exn_kind e with
  | AuthenticationError | APIError | OtherException => true
  | _ => false
  end.

(** A call counter around a function, as the tests keep one. *)
Definition counted {St A : Type} (func : St -> result A * St)
  : St * nat -> result A * (St * nat) :=
  fun '(s, n) => let '(r, s') := func s in (r, (s', S n)).

End ErrorHandler.

(* ===================================================================== *)
(** * src/interfaces/platform_client.py *)
(* ===================================================================== *)

Module PlatformClient.
Import Models ErrorHandler.

(** The payload built by [_create_content_dict]: the [frontmatterData]
    entries and [bodyMarkdown]. *)
Record ContentDict : Type := {
  cd_title : string;
  cd_subtitle : string;
  cd_slug : string;
  cd_tags : string;
  cd_cover : string;
  cd_domain : string;
  cd_saveAsDraft : bool;
  cd_seriesName : option string;
  cd_canonicalUrl : string;
  cd_bodyMarkdown : string;
}.

Record DeleteResult : Type := {
  dr_success : bool;
  already_deleted : bool;
}.

(** A platform client acting on a world [W] (the remote platforms): every
    operation may change the world, and returns or raises. *)
Record PlatformClient (W : Type) : Type := {
  publish_article : ContentDict -> bool -> W -> result pydict * W;
  update_article : pyval -> ContentDict -> bool -> W -> result pydict * W;
  get_articles : W -> result (list pydict) * W;
  get_article : pyval -> bool -> W -> result (option pydict) * W;
  find_article_by_title : string -> W -> result (pyval * pyval) * W;
  delete_article : pyval -> W -> result DeleteResult * W;
}.
Arguments publish_article {W} _ _ _ _.
Arguments update_article {W} _ _ _ _ _.
Arguments get_articles {W} _ _.
Arguments get_article {W} _ _ _ _.
Arguments find_article_by_title {W} _ _ _.
Arguments delete_article {W} _ _ _.

(** The calls a client receives, as a mock client records them. *)
Inductive call : Type :=
| PublishArticle (content : ContentDict) (published : bool)
| UpdateArticle (article_id : pyval) (content : ContentDict) (published : bool)
| GetArticle (article_id : pyval) (published : bool)
| FindArticleByTitle (title : string).

Definition is_mutation (c : call) : bool :=
  match c with
  | PublishArticle _ _ | UpdateArticle _ _ _ => true
  | GetArticle _ _ | FindArticleByTitle _ => false
  end.

End PlatformClient.

(* ===================================================================== *)
(** * src/managers/publication_manager.py *)
(* ===================================================================== *)

Module PublicationManager.
Import PyStr Models ErrorHandler PlatformClient.

Section Manager.

Context {W : Type}.

(** The table-of-contents generator (it relies on the external [md_toc]). *)
Variable _generate_table_of_contents : string -> string.

(** The state a run threads: the world the clients act on and the calls
    made so far, each with the platform it went to. *)
Record mstate : Type := {
  world : W;
  calls : list (string * call);
}.

Definition M (A : Type) : Type := mstate -> result A * mstate.

Definition ret {A} (a : A) : M A := fun st => (Ok a, st).

Definition raise {A} (e : exn) : M A := fun st => (Raise e, st).

Definition bind {A B} (m : M A) (k : A -> M B) : M B :=
  fun st =>
    match m st with
    | (Ok a, st') => k a st'
    | (Raise e, st') => (Raise e, st')
    end.

(** [try: m  except Exception as e: h e] *)
Definition try_except {A} (m : M A) (h : exn -> M A) : M A :=
  fun st =>
    match m st with
    | (Ok a, st') => (Ok a, st')
    | (Raise e, st') => h e st'
    end.

Notation "x <- m ;; k" := (bind m (fun x => k))
  (at level 100, m at next level, right associativity).

(** A call to a client operation. *)
Definition invoke {A} (platform_name : string) (c : call)
           (op : W -> result A * W) : M A :=
  fun st =>
    let '(r, w) := op (world st) in
    (r, {| world := w; calls := (calls st ++ [(platform_name, c)])%list |}).

(** [normalize_content_for_comparison] on a value taken from a dictionary:
    [re.sub] raises [TypeError] on anything but a string. *)
Definition normalize_value (v : pyval) : M string :=
  match v with
  | VStr s => ret (ContentProcessor.normalize_content_for_comparison s)
  | _ => raise (builtin_error "expected string or bytes-like object")
  end.

(** The tag list of the remote article: a comma-separated string is split,
    a list is taken as it is, anything else counts as no tags. *)
Definition existing_tags_of (v : pyval) : list string :=
  match v with
  | VStr s =>
      map strip
          (filter (fun tag => ContentProcessor.truthy_str (strip tag) = true)
                  (split comma s))
  | VList l => l
  | _ => []
  end.

Definition title_changed (post_content : PostContent) (existing : pydict)
  : bool :=
  py_ne (VStr (title post_content)) (dict_get existing "title" (VStr "")).

Definition content_changed_of (local_content platform_content : string)
  : bool :=
  negb (String.eqb local_content platform_content).

Definition tags_changed (post_content : PostContent) (existing : pydict)
  : bool :=
  negb (bool_decide
          (list_to_set (tags post_content) =@{gset string}
           list_to_set (existing_tags_of (dict_get existing "tags" (VList []))))).

Definition published_changed (post_content : PostContent) (existing : pydict)
  : bool :=
  py_ne (VBool (negb (save_as_draft post_content)))
        (dict_get existing "published" (VBool false)).

Definition cover_changed (post_content : PostContent) (existing : pydict)
  : bool :=
  py_ne (VStr (cover post_content))
        (dict_get existing "cover_image" (VStr "")).

(** The comparison of [_needs_update] once the article is at hand. *)
Definition compare_with_existing (post_content : PostContent)
           (existing : pydict) : M bool :=
  let local_content :=
    ContentProcessor.normalize_content_for_comparison
      (body_markdown post_content) in
  platform_content <-
    normalize_value (dict_get existing "body_markdown" (VStr "")) ;;
  let content_changed := content_changed_of local_content platform_content in
  ret (title_changed post_content existing
       || content_changed
       || tags_changed post_content existing
       || published_changed post_content existing
       || cover_changed post_content existing).

Definition _needs_update (post_content : PostContent) (article_id : pyval)
           (client : PlatformClient W) (platform_name : string) : M bool :=
  try_except
    (existing_article <-
       invoke platform_name (GetArticle article_id true)
              (get_article client article_id true) ;;
     existing_article <-
       (if truthy_dict existing_article then ret existing_article
        else invoke platform_name (GetArticle article_id false)
                    (get_article client article_id false)) ;;
     match existing_article with
     | Some existing =>
         if truthy_dict existing_article
         then compare_with_existing post_content existing
         else ret true
     | None => ret true
     end)
    (fun e => if is_publishing_error e then raise e else ret true).

Definition _create_content_dict (post_content : PostContent)
           (processed_content : string) (platform_name : string)
  : ContentDict :=
  let platform_tags :=
    ContentProcessor.convert_tags_for_platform (tags post_content)
                                               platform_name in
  let canonical_url :=
    ContentProcessor.generate_canonical_url post_content platform_name in
  {| cd_title := title post_content;
     cd_subtitle := subtitle post_content;
     cd_slug := slug post_content;
     cd_tags := join "," platform_tags;
     cd_cover := cover post_content;
     cd_domain := domain post_content;
     cd_saveAsDraft := save_as_draft post_content;
     cd_seriesName := series_name post_content;
     cd_canonicalUrl := canonical_url;
     cd_bodyMarkdown := processed_content |}.

Definition _publish_to_platform (post_content : PostContent)
           (platform_name : string) (client : PlatformClient W)
  : M PublicationResult :=
  try_except
    (found <-
       invoke platform_name (FindArticleByTitle (title post_content))
              (find_article_by_title client (title post_content)) ;;
     let '(article_id, is_published) := found in
     let processed_content :=
       ContentProcessor.process_content_for_platform
         _generate_table_of_contents post_content platform_name in
     let content_dict :=
       _create_content_dict post_content processed_content platform_name in
     match article_id with
     | VNone =>
         response <-
           invoke platform_name
                  (PublishArticle content_dict
                                  (negb (save_as_draft post_content)))
                  (publish_article client content_dict
                                   (negb (save_as_draft post_content))) ;;
         ret {| platform := platform_name;
                success := true;
                action := "created";
                article_id := dict_get response "id" VNone;
                error_message := None |}
     | _ =>
         changed <-
           _needs_update post_content article_id client platform_name ;;
         if changed : bool then
           response <-
             invoke platform_name
                    (UpdateArticle article_id content_dict
                                   (negb (save_as_draft post_content)))
                    (update_article client article_id content_dict
                                    (negb (save_as_draft post_content))) ;;
           ret {| platform := platform_name;
                  success := true;
                  action := "updated";
                  article_id := article_id;
                  error_message := None |}
         else
           ret {| platform := platform_name;
                  success := true;
                  action := "skipped";
                  article_id := article_id;
                  error_message := None |}
     end)
    (fun e => raise e).

Definition error_result (platform_name : string) (message : string)
  : PublicationResult :=
  {| platform := platform_name;
     success := false;
     action := "error";
     article_id := VNone;
     error_message := Some message |}.

(** One iteration of the loop over [platform_clients.items()]. *)
Definition publish_step (post_content : PostContent)
           (results : list PublicationResult)
           (entry : string * PlatformClient W) : M (list PublicationResult) :=
  let '(platform_name, client) := entry in
  try_except
    (result <- _publish_to_platform post_content platform_name client ;;
     ret (results ++ [result])%list)
    (fun e =>
       if is_publishing_error e
       then ret (results ++ [error_result platform_name (exn_msg e)])%list
       else ret (results
                 ++ [error_result platform_name
                                  ("Unexpected error: " +:+ exn_msg e)])%list).

Fixpoint publish_loop (post_content : PostContent)
         (platform_clients : list (string * PlatformClient W))
         (results : list PublicationResult) : M (list PublicationResult) :=
  match platform_clients with
  | [] => ret results
  | entry :: rest =>
      results' <- publish_step post_content results entry ;;
      publish_loop post_content rest results'
  end.

(** [platform_clients] is the dictionary given to the constructor, as the
    list of its items in insertion order.  The summary computed after the
    loop is only logged, and logging is left out throughout. *)
Definition publish_to_all_platforms
           (platform_clients : list (string * PlatformClient W))
           (post_content : PostContent) : M (list PublicationResult) :=
  publish_loop post_content platform_clients [].

End Manager.

End PublicationManager.

(* ===================================================================== *)
(** * An in-memory platform client, after the tests' MockPlatformClient *)
(* ===================================================================== *)

Module Mock.
Import PyStr Models ErrorHandler PlatformClient.

(** The world: the articles stored on each platform, newest last.  Ids
    are the integers 1, 2, ... per platform. *)
Definition mock_world : Type := list (string * pydict).

Definition stored_on (platform_name : string) (w : mock_world) : list pydict :=
  map snd (filter (fun entry => String.eqb (fst entry) platform_name = true) w).

Definition article_of (article_id : pyval) (content : ContentDict)
           (published : bool) : pydict :=
  {[ "id" := article_id;
     "title" := VStr (cd_title content);
     "body_markdown" := VStr (cd_bodyMarkdown content);
     "published" := VBool published;
     "tags" := VList (if String.eqb (cd_tags content) "" then []
                      else split comma (cd_tags content));
     "cover_image" := VStr (cd_cover content) ]}.

Definition mock_failure (platform_name : string) : exn :=
  builtin_error ("Mock error in " +:+ platform_name).

Fixpoint find_by (key : string) (v : pyval) (l : list pydict) : option pydict :=
  match l with
  | [] => None
  | a :: rest => if py_eq (dict_get a key VNone) v then Some a
                 else find_by key v rest
  end.

Definition mock_find (platform_name : string) (should_fail : bool)
           (title : string) (w : mock_world) : result (pyval * pyval) * mock_world :=
  if should_fail then (Raise (mock_failure platform_name), w)
  else match find_by "title" (VStr title) (stored_on platform_name w) with
       | Some a => (Ok (dict_get a "id" VNone, dict_get a "published" VNone), w)
       | None => (Ok (VNone, VNone), w)
       end.

Definition mock_publish (platform_name : string) (should_fail : bool)
           (content : ContentDict) (published : bool) (w : mock_world)
  : result pydict * mock_world :=
  if should_fail then (Raise (mock_failure platform_name), w)
  else
    let article_id :=
      VInt (Z.of_nat (S (length (stored_on platform_name w)))) in
    (Ok {[ "id" := article_id ]},
     (w ++ [(platform_name, article_of article_id content published)])%list).

Definition mock_update (platform_name : string) (should_fail : bool)
           (article_id : pyval) (content : ContentDict) (published : bool)
           (w : mock_world) : result pydict * mock_world :=
  if should_fail then (Raise (mock_failure platform_name), w)
  else
    (Ok {[ "id" := article_id ]},
     map (fun entry =>
            if String.eqb (fst entry) platform_name
               && py_eq (dict_get (snd entry) "id" VNone) article_id
            then (platform_name, article_of article_id content published)
            else entry) w).

Definition mock_get (platform_name : string) (should_fail : bool)
           (article_id : pyval) (published : bool) (w : mock_world)
  : result (option pydict) * mock_world :=
  if should_fail then (Raise (mock_failure platform_name), w)
  else match find_by "id" article_id (stored_on platform_name w) with
       | Some a =>
           if py_eq (dict_get a "published" VNone) (VBool published)
           then (Ok (Some a), w) else (Ok None, w)
       | None => (Ok None, w)
       end.

Definition MockPlatformClient (platform_name : string) (should_fail : bool)
  : PlatformClient mock_world :=
  {| publish_article := mock_publish platform_name should_fail;
     update_article := mock_update platform_name should_fail;
     get_articles := fun w =>
       if should_fail then (Raise (mock_failure platform_name), w)
       else (Ok (stored_on platform_name w), w);
     get_article := mock_get platform_name should_fail;
     find_article_by_title := mock_find platform_name should_fail;
     delete_article := fun article_id w =>
       if should_fail then (Raise (mock_failure platform_name), w)
       else (Ok {| dr_success := true; already_deleted := false |},
             filter (fun entry =>
                       negb (String.eqb (fst entry) platform_name
                             && py_eq (dict_get (snd entry) "id" VNone)
                                      article_id) = true) w) |}.

(** A post used in the examples. *)
Definition sample_post : PostContent :=
  {| title := "T"; subtitle := "S"; slug := "t"; tags := ["python"; "blog"];
     cover := "c.png"; domain := "example.com"; save_as_draft := false;
     enable_toc := false; body_markdown := "Body  text";
     canonical_url := "https://example.com/t"; series_name := None |}.

Definition no_toc (content : string) : string := "".

(** The functions of the retry tests: the state is the call count. *)
Definition rate_limited_function (call_count : nat) : result string * nat :=
  if S call_count <? 3
  then (Raise (publishing_error RateLimitError "Rate limited"), S call_count)
  else (Ok "success", S call_count).

Definition always_fails (call_count : nat) : result string * nat :=
  (Raise (publishing_error RateLimitError "Always fails"), S call_count).


Definition always_http_500 (call_count : nat) : result string * nat :=
  (Raise {| exn_kind := HTTPError;
            exn_msg := "500 Server Error";
            exn_response :=
              Some (Some {| status_code := 500;
                            retry_after_header := None |}) |},
   S call_count).

(** Two platforms, the second of which always fails, and the states of a
    first and of a second publication of [sample_post]. *)
Definition mock_clients : list (string * PlatformClient mock_world) :=
  [("devto", MockPlatformClient "devto" false);
   ("hashnode", MockPlatformClient "hashnode" true)].

Definition mock_st0 : @PublicationManager.mstate mock_world :=
  {| PublicationManager.world := []; PublicationManager.calls := [] |}.

Definition mock_st1 : @PublicationManager.mstate mock_world :=
  snd (PublicationManager.publish_to_all_platforms
         no_toc mock_clients sample_post mock_st0).

(** The article the first publication stores on the first platform. *)
Definition sample_stored : pydict :=
  article_of (VInt 1)
    (PublicationManager._create_content_dict
       sample_post
       (ContentProcessor.process_content_for_platform no_toc sample_post
                                                      "devto")
       "devto")
    true.

(** [sample_post] with other values in the five fields that are
    compared. *)
Definition edited_post (title' body' : string) (tags' : list string)
           (draft : bool) (cover' : string) : PostContent :=
  {| title := title'; subtitle := subtitle sample_post;
     slug := slug sample_post; tags := tags';
     cover := cover'; domain := domain sample_post;
     save_as_draft := draft; enable_toc := enable_toc sample_post;
     body_markdown := body'; canonical_url := canonical_url sample_post;
     series_name := series_name sample_post |}.

End Mock.

(* ===================================================================== *)
(** * Derived notions used in the statements *)
(* ===================================================================== *)

Module Run.
Import PyStr Models ErrorHandler PlatformClient PublicationManager.

Section Run.

Context {W : Type}.
Variable toc : string -> string.

(** The outcome the loop of [publish_to_all_platforms] records for what
    [_publish_to_platform] returned or raised. *)
Definition outcome_of (platform_name : string)
           (r : result PublicationResult) : PublicationResult :=
  match r with
  | Ok x => x
  | Raise e =>
      error_result platform_name
                   (if is_publishing_error e then exn_msg e
                    else "Unexpected error: " +:+ exn_msg e)
  end.

(** The state in which the platform at position [i] is processed. *)
Definition state_before (post_content : PostContent)
           (platform_clients : list (string * PlatformClient W))
           (i : nat) (st : @mstate W) : @mstate W :=
  snd (publish_to_all_platforms toc (take i platform_clients) post_content st).

(** The remote article [_needs_update] ends up comparing with, and the
    world after the fetch: the published one, else the draft. *)
Definition fetch_existing (client : PlatformClient W) (article_id : pyval)
           (w : W) : option (pydict * W) :=
  match get_article client article_id true w with
  | (Ok a1, w1) =>
      if truthy_dict a1 then
        match a1 with Some existing => Some (existing, w1) | None => None end
      else
        match get_article client article_id false w1 with
        | (Ok (Some existing), w2) =>
            if truthy_dict (Some existing) then Some (existing, w2) else None
        | _ => None
        end
  | (Raise _, _) => None
  end.

End Run.

(** Shapes of strings used to describe sanitized tags. *)
Fixpoint all_chars (p : ascii -> bool) (s : string) : bool :=
  match s with
  | EmptyString => true
  | String c s' => p c && all_chars p s'
  end.

(** No two characters of the class [p] in a row. *)
Fixpoint no_repeat (p : ascii -> bool) (s : string) : bool :=
  match s with
  | String a s' =>
      match s' with
      | String b _ => negb (p a && p b) && no_repeat p s'
      | EmptyString => true
      end
  | EmptyString => true
  end.

Definition starts_with (p : ascii -> bool) (s : string) : bool :=
  match s with
  | String c _ => p c
  | EmptyString => false
  end.

Fixpoint ends_with (p : ascii -> bool) (s : string) : bool :=
  match s with
  | String c EmptyString => p c
  | String _ s' => ends_with p s'
  | EmptyString => false
  end.

(** Not a blank other than the plain space. *)
Definition plain_blank (c : ascii) : bool :=
  negb (isspace c) || Ascii.eqb c space.

(** Text as the whitespace normalization leaves it: single plain spaces
    between the words, none at either end. *)
Definition whitespace_normal (s : string) : bool :=
  all_chars plain_blank s
  && no_repeat isspace s
  && negb (starts_with isspace s)
  && negb (ends_with isspace s).

(** The opening of an align attribute: the word, the equals sign and the
    double quote. *)
Definition align_open : string := "align=" +:+ chr dquote.

(** The example document with front matter: a block with one entry between
    two delimiter lines, then the body. *)
Definition front_matter_example : string :=
  "---" +:+ chr nl +:+ "a: 1" +:+ chr nl +:+ "---" +:+ chr nl +:+ "Body".

(** A text on which normalizing twice differs from normalizing once. *)
Definition align_then_text : string :=
  align_open +:+ "x" +:+ chr dquote +:+ " foo".

(** A lower-case letter, a digit or a hyphen. *)
Definition tag_char (c : ascii) : bool :=
  is_ascii_lower c || is_ascii_digit c || Ascii.eqb c hyphen.

(** A lower-case-hyphenated tag: only letters a-z, digits and hyphens, no
    hyphen repeated, none at either end. *)
Definition hyphenated_tag (s : string) : bool :=
  all_chars tag_char s
  && no_repeat (Ascii.eqb hyphen) s
  && negb (starts_with (Ascii.eqb hyphen) s)
  && negb (ends_with (Ascii.eqb hyphen) s).

End Run.

(* ===================================================================== *)
(** * Sample inputs for the examples *)
(* ===================================================================== *)

Module Samples.
Import PyStr Models ErrorHandler.

(** An HTTP 429 failure that asks to retry after 5 seconds. *)
Definition too_many_requests : exn :=
  {| exn_kind := HTTPError;
     exn_msg := "429 Too Many Requests";
     exn_response :=
       Some (Some {| status_code := 429;
                     retry_after_header := Some "5" |}) |}.

(** A function that is refused once and then answers. *)
Definition refused_once (call_count : nat) : result string * nat :=
  match call_count with
  | O => (Raise too_many_requests, 1)
  | S _ => (Ok "done", S call_count)
  end.

End Samples.

(* ===================================================================== *)
(** * handle_api_response (src/utils/error_handler.py) *)
(* ===================================================================== *)

Module HttpApi.
Import PyStr ErrorHandler.

(** A decoded JSON value.  [JNum] stands for an integer; the fields of a
    [JObj] are in document order, and a later entry for a key replaces an
    earlier one, as in the decoded dictionary. *)
#[warnings="-register-all"]
Inductive json : Type :=
| JNull
| JBool (b : bool)
| JNum (z : Z)
| JStr (s : string)
| JArr (items : list json)
| JObj (fields : list (string * json)).

(** What the code reads of a [requests.Response]: [status_code], [text],
    the outcome of [json()] ([None] when the text is not JSON, which raises
    a [ValueError]) and the Retry-After header. *)
Record Response : Type := {
  resp_status : Z;
  resp_text : string;
  resp_json : option json;
  resp_retry_after : option string;
}.

(** [s[:n]] *)
Fixpoint str_take (n : nat) (s : string) : string :=
  match n, s with
  | S n', String c s' => String c (str_take n' s')
  | _, _ => EmptyString
  end.

(** [str(z)] for an integer. *)
Definition str_of_int (z : Z) : string :=
  NilZero.string_of_int (Z.to_int z).

Section Handle.

(** [str] of a list or of a dictionary (their [repr]) is left open. *)
Variable repr_container : json -> string.

Definition py_str (v : json) : string :=
  match v with
  | JNull => "None"
  | JBool true => "True"
  | JBool false => "False"
  | JNum z => str_of_int z
  | JStr s => s
  | JArr _ | JObj _ => repr_container v
  end.

(** [d.get(key)] on a decoded object. *)
Definition obj_get (fields : list (string * json)) (key : string)
  : option json :=
  option_map snd
    (find (fun kv => String.eqb (fst kv) key) (rev fields)).

(** [key in data]; [None] stands for the [TypeError] of a value that is
    not a container. *)
Definition json_contains (key : string) (data : json) : option bool :=
  match data with
  | JObj fields =>
      Some (existsb (fun kv => String.eqb (fst kv) key) fields)
  | JArr items =>
      Some (existsb (fun v => match v with
                              | JStr s => String.eqb s key
                              | _ => false
                              end) items)
  | JStr s => Some (contains key s)
  | JNull | JBool _ | JNum _ => None
  end.

(** [data[key]] for a string key; [None] stands for the exception raised
    on anything but an object that has the key. *)
Definition json_getitem (key : string) (data : json) : option json :=
  match data with
  | JObj fields => obj_get fields key
  | _ => None
  end.

(** The [if key in data: ... elif ...] chain over the decoded error body:
    [None] when an exception is raised, [Some None] when no key is there,
    [Some (Some text)] for the text of the first key found. *)
Fixpoint first_detail (keys : list string) (data : json)
  : option (option string) :=
  match keys with
  | [] => Some None
  | key :: rest =>
      match json_contains key data with
      | None => None
      | Some true =>
          match json_getitem key data with
          | Some v => Some (Some (py_str v))
          | None => None
          end
      | Some false => first_detail rest data
      end
  end.

(** What the [if response.text: try ... except ...] block appends to the
    message. *)
Definition error_detail (sep : string) (keys : list string)
           (response : Response) : string :=
  if String.eqb (resp_text response) "" then ""
  else
    let fallback := sep +:+ str_take 200 (resp_text response) in
    match resp_json response with
    | None => fallback
    | Some data =>
        match first_detail keys data with
        | None => fallback
        | Some None => ""
        | Some (Some detail) => sep +:+ detail
        end
    end.

(** [response.raise_for_status()] raises for the 4xx and 5xx codes. *)
Definition raises_for_status (response : Response) : bool :=
  Z.leb 400 (resp_status response) && Z.ltb (resp_status response) 600.

Definition handle_api_response (response : Response)
           (platform operation : string) (article_title : option string)
  : result json :=
  if raises_for_status response then
    let status_code := resp_status response in
    if Z.eqb status_code 401 || Z.eqb status_code 403 then
      Raise (publishing_error AuthenticationError
               ("Authentication failed for " +:+ platform
                +:+ error_detail ": " ["error"] response))
    else if Z.eqb status_code 429 then
      Raise (publishing_error RateLimitError
               ("Rate limit exceeded on " +:+ platform))
    else
      Raise (publishing_error APIError
               ("API error on " +:+ platform +:+ ": "
                +:+ str_of_int status_code
                +:+ error_detail " - " ["error"; "message"] response))
  else
    match resp_json response with
    | Some data => Ok data
    | None =>
        Raise (publishing_error APIError
                 ("Invalid JSON response from " +:+ platform))
    end.

End Handle.

End HttpApi.

(* ===================================================================== *)
(** * src/client/devto_client.py: reading the articles *)
(* ===================================================================== *)

Module DevTo.
Import PyStr ErrorHandler HttpApi.

Definition ARTICLES_URL : string := "https://dev.to/api/articles".

(** [len(v)] *)
Definition py_len (v : json) : result nat :=
  match v with
  | JStr s => Ok (String.length s)
  | JArr items => Ok (length items)
  | JObj fields => Ok (length fields)
  | JNull => Raise (builtin_error "object of type 'NoneType' has no len()")
  | JBool _ => Raise (builtin_error "object of type 'bool' has no len()")
  | JNum _ => Raise (builtin_error "object of type 'int' has no len()")
  end.

(** The two [except] clauses that close every client method: the three
    classified errors pass, anything else becomes an [APIError]. *)
Definition reraise_as_api_error {A} (prefix : string) (r : result A)
  : result A :=
  match r with
  | Ok v => Ok v
  | Raise e =>
      if is_publishing_error e then Raise e
      else Raise (publishing_error APIError (prefix +:+ exn_msg e))
  end.

Section Client.

Context {W : Type}.
Variable repr_container : json -> string.

(** [requests.get(url, headers=..., timeout=30)] on the network [W]. *)
Variable http_get : string -> W -> result Response * W.

(** The function under the decorator of [get_articles]. *)
Definition get_articles_body (w : W) : result json * W :=
  let url := ARTICLES_URL +:+ "/me/all?per_page=1000" in
  let '(got, w') := http_get url w in
  (reraise_as_api_error "Unexpected error retrieving DevTo articles: "
     match got with
     | Ok response =>
         match handle_api_response repr_container response "devto"
                                   "get_articles" None with
         | Ok result =>
             match py_len result with
             | Ok _ => Ok result
             | Raise e => Raise e
             end
         | Raise e => Raise e
         end
     | Raise e => Raise e
     end,
   w').

(** [@with_retry_and_rate_limiting(max_retries=3, base_delay=1.0)] *)
Definition get_articles (w : W) : result json * W * list Q :=
  with_retry_and_rate_limiting 3 1 60 2 get_articles_body w.

(** The loop of [find_article_by_title] over the articles: the id (as
    text) and the published entry of the first article with that title;
    [None] inside [Ok] when there is none, [Raise] when an element is not
    an object (it has no [get]). *)
Fixpoint scan_articles (title : string) (articles : list json)
  : result (option (string * json)) :=
  match articles with
  | [] => Ok None
  | JObj fields :: rest =>
      match obj_get fields "title" with
      | Some (JStr t) =>
          if String.eqb t title
          then Ok (Some (py_str repr_container
                                (default JNull (obj_get fields "id")),
                         default (JBool false) (obj_get fields "published")))
          else scan_articles title rest
      | _ => scan_articles title rest
      end
  | _ :: rest =>
      Raise (builtin_error "object has no attribute 'get'")
  end.

(** What [for article in articles] goes through: the items of a list, the
    keys of a dictionary, the characters of a string. *)
Definition iterate (v : json) : result (list json) :=
  match v with
  | JArr items => Ok items
  | JObj fields => Ok (map (fun kv => JStr (fst kv)) fields)
  | JStr s => Ok (map (fun c => JStr (String c EmptyString))
                      (list_ascii_of_string s))
  | JNull | JBool _ | JNum _ =>
      Raise (builtin_error "object is not iterable")
  end.

(** [find_article_by_title]: [Some (id, published)] or [None] for the
    pair [(None, None)]; an unexpected failure also gives [None]. *)
Definition find_article_by_title (title : string) (w : W)
  : result (option (string * json)) * W * list Q :=
  let '(got, w', slept) := get_articles w in
  (match got with
   | Ok articles =>
       match iterate articles with
       | Ok items =>
           match scan_articles title items with
           | Ok found => Ok found
           | Raise e => if is_publishing_error e then Raise e else Ok None
           end
       | Raise e => if is_publishing_error e then Raise e else Ok None
       end
   | Raise e => if is_publishing_error e then Raise e else Ok None
   end,
   w', slept).

End Client.

End DevTo.

Module HttpSamples.
Import PyStr ErrorHandler HttpApi DevTo.

Definition sample_repr (v : json) : string := "<container>".

(** A network on which every request fails to connect. *)
Definition unreachable (url : string) (w : unit)
  : result Response * unit :=
  (Raise {| exn_kind := ConnectionError;
            exn_msg := "Connection refused";
            exn_response := Some None |}, w).

(** A server that rejects every request with status 429 and asks to wait
    two minutes. *)
Definition throttled (url : string) (w : unit) : result Response * unit :=
  (Ok {| resp_status := 429;
         resp_text := "";
         resp_json := None;
         resp_retry_after := Some "120" |}, w).

(** A server whose article list holds three articles. *)
Definition three_articles : list json :=
  [JObj [("id", JNum 1); ("title", JStr "First"); ("published", JBool true)];
   JObj [("id", JNum 2); ("title", JStr "Second")];
   JObj [("id", JNum 3); ("title", JStr "First")]].

Definition serving (url : string) (w : unit) : result Response * unit :=
  (Ok {| resp_status := 200;
         resp_text := "[...]";
         resp_json := Some (JArr three_articles);
         resp_retry_after := None |}, w).

End HttpSamples.

Module DevToNotions.
Import PyStr ErrorHandler HttpApi DevTo.

Definition is_object (v : json) : bool :=
  match v with
  | JObj _ => true
  | _ => false
  end.

(** An article (an object) whose title is not the text [title]. *)
Definition other_title (title : string) (v : json) : bool :=
  match v with
  | JObj fields =>
      match obj_get fields "title" with
      | Some (JStr t) => negb (String.eqb t title)
      | _ => true
      end
  | _ => false
  end.

End DevToNotions.

(* ===================================================================== *)
(** * get_platform_status (src/managers/publication_manager.py) *)
(* ===================================================================== *)

Module StatusCheck.
Import PyStr Models ErrorHandler PlatformClient PublicationManager.

(** The truth value [if article_id:] takes of a value: [None], [False],
    zero, the empty text and the empty list are false. *)
Definition truthy (v : pyval) : bool :=
  match v with
  | VNone => false
  | VBool b => b
  | VInt z => negb (Z.eqb z 0)
  | VStr s => negb (String.eqb s "")
  | VList l => match l with [] => false | _ :: _ => true end
  end.

(** The dictionary stored for a platform; [st_error] is [None] when it has
    no [error] entry. *)
Record Status : Type := {
  st_exists : bool;
  st_article_id : pyval;
  st_published : pyval;
  st_needs_update : bool;
  st_error : option string;
}.

Definition absent (error : option string) : Status :=
  {| st_exists := false;
     st_article_id := VNone;
     st_published := VBool false;
     st_needs_update := false;
     st_error := error |}.

Section Status.

Context {W : Type}.

Notation "x <- m ;; k" := (bind m (fun x => k))
  (at level 100, m at next level, right associativity).

(** One iteration of the loop over [platform_clients.items()]. *)
Definition status_step (post_content : PostContent)
           (status : gmap string Status)
           (entry : string * PlatformClient W) : @M W (gmap string Status) :=
  let '(platform_name, client) := entry in
  try_except
    (found <-
       invoke platform_name (FindArticleByTitle (title post_content))
              (find_article_by_title client (title post_content)) ;;
     let '(article_id, is_published) := found in
     if truthy article_id then
       needs_update <-
         _needs_update post_content article_id client platform_name ;;
       ret (<[platform_name :=
                {| st_exists := true;
                   st_article_id := article_id;
                   st_published := is_published;
                   st_needs_update := needs_update;
                   st_error := None |}]> status)
     else ret (<[platform_name := absent None]> status))
    (fun e =>
       if is_publishing_error e
       then ret (<[platform_name := absent (Some (exn_msg e))]> status)
       else ret (<[platform_name :=
                     absent (Some ("Unexpected error: " +:+ exn_msg e))]>
                   status)).

Fixpoint status_loop (post_content : PostContent)
         (platform_clients : list (string * PlatformClient W))
         (status : gmap string Status) : @M W (gmap string Status) :=
  match platform_clients with
  | [] => ret status
  | entry :: rest =>
      status' <- status_step post_content status entry ;;
      status_loop post_content rest status'
  end.

Definition get_platform_status
           (platform_clients : list (string * PlatformClient W))
           (post_content : PostContent) : @M W (gmap string Status) :=
  status_loop post_content platform_clients ∅.

End Status.

(** The calls of a log that change a platform, and the results that report
    a change. *)
Definition count_mutations (log : list (string * call)) : nat :=
  length (filter (fun pc => is_mutation (snd pc) = true) log).

Definition is_change (r : PublicationResult) : bool :=
  String.eqb (action r) "created" || String.eqb (action r) "updated".

End StatusCheck.

(* ===================================================================== *)
(** * What the clients send: the tags of the payload
      (src/client/devto_client.py, src/client/hashnode_client.py) *)
(* ===================================================================== *)

Module ClientPayload.
Import PyStr Models ContentProcessor PlatformClient.

Definition underscore : ascii := ascii_of_nat 95.

(** [s.replace(a, b)] for one-character [a] and [b]. *)
Fixpoint replace_char (a b : ascii) (s : string) : string :=
  match s with
  | EmptyString => EmptyString
  | String c s' =>
      String (if Ascii.eqb c a then b else c) (replace_char a b s')
  end.

(** The tags [publish_article] and [update_article] of the dev.to client
    put in the request, from the dictionary the coordinator built (its
    [tags] entry is a string): [tags.split(",")]. *)
Definition devto_payload_tags (post_content : ContentDict) : list string :=
  split comma (cd_tags post_content).

(** The tags the Hashnode client reads off the dictionary: split at commas,
    trimmed, the blank ones dropped. *)
Definition hashnode_tags (post_content : ContentDict) : list string :=
  map strip
      (filter (fun tag => truthy_str (strip tag) = true)
              (split comma (cd_tags post_content))).

(** The tag objects of the Hashnode request, name and slug, for
    [tags[:5]]. *)
Definition hashnode_tag_objects (tags : list string)
  : list (string * string) :=
  map (fun tag =>
         (tag, replace_char underscore hyphen
                            (replace_char space hyphen (lower tag))))
      (take 5 tags).

(** Text without a comma. *)
Definition no_comma (s : string) : bool :=
  Run.all_chars (fun c => negb (Ascii.eqb c comma)) s.

End ClientPayload.

(* ===================================================================== *)
(** * PostContent.from_frontmatter (src/models/post_content.py) *)
(* ===================================================================== *)

Module FrontMatter.
Import PyStr Models ContentProcessor PlatformClient.

(** The tags of a post: a comma-separated string is split, a list is taken
    as it is, anything else gives no tags. *)
Definition frontmatter_tags (tags : pyval) : list string :=
  match tags with
  | VStr s =>
      map strip
          (filter (fun tag => truthy_str (strip tag) = true) (split comma s))
  | VList l => l
  | _ => []
  end.

(** [d.get(key, default)] where the dataclass declares a string, a
    boolean, an optional string. *)
Definition get_str (d : pydict) (key default : string) : option string :=
  match dict_get d key (VStr default) with
  | VStr s => Some s
  | _ => None
  end.

Definition get_bool (d : pydict) (key : string) (default : bool)
  : option bool :=
  match dict_get d key (VBool default) with
  | VBool b => Some b
  | _ => None
  end.

Definition get_optional_str (d : pydict) (key : string)
  : option (option string) :=
  match dict_get d key VNone with
  | VNone => Some None
  | VStr s => Some (Some s)
  | _ => None
  end.

(** [PostContent.from_frontmatter].  [None] stands for front matter with
    an entry that has not the type the dataclass declares for it (Python
    stores such a value as it is). *)
Definition from_frontmatter (frontmatter_data : pydict)
           (body_markdown : string) : option PostContent :=
  let tags := frontmatter_tags (dict_get frontmatter_data "tags" (VStr "")) in
  domain ← get_str frontmatter_data "domain" "";
  slug ← get_str frontmatter_data "slug" "";
  let canonical_url := "https://" +:+ domain +:+ "/" +:+ slug in
  title ← get_str frontmatter_data "title" "";
  subtitle ← get_str frontmatter_data "subtitle" "";
  cover ← get_str frontmatter_data "cover" "";
  save_as_draft ← get_bool frontmatter_data "saveAsDraft" false;
  enable_toc ← get_bool frontmatter_data "enableToc" true;
  series_name ← get_optional_str frontmatter_data "seriesName";
  Some {| title := title;
          subtitle := subtitle;
          slug := slug;
          tags := tags;
          cover := cover;
          domain := domain;
          save_as_draft := save_as_draft;
          enable_toc := enable_toc;
          body_markdown := body_markdown;
          canonical_url := canonical_url;
          series_name := series_name |}.

(** The canonical URL both clients rebuild from the dictionary the
    coordinator hands them. *)
Definition client_canonical_url (post_content : ContentDict) : string :=
  "https://" +:+ cd_domain post_content +:+ "/" +:+ cd_slug post_content.

(** A document with front matter: the opening line, the block, the closing
    line, the body. *)
Definition closing_line : string := chr nl +:+ "---" +:+ chr nl.

Definition with_front_matter (block body : string) : string :=
  "---" +:+ chr nl +:+ block +:+ closing_line +:+ body.

End FrontMatter.

Module FrontMatterSamples.
Import PyStr Models.

(** The front matter of a post with three tags given as one string. *)
Definition sample_front_matter : pydict :=
  {[ "title" := VStr "T";
     "tags" := VStr "a, b,,c ";
     "domain" := VStr "example.com";
     "slug" := VStr "t";
     "saveAsDraft" := VBool true ]}.

Definition sample_parsed : PostContent :=
  {| title := "T"; subtitle := ""; slug := "t"; tags := ["a"; "b"; "c"];
     cover := ""; domain := "example.com"; save_as_draft := true;
     enable_toc := true; body_markdown := "Body";
     canonical_url := "https://example.com/t"; series_name := None |}.

End FrontMatterSamples.

(* ===================================================================== *)
(** * src/utils/progress_tracker.py: the summary by platform *)
(* ===================================================================== *)

Module ProgressTracker.
Import PyStr.

Record OperationResult : Type := {
  op_title : string;
  op_platform : string;
  op_action : string;
  op_success : bool;
  op_error_message : option string;
  op_article_id : option string;
  op_url : option string;
}.

(** The counters kept for a platform. *)
Record Counters : Type := {
  total : nat;
  successful : nat;
  failed : nat;
  skipped : nat;
  published : nat;
  deleted : nat;
}.

Definition no_counts : Counters :=
  {| total := 0; successful := 0; failed := 0; skipped := 0;
     published := 0; deleted := 0 |}.

(** The body of the loop, on the counters of the platform of [result]. *)
Definition count_result (c : Counters) (result : OperationResult)
  : Counters :=
  let c := {| total := total c + 1; successful := successful c;
              failed := failed c; skipped := skipped c;
              published := published c; deleted := deleted c |} in
  if op_success result then
    let c := {| total := total c; successful := successful c + 1;
                failed := failed c; skipped := skipped c;
                published := published c; deleted := deleted c |} in
    if String.eqb (op_action result) "skipped" then
      {| total := total c; successful := successful c; failed := failed c;
         skipped := skipped c + 1; published := published c;
         deleted := deleted c |}
    else if String.eqb (op_action result) "created"
            || String.eqb (op_action result) "updated" then
      {| total := total c; successful := successful c; failed := failed c;
         skipped := skipped c; published := published c + 1;
         deleted := deleted c |}
    else if String.eqb (op_action result) "deleted" then
      {| total := total c; successful := successful c; failed := failed c;
         skipped := skipped c; published := published c;
         deleted := deleted c + 1 |}
    else c
  else
    {| total := total c; successful := successful c; failed := failed c + 1;
       skipped := skipped c; published := published c;
       deleted := deleted c |}.

Definition summary_step (summary : gmap string Counters)
           (result : OperationResult) : gmap string Counters :=
  let platform := op_platform result in
  let summary :=
    match summary !! platform with
    | None => <[platform := no_counts]> summary
    | Some _ => summary
    end in
  match summary !! platform with
  | Some c => <[platform := count_result c result]> summary
  | None => summary
  end.

(** [get_platform_summary] over [self.results]. *)
Definition get_platform_summary (results : list OperationResult)
  : gmap string Counters :=
  foldl summary_step ∅ results.

(** The results of a platform. *)
Definition results_of (platform : string) (results : list OperationResult)
  : list OperationResult :=
  filter (fun r => op_platform r = platform) results.

End ProgressTracker.

Module TagSamples.
Import PyStr Models.

(** A post with a tag that is not in lower case, and an article that
    carries the tag as dev.to was sent it. *)
Definition capital_post : PostContent :=
  {| title := "T"; subtitle := ""; slug := "t"; tags := ["Python"];
     cover := ""; domain := "example.com"; save_as_draft := false;
     enable_toc := false; body_markdown := "Body";
     canonical_url := "https://example.com/t"; series_name := None |}.

Definition echoed_article : pydict :=
  {[ "title" := VStr "T"; "tags" := VList ["python"] ]}.

End TagSamples.
(* ===================================================================== *)
(** * src/client/devto_client.py: one article, and its deletion *)
(* ===================================================================== *)

Module DevToArticle.
Import PyStr ErrorHandler HttpApi DevTo PlatformClient.

(** [for article in result] with the text of the [TypeError] of a value
    that cannot be iterated. *)
Definition iterate_result (v : json) : result (list json) :=
  match v with
  | JNull => Raise (builtin_error "'NoneType' object is not iterable")
  | JBool _ => Raise (builtin_error "'bool' object is not iterable")
  | JNum _ => Raise (builtin_error "'int' object is not iterable")
  | _ => iterate v
  end.

(** [bool(DeleteResult)] *)
Definition delete_result_bool (r : DeleteResult) : bool :=
  dr_success r || already_deleted r.

Section Article.

Context {W : Type}.
Variable repr_container : json -> string.

(** The text of the [TypeError] raised by [article["id"]] on a value that
    is not a dictionary (it depends on the version of Python). *)
Variable subscript_error : json -> string.

Variable http_get : string -> W -> result Response * W.
Variable http_delete : string -> W -> result Response * W.

(** [article["id"] == article_id_int]: a dictionary without the key raises
    [KeyError], and a boolean id compares as 0 or 1. *)
Definition id_equals (article : json) (article_id_int : Z) : result bool :=
  match article with
  | JObj fields =>
      match obj_get fields "id" with
      | Some (JNum z) => Ok (Z.eqb z article_id_int)
      | Some (JBool b) => Ok (Z.eqb (if b then 1 else 0) article_id_int)
      | Some _ => Ok false
      | None => Raise (builtin_error "'id'")
      end
  | _ => Raise (builtin_error (subscript_error article))
  end.

(** The loop over the unpublished articles; [JNull] is [None]. *)
Fixpoint find_by_id (article_id_int : Z) (articles : list json)
  : result json :=
  match articles with
  | [] => Ok JNull
  | article :: rest =>
      match id_equals article article_id_int with
      | Ok true => Ok article
      | Ok false => find_by_id article_id_int rest
      | Raise e => Raise e
      end
  end.

(** The function under the decorator of [get_article]; the value [None]
    is [JNull]. *)
Definition get_article_body (article_id : string) (published : bool) (w : W)
  : result json * W :=
  match py_int article_id with
  | None => (Ok JNull, w)
  | Some article_id_int =>
      if published then
        let '(got, w') := http_get (ARTICLES_URL +:+ "/" +:+ article_id) w in
        (reraise_as_api_error "Unexpected error retrieving DevTo article: "
           match got with
           | Ok response =>
               if Z.eqb (resp_status response) 200 then
                 handle_api_response repr_container response "devto"
                                     "get_article" None
               else if Z.eqb (resp_status response) 404 then Ok JNull
               else
                 match handle_api_response repr_container response "devto"
                                           "get_article" None with
                 | Ok _ => Ok JNull
                 | Raise e => Raise e
                 end
           | Raise e => Raise e
           end,
         w')
      else
        let '(got, w') :=
          http_get (ARTICLES_URL +:+ "/me/unpublished?per_page=1000") w in
        (reraise_as_api_error "Unexpected error retrieving DevTo article: "
           match got with
           | Ok response =>
               match handle_api_response repr_container response "devto"
                                         "get_unpublished_articles" None with
               | Ok result =>
                   match iterate_result result with
                   | Ok articles => find_by_id article_id_int articles
                   | Raise e => Raise e
                   end
               | Raise e => Raise e
               end
           | Raise e => Raise e
           end,
         w')
  end.

(** [@with_retry_and_rate_limiting(max_retries=3, base_delay=1.0)] *)
Definition get_article (article_id : string) (published : bool) (w : W)
  : result json * W * list Q :=
  with_retry_and_rate_limiting 3 1 60 2
    (get_article_body article_id published) w.

Definition delete_url (article_id : string) : string :=
  ARTICLES_URL +:+ "/articles/" +:+ article_id.

(** The URL [update_article] and [get_article] use for the article. *)
Definition article_url (article_id : string) : string :=
  ARTICLES_URL +:+ "/" +:+ article_id.

(** The function under the decorator of [delete_article]. *)
Definition delete_article_body (article_id : string) (w : W)
  : result DeleteResult * W :=
  let '(got, w') := http_delete (delete_url article_id) w in
  (match
      match got with
      | Ok response =>
          if Z.eqb (resp_status response) 204 then
            Ok {| dr_success := true; already_deleted := false |}
          else if Z.eqb (resp_status response) 404 then
            Ok {| dr_success := false; already_deleted := true |}
          else if Z.eqb (resp_status response) 429 then
            Raise (publishing_error RateLimitError
                     ("Rate limit exceeded when deleting article "
                      +:+ article_id))
          else
            match handle_api_response repr_container response "devto"
                                      "delete"
                                      (Some ("Article ID " +:+ article_id)) with
            | Ok _ => Ok {| dr_success := false; already_deleted := false |}
            | Raise e => Raise e
            end
      | Raise e => Raise e
      end
    with
    | Ok r => Ok r
    | Raise e =>
        if is_publishing_error e then Raise e
        else Ok {| dr_success := false; already_deleted := false |}
    end,
   w').

(** [@with_retry_and_rate_limiting(max_retries=3, base_delay=2.0)] *)
Definition delete_article (article_id : string) (w : W)
  : result DeleteResult * W * list Q :=
  with_retry_and_rate_limiting 3 2 60 2 (delete_article_body article_id) w.

End Article.

End DevToArticle.

Module SummarySamples.
Import ProgressTracker.

Definition sample_result (platform action : string) (success : bool)
  : OperationResult :=
  {| op_title := "T"; op_platform := platform; op_action := action;
     op_success := success; op_error_message := None;
     op_article_id := None; op_url := None |}.

Definition sample_results : list OperationResult :=
  [sample_result "devto" "created" true;
   sample_result "hashnode" "error" false;
   sample_result "devto" "skipped" true].

End SummarySamples.

Module ArticleSamples.
Import PyStr ErrorHandler HttpApi DevTo.

Definition sample_subscript (v : json) : string :=
  "string indices must be integers".

Definition draft (id : Z) (title : string) : json :=
  JObj [("id", JNum id); ("title", JStr title)].

Definition not_found : Response :=
  {| resp_status := 404; resp_text := "{}"; resp_json := Some (JObj []);
     resp_retry_after := None |}.

Definition listing : Response :=
  {| resp_status := 200; resp_text := "[...]";
     resp_json := Some (JArr [draft 7 "a"; draft 12 "b"; draft 12 "c"]);
     resp_retry_after := None |}.

(** A platform with three unpublished articles and no published one. *)
Definition drafts_only (url : string) (w : unit) : result Response * unit :=
  if String.eqb url (ARTICLES_URL +:+ "/me/unpublished?per_page=1000")
  then (Ok listing, w)
  else (Ok not_found, w).

(** A platform that deletes what it is asked to. *)
Definition deleting (url : string) (w : unit) : result Response * unit :=
  (Ok {| resp_status := 204; resp_text := ""; resp_json := None;
         resp_retry_after := None |}, w).

End ArticleSamples.

(* ===================================================================== *)
(** * src/client/hashnode_client.py: queries and deletion *)
(* ===================================================================== *)

Module HashnodeQuery.
Import PyStr ErrorHandler HttpApi PlatformClient ClientPayload FrontMatter.

(** What a call can raise here: a [TransportError] of the GraphQL
    library, with its text, or one of the exceptions of [exn]. *)
Inductive raised : Type :=
| TransportError (text : string)
| Exn (e : exn).

Inductive outcome (A : Type) : Type :=
| Returned (a : A)
| Failed (r : raised).
Arguments Returned {A} a.
Arguments Failed {A} r.

(** What the client does to the outside: it runs a query (named by the
    operation of its document) with its variables, or sleeps. *)
Inductive Event : Type :=
| Executed (query : string) (variables : json)
| Slept (delay : Q).

(** [self.rate_limit_delay] and [self.max_retries], as [__init__] sets
    them. *)
Definition rate_limit_delay : Q := 2.
Definition max_retries : nat := 3.

(** [bool(v)] *)
Definition json_truthy (v : json) : bool :=
  match v with
  | JNull => false
  | JBool b => b
  | JNum z => negb (Z.eqb z 0)
  | JStr s => negb (String.eqb s "")
  | JArr items => match items with [] => false | _ => true end
  | JObj fields => match fields with [] => false | _ => true end
  end.

(** [str(last_exception)] *)
Definition str_raised (last_exception : option raised) : string :=
  match last_exception with
  | None => "None"
  | Some (TransportError text) => text
  | Some (Exn e) => exn_msg e
  end.

(** The [raise APIError] after the loop. *)
Definition retries_failed (last_exception : option raised)
  : outcome json :=
  Failed (Exn (publishing_error APIError
                 ("Hashnode API request failed after "
                  +:+ str_of_int (Z.of_nat max_retries) +:+ " retries: "
                  +:+ str_raised last_exception))).

(** [result and "removePost" in result and result["removePost"]["post"]]
    as a truth value; [None] stands for the [TypeError] or [KeyError] it
    can raise. *)
Definition removal_confirmed (result : json) : option bool :=
  if json_truthy result then
    match json_contains "removePost" result with
    | None => None
    | Some false => Some false
    | Some true =>
        match json_getitem "removePost" result with
        | Some inner => option_map json_truthy (json_getitem "post" inner)
        | None => None
        end
    end
  else Some false.

(** [s if s else None] *)
Definition text_or_none (s : string) : json :=
  if ContentProcessor.truthy_str s then JStr s else JNull.

(** [{k: v for k, v in input_data.items() if v is not None}] *)
Definition without_none (input_data : list (string * json))
  : list (string * json) :=
  List.filter (fun kv => match snd kv with JNull => false | _ => true end)
              input_data.

(** The tag objects of a request, for the dictionary the coordinator
    hands over. *)
Definition tag_objects (post_content : ContentDict) : json :=
  JArr (map (fun tag => JObj [("name", JStr (fst tag));
                              ("slug", JStr (snd tag))])
            (hashnode_tag_objects (hashnode_tags post_content))).

Definition cover_options (cover : string) : json :=
  if ContentProcessor.truthy_str cover
  then JObj [("coverImageURL", JStr cover)] else JNull.

Definition meta_tags (post_content : ContentDict) : json :=
  JObj [("title", JStr (cd_title post_content));
        ("description", text_or_none (cd_subtitle post_content))].

(** [input_data] of [publish_article], the [None] values removed;
    [publication_id] is HASHNODE_PUBLICATION_ID. *)
Definition publish_input (publication_id : string)
           (post_content : ContentDict) (published : bool)
  : list (string * json) :=
  without_none
    [("title", JStr (cd_title post_content));
     ("contentMarkdown", JStr (cd_bodyMarkdown post_content));
     ("tags", tag_objects post_content);
     ("publicationId", JStr publication_id);
     ("publishedAt", if negb published then JNull else JNull);
     ("subtitle", text_or_none (cd_subtitle post_content));
     ("coverImageOptions", cover_options (cd_cover post_content));
     ("originalArticleURL",
      text_or_none (client_canonical_url post_content));
     ("seriesId", JNull);
     ("disableComments", JBool false);
     ("metaTags", meta_tags post_content)].

(** [input_data] of [update_article], the [None] values removed. *)
Definition update_input (article_id : string) (post_content : ContentDict)
  : list (string * json) :=
  without_none
    [("id", JStr article_id);
     ("title", JStr (cd_title post_content));
     ("contentMarkdown", JStr (cd_bodyMarkdown post_content));
     ("tags", tag_objects post_content);
     ("subtitle", text_or_none (cd_subtitle post_content));
     ("coverImageOptions", cover_options (cd_cover post_content));
     ("originalArticleURL",
      text_or_none (client_canonical_url post_content));
     ("metaTags", meta_tags post_content)].

Definition of_result {A} (r : result A) : outcome A :=
  match r with
  | Ok v => Returned v
  | Raise e => Failed (Exn e)
  end.

(** The two [except] clauses that close [publish_article] and
    [update_article]: the three classified errors pass, anything else, a
    transport error too, becomes an [APIError]. *)
Definition wrap_unexpected {A} (prefix : string) (out : outcome A)
  : outcome A :=
  match out with
  | Returned v => Returned v
  | Failed (Exn e) =>
      if is_publishing_error e then Failed (Exn e)
      else Failed (Exn (publishing_error APIError (prefix +:+ exn_msg e)))
  | Failed (TransportError text) =>
      Failed (Exn (publishing_error APIError (prefix +:+ text)))
  end.

Section Client.

Context {W : Type}.

(** The text of the [TypeError] of an operation ([in] or a subscript) on a
    value that does not support it (it depends on the version of
    Python). *)
Variable type_error : string -> json -> string.

(** [data[key]] for a string key. *)
Definition getitem (key : string) (data : json) : result json :=
  match data with
  | JObj fields =>
      match obj_get fields key with
      | Some v => Ok v
      | None => Raise (builtin_error ("'" +:+ key +:+ "'"))
      end
  | _ => Raise (builtin_error (type_error "subscript" data))
  end.

(** [result and key in result and result[key]["post"]]: the post when the
    test holds, [None] when it does not. *)
Definition confirmed_post (key : string) (result : json)
  : ErrorHandler.result (option json) :=
  if json_truthy result then
    match json_contains key result with
    | None => Raise (builtin_error (type_error "in" result))
    | Some false => Ok None
    | Some true =>
        match getitem key result with
        | Ok inner =>
            match getitem "post" inner with
            | Ok post => Ok (if json_truthy post then Some post else None)
            | Raise e => Raise e
            end
        | Raise e => Raise e
        end
    end
  else Ok None.

(** [response_data] *)
Definition response_data (post_data : json) : result json :=
  match getitem "id" post_data with
  | Ok id =>
      match getitem "title" post_data with
      | Ok title =>
          match getitem "slug" post_data with
          | Ok slug =>
              match getitem "url" post_data with
              | Ok url =>
                  Ok (JObj [("id", id); ("title", title); ("slug", slug);
                            ("url", url);
                            ("published_at",
                             default JNull
                               (json_getitem "publishedAt" post_data));
                            ("updated_at",
                             default JNull
                               (json_getitem "updatedAt" post_data))])
              | Raise e => Raise e
              end
          | Raise e => Raise e
          end
      | Raise e => Raise e
      end
  | Raise e => Raise e
  end.

(** What [publish_article] and [update_article] make of the result of
    their query. *)
Definition read_post (key : string) (got : outcome json) : outcome json :=
  match got with
  | Returned result =>
      match confirmed_post key result with
      | Ok (Some post_data) => of_result (response_data post_data)
      | Ok None =>
          Failed (Exn (publishing_error APIError
                         "Unexpected response format from Hashnode API"))
      | Raise e => Failed (Exn e)
      end
  | Failed r => Failed r
  end.

(** HASHNODE_PUBLICATION_ID *)
Variable publication_id : string.

(** [time.time()], [time.sleep(d)] and the execution of a query with its
    variables, on the outside world. *)
Variable time : W -> Q * W.
Variable pass : Q -> W -> W.
Variable execute : string -> json -> W -> outcome json * W.

(** The client: the world it talks to, [self.last_request_time], and a
    record of what it did. *)
Record Client : Type := {
  net : W;
  last_request_time : Q;
  log : list Event;
}.

(** [time.sleep(delay)]; no delay that is slept here is negative. *)
Definition sleep (delay : Q) (s : Client) : Client :=
  {| net := pass delay (net s);
     last_request_time := last_request_time s;
     log := (log s ++ [Slept delay])%list |}.

Definition _rate_limit (s : Client) : Client :=
  let '(current_time, w1) := time (net s) in
  let s1 := {| net := w1; last_request_time := last_request_time s;
               log := log s |} in
  let time_since_last_request := (current_time - last_request_time s)%Q in
  let s2 :=
    if negb (Qle_bool rate_limit_delay time_since_last_request)
    then sleep (rate_limit_delay - time_since_last_request)%Q s1
    else s1 in
  let '(now, w2) := time (net s2) in
  {| net := w2; last_request_time := now; log := log s2 |}.

(** The [for attempt in range(self.max_retries + 1)] loop of
    [_run_query]; [remaining] is the number of iterations left. *)
Fixpoint query_loop (query : string) (variables : json)
         (remaining attempt : nat) (last_exception : option raised)
         (s : Client) : outcome json * Client :=
  match remaining with
  | O => (retries_failed last_exception, s)
  | S remaining' =>
      let '(out, w') := execute query variables (net s) in
      let s1 := {| net := w'; last_request_time := last_request_time s;
                   log := (log s ++ [Executed query variables])%list |} in
      match out with
      | Returned result => (Returned result, s1)
      | Failed (TransportError text) =>
          if contains "401" text || contains "403" text
             || contains "Unauthorized" text
          then (Failed (Exn (publishing_error AuthenticationError
                               ("Authentication failed for Hashnode: "
                                +:+ text))), s1)
          else if contains "429" text || contains "rate limit" (lower text)
          then
            if attempt <? max_retries
            then query_loop query variables remaining' (S attempt)
                            (Some (TransportError text))
                            (sleep (rate_limit_delay
                                    * inject_Z (2 ^ Z.of_nat attempt))%Q s1)
            else (Failed (Exn (publishing_error RateLimitError
                                 ("Rate limit exceeded on Hashnode: "
                                  +:+ text))), s1)
          else
            if attempt <? max_retries
            then query_loop query variables remaining' (S attempt)
                            (Some (TransportError text))
                            (sleep (2 * inject_Z (2 ^ Z.of_nat attempt))%Q
                                   s1)
            else (retries_failed (Some (TransportError text)), s1)
      | Failed (Exn e) =>
          (Failed (Exn (publishing_error APIError
                          ("Unexpected error in Hashnode query: "
                           +:+ exn_msg e))), s1)
      end
  end.

Definition _run_query (query : string) (variables : json) (s : Client)
  : outcome json * Client :=
  query_loop query variables (max_retries + 1) 0 None (_rate_limit s).

(** [publish_article] and [update_article], on the dictionary the
    coordinator hands over. *)
Definition publish_article (post_content : ContentDict) (published : bool)
           (s : Client) : outcome json * Client :=
  let variables :=
    JObj [("input",
           JObj (publish_input publication_id post_content published))] in
  let '(got, s') := _run_query "PublishPost" variables s in
  (wrap_unexpected "Unexpected error publishing to Hashnode: "
     (read_post "publishPost" got), s').

Definition update_article (article_id : string) (post_content : ContentDict)
           (published : bool) (s : Client) : outcome json * Client :=
  let variables :=
    JObj [("input", JObj (update_input article_id post_content))] in
  let '(got, s') := _run_query "UpdatePost" variables s in
  (wrap_unexpected "Unexpected error updating Hashnode article: "
     (read_post "updatePost" got), s').

Definition delete_article (article_id : string) (s : Client)
  : outcome bool * Client :=
  let variables := JObj [("input", JObj [("id", JStr article_id)])] in
  let '(got, s') := _run_query "RemovePost" variables s in
  (match got with
   | Returned result =>
       match removal_confirmed result with
       | Some b => Returned b
       | None => Returned false
       end
   | Failed (TransportError error_str) =>
       if contains "does not have the minimum required role" error_str
          || contains "FORBIDDEN" error_str
       then Returned true
       else Failed (TransportError error_str)
   | Failed (Exn e) =>
       if is_publishing_error e then Failed (Exn e) else Returned false
   end, s').

End Client.

Arguments Client : clear implicits.
Arguments net {W} c.
Arguments last_request_time {W} c.
Arguments log {W} c.

End HashnodeQuery.

Module HashnodeNotions.
Import PyStr ErrorHandler HttpApi PlatformClient HashnodeQuery.

(** [k] rounds of a query and the sleep that follows it, from attempt
    [attempt] on: the sleeps double, starting from 2 seconds at attempt
    0. *)
Definition rounds (query : string) (variables : json) (attempt k : nat)
  : list Event :=
  flat_map (fun i => [Executed query variables;
                      Slept (2 * inject_Z (2 ^ Z.of_nat i))%Q])
           (seq attempt k).

(** A value, or one of the three classified errors. *)
Definition classified {A} (out : outcome A) : bool :=
  match out with
  | Returned _ => true
  | Failed (Exn e) => is_publishing_error e
  | Failed (TransportError _) => false
  end.

(** The text of a transport error that is taken for an authentication
    failure, and for a rate limit. *)
Definition authentication_text (text : string) : bool :=
  contains "401" text || contains "403" text || contains "Unauthorized" text.

Definition rate_limit_text (text : string) : bool :=
  contains "429" text || contains "rate limit" (lower text).

(** The dictionary with another [saveAsDraft] entry. *)
Definition with_draft (post_content : ContentDict) (draft : bool)
  : ContentDict :=
  {| cd_title := cd_title post_content;
     cd_subtitle := cd_subtitle post_content;
     cd_slug := cd_slug post_content;
     cd_tags := cd_tags post_content;
     cd_cover := cd_cover post_content;
     cd_domain := cd_domain post_content;
     cd_saveAsDraft := draft;
     cd_seriesName := cd_seriesName post_content;
     cd_canonicalUrl := cd_canonicalUrl post_content;
     cd_bodyMarkdown := cd_bodyMarkdown post_content |}.

(** The structure of a result that confirms a removal. *)
Definition removal_shape (result : json) : bool :=
  match result with
  | JObj fields =>
      match obj_get fields "removePost" with
      | Some (JObj inner) =>
          match obj_get inner "post" with
          | Some post => json_truthy post
          | None => false
          end
      | _ => false
      end
  | _ => false
  end.

End HashnodeNotions.

Module HashnodeSamples.
Import PyStr ErrorHandler HttpApi PlatformClient HashnodeQuery.

(** A clock that stands still, and a platform that refuses every query
    for lack of permission. *)
Definition frozen (w : unit) : Q * unit := (100%Q, w).

Definition no_pass (delay : Q) (w : unit) : unit := w.

Definition forbidden_text : string :=
  "FORBIDDEN: User does not have the minimum required role in publication".

Definition forbidding (query : string) (variables : json) (w : unit)
  : outcome json * unit :=
  (Failed (TransportError forbidden_text), w).

(** A platform that answers 401 to a query it also rate-limits. *)
Definition unauthorized (query : string) (variables : json) (w : unit)
  : outcome json * unit :=
  (Failed (TransportError "401 Unauthorized (429 rate limit)"), w).

Definition sample_type_error (operation : string) (v : json) : string :=
  "unsupported operand".

(** What the coordinator hands over for a post without a subtitle. *)
Definition plain_content : ContentDict :=
  {| cd_title := "T"; cd_subtitle := ""; cd_slug := "t";
     cd_tags := "python, rocq"; cd_cover := "";
     cd_domain := "example.com"; cd_saveAsDraft := true;
     cd_seriesName := None;
     cd_canonicalUrl := "https://example.com/t";
     cd_bodyMarkdown := "Body" |}.

Definition fresh : Client unit :=
  {| net := tt; last_request_time := 0; log := [] |}.

End HashnodeSamples.

(* ===================================================================== *)
(** * The publication coordinator *)
(* ===================================================================== *)

Import PyStr Models ErrorHandler PlatformClient PublicationManager Run.

Section ManagerFacts.

Context {W : Type}.
Variable toc : string -> string.

Implicit Types (st : @mstate W) (client : PlatformClient W)
         (post : PostContent).

#[local] Arguments truthy_dict : simpl never.
#[local] Arguments dict_get : simpl never.

Ltac run_monad :=
  unfold try_except, bind, ret, raise, invoke in *; simpl in *.

Lemma publish_to_platform_name post name client st r :
  fst (_publish_to_platform toc post name client st) = Ok r ->
  platform r = name.
Proof.
  unfold _publish_to_platform. run_monad.
  destruct (find_article_by_title client (title post) (world st))
    as [[[aid pub]|e] w1]; simpl; [|done].
  destruct aid; simpl.
  1: destruct (publish_article client _ _ w1) as [[resp|e] w2]; simpl;
     [by intros [= <-] | done].
  all: match goal with
       | |- context [_needs_update ?p ?a ?c ?n ?s] =>
           destruct (_needs_update p a c n s) as [[[|]|e] st2]; simpl
       end;
    try done; try (by intros [= <-]).
  all: match goal with
       | |- context [update_article ?c ?a ?d ?b ?w] =>
           destruct (update_article c a d b w) as [[resp|e] w2]; simpl
       end; try done; by intros [= <-].
Qed.

(** [publish_step] never raises: it appends the outcome of the platform. *)
Lemma publish_step_run post results name client st :
  publish_step toc post results (name, client) st =
  (Ok (results ++ [outcome_of name
                     (fst (_publish_to_platform toc post name client st))])%list,
   snd (_publish_to_platform toc post name client st)).
Proof.
  unfold publish_step, try_except, bind, ret.
  destruct (_publish_to_platform toc post name client st) as [[r|e] st'];
    simpl; [done|].
  by destruct (is_publishing_error e).
Qed.

Lemma outcome_of_platform post name client st :
  platform (outcome_of name
              (fst (_publish_to_platform toc post name client st))) = name.
Proof.
  destruct (fst (_publish_to_platform toc post name client st)) eqn:E; simpl.
  - by apply publish_to_platform_name in E.
  - done.
Qed.

Lemma publish_loop_ok post clients : forall results st,
  exists rs,
    fst (publish_loop toc post clients results st) = Ok (results ++ rs)%list
    /\ map platform rs = map fst clients.
Proof.
  induction clients as [|[name client] rest IH]; intros results st.
  - exists []. simpl. by rewrite app_nil_r.
  - cbn [publish_loop]. unfold bind at 1. rewrite publish_step_run.
    destruct (IH (results ++ [outcome_of name
               (fst (_publish_to_platform toc post name client st))])%list
              (snd (_publish_to_platform toc post name client st)))
      as [rs [Hrs Hmap]].
    exists (outcome_of name
              (fst (_publish_to_platform toc post name client st)) :: rs).
    split.
    + rewrite Hrs. f_equal. by rewrite <- app_assoc.
    + simpl. f_equal; [|done]. apply outcome_of_platform.
Qed.


(** The loop processes the platforms in order, each in the state its
    predecessors left. *)
Lemma publish_loop_cons post name client rest results st :
  publish_loop toc post ((name, client) :: rest) results st =
  publish_loop toc post rest
    (results ++ [outcome_of name
                   (fst (_publish_to_platform toc post name client st))])%list
    (snd (_publish_to_platform toc post name client st)).
Proof.
  cbn [publish_loop]. unfold bind at 1. by rewrite publish_step_run.
Qed.

Lemma publish_loop_lookup post clients : forall results st i name client,
  clients !! i = Some (name, client) ->
  exists rs,
    fst (publish_loop toc post clients results st) = Ok (results ++ rs)%list
    /\ rs !! i =
       Some (outcome_of name
               (fst (_publish_to_platform toc post name client
                       (snd (publish_loop toc post (take i clients)
                                          results st))))).
Proof.
  induction clients as [|[n0 c0] rest IH]; intros results st i name client Hi.
  - done.
  - rewrite publish_loop_cons. destruct i as [|j].
    + simpl in Hi. injection Hi as -> ->.
      destruct (publish_loop_ok post rest
                  (results ++ [outcome_of name
                     (fst (_publish_to_platform toc post name client st))])%list
                  (snd (_publish_to_platform toc post name client st)))
        as [rs [Hrs _]].
      eexists (_ :: rs). split.
      * rewrite Hrs. by rewrite <- app_assoc.
      * done.
    + simpl in Hi.
      destruct (IH (results ++ [outcome_of n0
                     (fst (_publish_to_platform toc post n0 c0 st))])%list
                  (snd (_publish_to_platform toc post n0 c0 st))
                  j name client Hi) as [rs [Hrs Hj]].
      eexists (_ :: rs). split.
      * rewrite Hrs. by rewrite <- app_assoc.
      * change (take (S j) ((n0, c0) :: rest))
          with ((n0, c0) :: take j rest).
        rewrite publish_loop_cons. exact Hj.
Qed.

Lemma needs_update_calls post aid client name st :
  exists new,
    calls (snd (_needs_update post aid client name st))
    = (calls st ++ new)%list
    /\ (new = [(name, GetArticle aid true)]
        \/ new = [(name, GetArticle aid true); (name, GetArticle aid false)]).
Proof.
  unfold _needs_update, compare_with_existing, normalize_value. run_monad.
  destruct (get_article client aid true (world st)) as [[a1|e1] w1]; simpl.
  - destruct (truthy_dict a1) eqn:T1; simpl.
    + exists [(name, GetArticle aid true)]. split; [|by left].
      destruct a1 as [m|]; [|done]. simpl. rewrite T1.
      by destruct (dict_get m "body_markdown" (VStr "")).
    + exists [(name, GetArticle aid true); (name, GetArticle aid false)].
      split; [|by right].
      destruct (get_article client aid false w1) as [[a2|e2] w2]; simpl.
      * rewrite <- app_assoc. destruct a2 as [m|]; [|done].
        destruct (truthy_dict (Some m)); [|done].
        by destruct (dict_get m "body_markdown" (VStr "")).
      * rewrite <- app_assoc. by destruct (is_publishing_error e2).
  - exists [(name, GetArticle aid true)]. split; [|by left].
    by destruct (is_publishing_error e1).
Qed.


Lemma publish_to_platform_calls post name client st :
  exists more,
    calls (snd (_publish_to_platform toc post name client st))
    = (calls st ++ (name, FindArticleByTitle (title post)) :: more)%list.
Proof.
  unfold _publish_to_platform. run_monad.
  destruct (find_article_by_title client (title post) (world st))
    as [[[aid pub]|e] w1]; simpl; [|by exists []].
  destruct aid; simpl.
  1: destruct (publish_article client _ _ w1) as [[resp|e] w2]; simpl;
     rewrite <- app_assoc; by eexists.
  all: match goal with
       | |- context [_needs_update ?p ?a ?c ?n ?s] =>
           destruct (needs_update_calls p a c n s) as [new [Hnew _]];
           destruct (_needs_update p a c n s) as [[[|]|e] st2]; simpl in *
       end;
    try (rewrite Hnew, <- app_assoc; by eexists).
  all: match goal with
       | |- context [update_article ?c ?a ?d ?b ?w] =>
           destruct (update_article c a d b w) as [[resp|e] w2]; simpl
       end; rewrite Hnew, <- !app_assoc; by eexists.
Qed.

Lemma publish_loop_snoc_state post name client clients : forall results st,
  snd (publish_loop toc post (clients ++ [(name, client)]) results st) =
  snd (_publish_to_platform toc post name client
         (snd (publish_loop toc post clients results st))).
Proof.
  induction clients as [|[n0 c0] rest IH]; intros results st.
  - change ([] ++ [(name, client)])%list with [(name, client)].
    by rewrite publish_loop_cons.
  - change (((n0, c0) :: rest) ++ [(name, client)])%list
      with ((n0, c0) :: (rest ++ [(name, client)]))%list.
    rewrite !publish_loop_cons. apply IH.
Qed.

Lemma state_before_S post clients st i name client :
  clients !! i = Some (name, client) ->
  state_before toc post clients (S i) st =
  snd (_publish_to_platform toc post name client
         (state_before toc post clients i st)).
Proof.
  intros Hi. unfold state_before, publish_to_all_platforms.
  rewrite (take_S_r _ _ _ Hi). apply publish_loop_snoc_state.
Qed.

Lemma publish_loop_extends post clients : forall results st,
  exists new,
    calls (snd (publish_loop toc post clients results st))
    = (calls st ++ new)%list.
Proof.
  induction clients as [|[n0 c0] rest IH]; intros results st.
  - exists []. simpl. by rewrite app_nil_r.
  - rewrite publish_loop_cons.
    destruct (IH (results ++ [outcome_of n0
                   (fst (_publish_to_platform toc post n0 c0 st))])%list
                (snd (_publish_to_platform toc post n0 c0 st))) as [new Hnew].
    destruct (publish_to_platform_calls post n0 c0 st) as [more Hmore].
    rewrite Hnew, Hmore, <- app_assoc. by eexists.
Qed.

Lemma publish_loop_find_logged post clients :
  forall results st i name client,
  clients !! i = Some (name, client) ->
  (name, FindArticleByTitle (title post))
    ∈ calls (snd (publish_loop toc post clients results st)).
Proof.
  induction clients as [|[n0 c0] rest IH]; intros results st i name client Hi.
  - done.
  - rewrite publish_loop_cons. destruct i as [|j].
    + simpl in Hi. injection Hi as -> ->.
      destruct (publish_loop_extends post rest
                  (results ++ [outcome_of name
                     (fst (_publish_to_platform toc post name client st))])%list
                  (snd (_publish_to_platform toc post name client st)))
        as [new Hnew].
      destruct (publish_to_platform_calls post name client st) as [more Hmore].
      rewrite Hnew, Hmore. set_solver.
    + simpl in Hi. by eapply IH.
Qed.

(** What [_publish_to_platform] does, by the result of the lookup. *)
Lemma publish_to_platform_action post name client st :
  match find_article_by_title client (title post) (world st) with
  | (Ok (VNone, _), _) =>
      match fst (_publish_to_platform toc post name client st) with
      | Ok r => action r = "created"
      | Raise _ => True
      end
  | (Ok (_, _), _) =>
      match fst (_publish_to_platform toc post name client st) with
      | Ok r => action r = "updated" \/ action r = "skipped"
      | Raise _ => True
      end
  | (Raise e, _) =>
      fst (_publish_to_platform toc post name client st) = Raise e
  end.
Proof.
  unfold _publish_to_platform. run_monad.
  destruct (find_article_by_title client (title post) (world st))
    as [[[aid pub]|e] w1]; simpl; [|done].
  destruct aid; simpl.
  1: by destruct (publish_article client _ _ w1) as [[resp|e] w2].
  all: match goal with
       | |- context [_needs_update ?p ?a ?c ?n ?s] =>
           destruct (_needs_update p a c n s) as [[[|]|e] st2]; simpl
       end; try done; try (by right).
  all: match goal with
       | |- context [update_article ?c ?a ?d ?b ?w] =>
           destruct (update_article c a d b w) as [[resp|e] w2]; simpl
       end; try done; by left.
Qed.


(** C10. With an empty map of platform clients, [publish_to_all_platforms]
    returns the empty list: it raises nothing, calls nothing and leaves the
    world as it was. *)
Theorem publish_no_clients post st :
  publish_to_all_platforms toc [] post st = (Ok [], st).
Proof. reflexivity. Qed.

(** C2. [publish_to_all_platforms] always returns (it never raises), with
    exactly one result per supplied platform, in order.  A platform whose
    processing raises [e] gets a result with [success = false],
    [action = "error"] and a message that carries [str(e)] (as it is for the
    three classified kinds, after "Unexpected error: " otherwise); and every
    platform is still looked up, whatever happened to the others. *)
Theorem publish_isolates_failures post clients st :
  exists results,
    fst (publish_to_all_platforms toc clients post st) = Ok results
    /\ map platform results = map fst clients
    /\ length results = length clients
    /\ (forall i name client e,
          clients !! i = Some (name, client) ->
          fst (_publish_to_platform toc post name client
                 (state_before toc post clients i st)) = Raise e ->
          exists r,
            results !! i = Some r
            /\ platform r = name
            /\ success r = false
            /\ action r = "error"
            /\ error_message r =
               Some ((if is_publishing_error e then ""
                      else "Unexpected error: ") +:+ exn_msg e))
    /\ (forall i name client,
          clients !! i = Some (name, client) ->
          (name, FindArticleByTitle (title post))
            ∈ calls (snd (publish_to_all_platforms toc clients post st))).
Proof.
  unfold publish_to_all_platforms.
  destruct (publish_loop_ok post clients [] st) as [rs [Hrs Hmap]].
  exists rs. simpl in Hrs. repeat split; try done.
  - by rewrite <- (length_map platform), Hmap, length_map.
  - intros i name client e Hi He.
    destruct (publish_loop_lookup post clients [] st i name client Hi)
      as [rs' [Hrs' Hlk]].
    rewrite Hrs in Hrs'. injection Hrs' as <-.
    unfold state_before, publish_to_all_platforms in He.
    rewrite He in Hlk. eexists. split; [exact Hlk|].
    simpl. repeat split. by destruct (is_publishing_error e).
  - intros i name client Hi. by eapply publish_loop_find_logged.
Qed.

(** C1. In every run and for every platform: when the lookup returns no
    article id the outcome is created or error; when it returns an id the
    outcome is updated, skipped or error. *)
Theorem action_matches_lookup post clients st i name client :
  clients !! i = Some (name, client) ->
  exists results r,
    fst (publish_to_all_platforms toc clients post st) = Ok results
    /\ results !! i = Some r
    /\ forall found w,
         find_article_by_title client (title post)
           (world (state_before toc post clients i st)) = (Ok found, w) ->
         match fst found with
         | VNone =>
             (action r = "created" \/ action r = "error")
             /\ action r <> "updated" /\ action r <> "skipped"
         | _ =>
             (action r = "updated" \/ action r = "skipped"
              \/ action r = "error")
             /\ action r <> "created"
         end.
Proof.
  intros Hi. unfold publish_to_all_platforms.
  destruct (publish_loop_lookup post clients [] st i name client Hi)
    as [rs [Hrs Hlk]].
  exists rs. eexists. split; [exact Hrs|]. split; [exact Hlk|].
  intros [aid pub] w Hfind.
  fold (publish_to_all_platforms toc (take i clients) post st).
  fold (state_before toc post clients i st).
  pose proof (publish_to_platform_action post name client
                (state_before toc post clients i st)) as Hact.
  rewrite Hfind in Hact. simpl.
  destruct (fst (_publish_to_platform toc post name client
                   (state_before toc post clients i st))) as [r|e]; simpl.
  - destruct aid; simpl in Hact;
      repeat match goal with
             | H : _ \/ _ |- _ => destruct H as [H|H]
             end; rewrite Hact; repeat split; auto; discriminate.
  - destruct aid; repeat split; auto; discriminate.
Qed.

(** C5. When the lookup finds an article and the change detection reports
    no change, the platform's outcome is a successful skipped one carrying
    the id found, and all the calls made for that platform are lookups and
    fetches: neither [publish_article] nor [update_article] is called. *)
Theorem skip_without_mutation post clients st i name client aid pub w1 :
  clients !! i = Some (name, client) ->
  find_article_by_title client (title post)
    (world (state_before toc post clients i st)) = (Ok (aid, pub), w1) ->
  aid <> VNone ->
  fst (_needs_update post aid client name
         {| world := w1;
            calls := (calls (state_before toc post clients i st)
                      ++ [(name, FindArticleByTitle (title post))])%list |})
  = Ok false ->
  exists results r new,
    fst (publish_to_all_platforms toc clients post st) = Ok results
    /\ results !! i = Some r
    /\ platform r = name
    /\ action r = "skipped"
    /\ success r = true
    /\ article_id r = aid
    /\ calls (state_before toc post clients (S i) st)
       = (calls (state_before toc post clients i st) ++ new)%list
    /\ Forall (fun pc => fst pc = name /\ is_mutation (snd pc) = false) new.
Proof.
  intros Hi Hfind Hid Hnu. unfold publish_to_all_platforms.
  destruct (publish_loop_lookup post clients [] st i name client Hi)
    as [rs [Hrs Hlk]].
  fold (publish_to_all_platforms toc (take i clients) post st) in Hlk.
  fold (state_before toc post clients i st) in Hlk.
  rewrite (state_before_S post clients st i name client Hi).
  set (sti := state_before toc post clients i st) in *.
  destruct (needs_update_calls post aid client name
              {| world := w1;
                 calls := (calls sti
                           ++ [(name, FindArticleByTitle (title post))])%list |})
    as [new [Hnew Hshape]].
  assert (Hrun :
    _publish_to_platform toc post name client sti =
    (Ok {| platform := name; success := true; action := "skipped";
           article_id := aid; error_message := None |},
     snd (_needs_update post aid client name
            {| world := w1;
               calls := (calls sti
                         ++ [(name, FindArticleByTitle (title post))])%list |}))).
  { unfold _publish_to_platform, try_except, bind, invoke.
    rewrite Hfind.
    destruct aid; [done|..]; cbn beta iota;
      match type of Hnu with
      | fst ?run = _ =>
          destruct run as [[[|]|e] st2]; simpl in Hnu; try discriminate; done
      end. }
  rewrite Hrun in Hlk. simpl in Hlk.
  exists rs. eexists. exists ((name, FindArticleByTitle (title post)) :: new).
  split; [exact Hrs|]. split; [exact Hlk|]. simpl.
  repeat split; try done.
  - rewrite Hrun. cbn [snd]. rewrite Hnew. cbn [calls].
    by rewrite <- app_assoc.
  - constructor; [done|].
    destruct Hshape as [-> | ->]; repeat constructor.
Qed.


(** Python's [!=] on the values compared by [_needs_update], as an
    inequality of values: a text differs from everything but itself, and a
    flag differs from everything but itself and the integer it counts as
    (True == 1, False == 0). *)
Lemma py_eq_str_false s v : py_eq (VStr s) v = false <-> v <> VStr s.
Proof using Type.
  clear. unfold py_eq. rewrite bool_decide_eq_false.
  split; intros H E; apply H; by rewrite E.
Qed.

Lemma py_eq_bool_false b v :
  py_eq (VBool b) v = false
  <-> ~ (v = VBool b \/ v = VInt (if b then 1 else 0)%Z).
Proof using Type.
  clear. destruct v as [|x|z|t|l]; unfold py_eq.
  - rewrite bool_decide_eq_false. split; [intros _ [E|E]; discriminate|done].
  - rewrite bool_decide_eq_false. split.
    + intros H [E|E]; [|discriminate]. apply H. by rewrite E.
    + intros H E. apply H. left. by rewrite E.
  - rewrite Z.eqb_neq. split.
    + intros H [E|E]; [discriminate|]. apply H. by injection E.
    + intros H E. apply H. right. by rewrite E.
  - rewrite bool_decide_eq_false. split; [intros _ [E|E]; discriminate|done].
  - rewrite bool_decide_eq_false. split; [intros _ [E|E]; discriminate|done].
Qed.

(** C3. Once the remote article is fetched (and its body is text), the
    answer of [_needs_update] is [True] if and only if at least one of
    five things differs: the remote title is not the title of the post;
    the two bodies differ after normalization; the two tag lists differ as
    sets; the remote published flag is not [not save_as_draft] (as a
    boolean, or as the integer 1 or 0 that Python takes for equal to it);
    the remote cover image is not the cover of the post.  So each of them
    alone makes the answer [True], and the answer is [False] when none
    holds. *)
Theorem needs_update_is_any_of_five post aid client name st existing w' body :
  fetch_existing client aid (world st) = Some (existing, w') ->
  dict_get existing "body_markdown" (VStr "") = VStr body ->
  let changed :=
    title_changed post existing
    || content_changed_of
         (ContentProcessor.normalize_content_for_comparison
            (body_markdown post))
         (ContentProcessor.normalize_content_for_comparison body)
    || tags_changed post existing
    || published_changed post existing
    || cover_changed post existing in
  fst (_needs_update post aid client name st) = Ok changed
  /\ world (snd (_needs_update post aid client name st)) = w'
  /\ (changed = true <->
      dict_get existing "title" (VStr "") <> VStr (title post)
      \/ ContentProcessor.normalize_content_for_comparison (body_markdown post)
         <> ContentProcessor.normalize_content_for_comparison body
      \/ list_to_set (tags post) ≠@{gset string}
         list_to_set (existing_tags_of
                        (dict_get existing "tags" (VList [])))
      \/ ~ (dict_get existing "published" (VBool false)
            = VBool (negb (save_as_draft post))
            \/ dict_get existing "published" (VBool false)
               = VInt (if negb (save_as_draft post) then 1 else 0)%Z)
      \/ dict_get existing "cover_image" (VStr "") <> VStr (cover post)).
Proof using Type.
  clear toc. intros Hfetch Hbody changed.
  assert (Hrun : fst (_needs_update post aid client name st) = Ok changed
                 /\ world (snd (_needs_update post aid client name st)) = w').
  { unfold fetch_existing in Hfetch.
    unfold _needs_update, compare_with_existing, normalize_value. run_monad.
    destruct (get_article client aid true (world st)) as [[a1|e1] w1];
      simpl in *; [|done].
    destruct (truthy_dict a1) eqn:T1; simpl.
    - destruct a1 as [m|]; [|done]. injection Hfetch as -> ->.
      simpl. rewrite T1, Hbody. done.
    - destruct (get_article client aid false w1) as [[[m|]|e2] w2];
        simpl in *; try done.
      destruct (truthy_dict (Some m)) eqn:T2; [|done].
      injection Hfetch as -> ->. rewrite Hbody. done. }
  destruct Hrun as [Hr Hw]. split; [done|]. split; [done|].
  unfold changed, title_changed, content_changed_of, tags_changed,
    published_changed, cover_changed, py_ne.
  rewrite !orb_true_iff, !negb_true_iff, String.eqb_neq,
    bool_decide_eq_false, !py_eq_str_false, py_eq_bool_false.
  tauto.
Qed.

End ManagerFacts.

Import Mock.

Lemma action_matches_lookup_witness :
  mock_clients !! 0 = Some ("devto", MockPlatformClient "devto" false)
  /\ exists results r,
       fst (publish_to_all_platforms no_toc mock_clients sample_post mock_st0)
       = Ok results
       /\ results !! 0 = Some r
       /\ forall found w,
            find_article_by_title (MockPlatformClient "devto" false)
              (title sample_post)
              (world (state_before no_toc sample_post mock_clients 0 mock_st0))
            = (Ok found, w) ->
            match fst found with
            | VNone =>
                (action r = "created" \/ action r = "error")
                /\ action r <> "updated" /\ action r <> "skipped"
            | _ =>
                (action r = "updated" \/ action r = "skipped"
                 \/ action r = "error")
                /\ action r <> "created"
            end.
Proof.
  split; [reflexivity|].
  apply (action_matches_lookup no_toc sample_post mock_clients mock_st0 0
           "devto" (MockPlatformClient "devto" false)).
  reflexivity.
Defined.

Lemma publish_isolates_failures_witness :
  fst (_publish_to_platform no_toc sample_post "hashnode"
         (MockPlatformClient "hashnode" true)
         (state_before no_toc sample_post mock_clients 1 mock_st0))
  = Raise (mock_failure "hashnode")
  /\ exists r,
       fst (publish_to_all_platforms no_toc mock_clients sample_post mock_st0)
         = Ok [ {| platform := "devto"; success := true; action := "created";
                   article_id := VInt 1; error_message := None |}; r ]
       /\ action r = "error"
       /\ error_message r = Some "Unexpected error: Mock error in hashnode".
Proof.
  split; [vm_compute; reflexivity|].
  destruct (publish_isolates_failures no_toc sample_post mock_clients mock_st0)
    as [results [Hres [_ [_ [Herr _]]]]].
  destruct (Herr 1 "hashnode" (MockPlatformClient "hashnode" true)
              (mock_failure "hashnode") eq_refl)
    as [r [Hr [_ [_ [Hact Hmsg]]]]].
  { vm_compute; reflexivity. }
  exists r. repeat split; [|exact Hact|exact Hmsg].
  rewrite Hres. f_equal.
  assert (Hc : fst (publish_to_all_platforms no_toc mock_clients sample_post
                      mock_st0)
               = Ok [ {| platform := "devto"; success := true;
                         action := "created"; article_id := VInt 1;
                         error_message := None |};
                      error_result "hashnode"
                        "Unexpected error: Mock error in hashnode" ])
    by (vm_compute; reflexivity).
  rewrite Hres in Hc. injection Hc as ->.
  simpl in Hr. injection Hr as <-. reflexivity.
Defined.

Lemma skip_without_mutation_witness :
  exists results r new,
    fst (publish_to_all_platforms no_toc mock_clients sample_post mock_st1)
    = Ok results
    /\ results !! 0 = Some r
    /\ platform r = "devto"
    /\ action r = "skipped"
    /\ success r = true
    /\ article_id r = VInt 1
    /\ calls (state_before no_toc sample_post mock_clients 1 mock_st1)
       = (calls (state_before no_toc sample_post mock_clients 0 mock_st1)
          ++ new)%list
    /\ Forall (fun pc => fst pc = "devto" /\ is_mutation (snd pc) = false) new.
Proof.
  apply (skip_without_mutation no_toc sample_post mock_clients mock_st1 0
           "devto" (MockPlatformClient "devto" false) (VInt 1) (VBool true)
           (world mock_st1)).
  - reflexivity.
  - vm_compute; reflexivity.
  - discriminate.
  - vm_compute; reflexivity.
Defined.

Lemma needs_update_is_any_of_five_witness :
  let answer post :=
    fst (_needs_update post (VInt 1) (MockPlatformClient "devto" false)
           "devto" mock_st1) in
  sample_post = edited_post "T" "Body  text" ["python"; "blog"] false "c.png"
  /\ answer sample_post = Ok false
  /\ answer (edited_post "U" "Body  text" ["python"; "blog"] false "c.png")
     = Ok true
  /\ answer (edited_post "T" "Other text" ["python"; "blog"] false "c.png")
     = Ok true
  /\ answer (edited_post "T" "Body  text" ["python"] false "c.png")
     = Ok true
  /\ answer (edited_post "T" "Body  text" ["python"; "blog"] true "c.png")
     = Ok true
  /\ answer (edited_post "T" "Body  text" ["python"; "blog"] false "d.png")
     = Ok true.
Proof.
  assert (Hone : forall post,
    fst (_needs_update post (VInt 1) (MockPlatformClient "devto" false)
           "devto" mock_st1)
    = Ok (title_changed post sample_stored
          || content_changed_of
               (ContentProcessor.normalize_content_for_comparison
                  (body_markdown post))
               (ContentProcessor.normalize_content_for_comparison
                  "Body  text")
          || tags_changed post sample_stored
          || published_changed post sample_stored
          || cover_changed post sample_stored)).
  { intros post.
    destruct (needs_update_is_any_of_five post (VInt 1)
                (MockPlatformClient "devto" false) "devto" mock_st1
                sample_stored (world mock_st1) "Body  text")
      as [Hrun _].
    - vm_compute; reflexivity.
    - vm_compute; reflexivity.
    - exact Hrun. }
  intros answer. unfold answer. split; [reflexivity|].
  rewrite !Hone. repeat split; vm_compute; reflexivity.
Defined.


(* ===================================================================== *)
(** * The retry wrapper *)
(* ===================================================================== *)

Section RetryFacts.

Context {A : Type}.
Variable max_retries : Z.
Variables base_delay max_delay backoff_factor : Q.
Hypothesis base_delay_nonneg : (0 <= base_delay)%Q.
Hypothesis max_delay_nonneg : (0 <= max_delay)%Q.
Hypothesis backoff_factor_nonneg : (0 <= backoff_factor)%Q.

#[local] Abbreviation backoff :=
  (backoff_delay base_delay max_delay backoff_factor).
#[local] Abbreviation delay_of :=
  (retry_delay base_delay max_delay backoff_factor).
#[local] Abbreviation loop :=
  (retry_loop (A:=A) max_retries base_delay max_delay backoff_factor).

Lemma backoff_delay_nonneg attempt : (0 <= backoff attempt)%Q.
Proof.
  unfold backoff_delay. apply Q.min_glb; [|done].
  apply Qmult_le_0_compat; [done|]. by apply Qpower_0_le.
Qed.

Lemma rate_limit_delay_nonneg e attempt :
  match retry_after_of e with Some n => Z.leb 0 n | None => true end = true ->
  (0 <= rate_limit_delay base_delay max_delay backoff_factor e attempt)%Q.
Proof.
  unfold rate_limit_delay. destruct (retry_after_of e) as [n|].
  - intros Hn. destruct (Z.eqb n 0); [apply backoff_delay_nonneg|].
    apply Q.min_glb; [|done].
    unfold Qle. simpl. apply Z.leb_le in Hn. lia.
  - intros _. apply backoff_delay_nonneg.
Qed.

(** A transient failure is slept on. *)
Lemma transient_sleeps e attempt slept :
  transient e = true ->
  exists d, delay_of e attempt = Ok d
            /\ sleep d slept = Ok (slept ++ [d])%list.
Proof.
  unfold transient, retry_delay, is_rate_limited, sleep.
  destruct (exn_kind e) eqn:K; try discriminate; intros Ht.
  - eexists. split; [done|].
    by rewrite (proj2 (Qle_bool_iff _ _) (rate_limit_delay_nonneg e attempt Ht)).
  - destruct (exn_response e) as [[r|]|]; try discriminate.
    + destruct (Z.eqb (status_code r) 429); eexists; (split; [done|]).
      * by rewrite (proj2 (Qle_bool_iff _ _)
                      (rate_limit_delay_nonneg e attempt Ht)).
      * by rewrite (proj2 (Qle_bool_iff _ _) (backoff_delay_nonneg attempt)).
    + eexists. split; [done|].
      by rewrite (proj2 (Qle_bool_iff _ _) (backoff_delay_nonneg attempt)).
  - eexists. split; [done|].
    by rewrite (proj2 (Qle_bool_iff _ _) (backoff_delay_nonneg attempt)).
  - eexists. split; [done|].
    by rewrite (proj2 (Qle_bool_iff _ _) (backoff_delay_nonneg attempt)).
  - eexists. split; [done|].
    by rewrite (proj2 (Qle_bool_iff _ _) (backoff_delay_nonneg attempt)).
Qed.


Lemma retried_kind e :
  transient e = true ->
  match exn_kind e with
  | RateLimitError | HTTPError | ConnectionError | Timeout
  | RequestException => True
  | _ => False
  end.
Proof. unfold transient. by destruct (exn_kind e). Qed.

(** One iteration of the loop on a transient failure, attempts remaining. *)
Lemma retry_loop_transient {St} (func : St -> result A * St)
      remaining attempt last s s' e slept :
  func s = (Raise e, s') ->
  transient e = true ->
  Z.of_nat attempt <> max_retries ->
  exists d,
    delay_of e attempt = Ok d /\
    loop func (S remaining) attempt last s slept =
    loop func remaining (S attempt) (Some e) s' (slept ++ [d])%list.
Proof.
  intros Hf Ht Hne.
  destruct (transient_sleeps e attempt slept Ht) as [d [Hd Hs]].
  exists d. split; [done|].
  cbn [retry_loop]. rewrite Hf.
  apply Z.eqb_neq in Hne. rewrite Hne, Hd, Hs.
  pose proof (retried_kind e Ht). by destruct (exn_kind e).
Qed.

(** The last attempt: a retried kind of failure is raised. *)
Lemma retry_loop_last {St} (func : St -> result A * St)
      remaining attempt last s s' e slept :
  func s = (Raise e, s') ->
  transient e = true ->
  Z.of_nat attempt = max_retries ->
  loop func (S remaining) attempt last s slept = (Raise e, s', slept).
Proof.
  intros Hf Ht He. cbn [retry_loop]. rewrite Hf.
  apply Z.eqb_eq in He. rewrite He.
  pose proof (retried_kind e Ht). by destruct (exn_kind e).
Qed.

Lemma retry_loop_not_retried {St} (func : St -> result A * St)
      remaining attempt last s s' e slept :
  func s = (Raise e, s') ->
  not_retried e = true ->
  loop func (S remaining) attempt last s slept = (Raise e, s', slept).
Proof.
  intros Hf Hn. cbn [retry_loop]. rewrite Hf.
  unfold not_retried in Hn. by destruct (exn_kind e).
Qed.

Lemma counted_run {St} (func : St -> result A * St) s n :
  counted func (s, n) = (fst (func s), (snd (func s), S n)).
Proof. unfold counted. by destruct (func s). Qed.



End RetryFacts.

(** C7. Under [max_retries = 2] (and delays that are not negative): a
    function that fails twice with a retried failure and then succeeds
    returns its value and is called exactly 3 times; a function that
    always raises a rate-limit failure makes the wrapper raise that
    failure after exactly 3 calls. *)
Theorem retry_three_invocations {St A : Type}
        (base_delay max_delay backoff_factor : Q)
        (func : St -> result A * St) :
  (0 <= base_delay)%Q -> (0 <= max_delay)%Q -> (0 <= backoff_factor)%Q ->
  (forall s0 s1 s2 s3 e1 e2 v,
      func s0 = (Raise e1, s1) ->
      func s1 = (Raise e2, s2) ->
      func s2 = (Ok v, s3) ->
      transient e1 = true -> transient e2 = true ->
      exists d1 d2,
        with_retry_and_rate_limiting 2 base_delay max_delay backoff_factor
          (counted func) (s0, 0)
        = (Ok v, (s3, 3), [d1; d2]))
  /\ ((forall s, exists e,
          fst (func s) = Raise e /\ exn_kind e = RateLimitError
          /\ transient e = true) ->
      forall s0, exists e d1 d2,
        with_retry_and_rate_limiting 2 base_delay max_delay backoff_factor
          (counted func) (s0, 0)
        = (Raise e, (snd (func (snd (func (snd (func s0))))), 3), [d1; d2])
        /\ exn_kind e = RateLimitError
        /\ fst (func (snd (func (snd (func s0))))) = Raise e).
Proof.
  intros Hb Hm Hf. unfold with_retry_and_rate_limiting.
  change (Z.to_nat (2 + 1)) with 3. split.
  - intros s0 s1 s2 s3 e1 e2 v H1 H2 H3 T1 T2.
    destruct (retry_loop_transient 2 base_delay max_delay backoff_factor
                Hb Hm Hf (counted func) 2 0 None (s0, 0) (s1, 1) e1 [])
      as [d1 [_ Hs1]]; [by rewrite counted_run, H1|done|done|].
    destruct (retry_loop_transient 2 base_delay max_delay backoff_factor
                Hb Hm Hf (counted func) 1 1 (Some e1) (s1, 1) (s2, 2) e2
                ([] ++ [d1])%list)
      as [d2 [_ Hs2]]; [by rewrite counted_run, H2|done|done|].
    exists d1, d2. rewrite Hs1, Hs2. cbn [retry_loop].
    by rewrite counted_run, H3.
  - intros Hall s0.
    destruct (Hall s0) as [e1 [H1 [_ T1]]].
    destruct (Hall (snd (func s0))) as [e2 [H2 [_ T2]]].
    destruct (Hall (snd (func (snd (func s0))))) as [e3 [H3 [K3 T3]]].
    destruct (retry_loop_transient 2 base_delay max_delay backoff_factor
                Hb Hm Hf (counted func) 2 0 None (s0, 0)
                (snd (func s0), 1) e1 [])
      as [d1 [_ Hs1]]; [by rewrite counted_run, H1|done|done|].
    destruct (retry_loop_transient 2 base_delay max_delay backoff_factor
                Hb Hm Hf (counted func) 1 1 (Some e1) (snd (func s0), 1)
                (snd (func (snd (func s0))), 2) e2 ([] ++ [d1])%list)
      as [d2 [_ Hs2]]; [by rewrite counted_run, H2|done|done|].
    exists e3, d1, d2. rewrite Hs1, Hs2. split; [|done].
    apply (retry_loop_last 2 base_delay max_delay backoff_factor);
      [by rewrite counted_run, H3|done|done].
Qed.


Import Mock.

Lemma retry_three_invocations_witness :
  (exists d1 d2,
      with_retry_and_rate_limiting 2 (1#100) 60 2
        (counted rate_limited_function) (0, 0)
      = (Ok "success", (3, 3), [d1; d2]))
  /\ (exists e d1 d2,
        with_retry_and_rate_limiting 2 (1#100) 60 2
          (counted always_fails) (0, 0)
        = (Raise e, (3, 3), [d1; d2])
        /\ exn_kind e = RateLimitError).
Proof.
  split.
  - destruct (retry_three_invocations (1#100) 60 2 rate_limited_function)
      as [H _]; [done..|].
    apply (H 0 1 2 3 (publishing_error RateLimitError "Rate limited")
             (publishing_error RateLimitError "Rate limited") "success");
      reflexivity.
  - destruct (retry_three_invocations (1#100) 60 2 always_fails)
      as [_ H]; [done..|].
    destruct (H (fun s => ex_intro _ (publishing_error RateLimitError
                                        "Always fails")
                            (conj eq_refl (conj eq_refl eq_refl))) 0)
      as [e [d1 [d2 [Hrun [Hk _]]]]].
    exists e, d1, d2. split; [exact Hrun|exact Hk].
Defined.



(* ===================================================================== *)
(** * Tag conversion *)
(* ===================================================================== *)

Section StringFacts.

Variable p : ascii -> bool.

Lemma all_chars_lstrip q s :
  all_chars q s = true -> all_chars q (lstrip_if p s) = true.
Proof.
  induction s as [|c s IH]; simpl; [done|].
  intros H. apply andb_true_iff in H as [Hc Hs].
  destruct (p c); [by apply IH|]. simpl. by rewrite Hc, Hs.
Qed.

Lemma all_chars_rstrip q s :
  all_chars q s = true -> all_chars q (rstrip_if p s) = true.
Proof.
  induction s as [|c s IH]; simpl; [done|].
  intros H. apply andb_true_iff in H as [Hc Hs]. specialize (IH Hs).
  destruct (rstrip_if p s) as [|c' r].
  - destruct (p c); simpl; [done|]. by rewrite Hc.
  - simpl in *. by rewrite Hc, IH.
Qed.

Lemma all_chars_strip q s :
  all_chars q s = true -> all_chars q (strip_if p s) = true.
Proof. intros H. by apply all_chars_rstrip, all_chars_lstrip. Qed.

Lemma all_chars_delete q s :
  all_chars q s = true -> all_chars q (delete_chars p s) = true.
Proof.
  induction s as [|c s IH]; simpl; [done|].
  intros H. apply andb_true_iff in H as [Hc Hs].
  destruct (p c); [by apply IH|]. simpl. by rewrite Hc, IH.
Qed.

Lemma all_chars_delete_negb s :
  all_chars (fun c => negb (p c)) (delete_chars p s) = true.
Proof.
  induction s as [|c s IH]; simpl; [done|].
  destruct (p c) eqn:E; [done|]. simpl. by rewrite E, IH.
Qed.

Lemma all_chars_and q1 q2 s :
  all_chars q1 s = true -> all_chars q2 s = true ->
  all_chars (fun c => q1 c && q2 c) s = true.
Proof.
  induction s as [|c s IH]; simpl; [done|].
  intros H1 H2. apply andb_true_iff in H1 as [-> H1].
  apply andb_true_iff in H2 as [-> H2]. by rewrite IH.
Qed.

Lemma all_chars_impl (q1 q2 : ascii -> bool) s :
  (forall c, q1 c = true -> q2 c = true) ->
  all_chars q1 s = true -> all_chars q2 s = true.
Proof.
  intros Himp. induction s as [|c s IH]; simpl; [done|].
  intros H. apply andb_true_iff in H as [Hc Hs].
  by rewrite (Himp c Hc), IH.
Qed.

Lemma append_cons c (s t : string) : String c s +:+ t = String c (s +:+ t).
Proof. reflexivity. Qed.

Lemma append_empty_l (t : string) : "" +:+ t = t.
Proof. reflexivity. Qed.

Lemma append_empty_r (s : string) : s +:+ "" = s.
Proof.
  induction s as [|c s IH]; [done|]. by rewrite append_cons, IH.
Qed.

Lemma sub_runs_cons r c s :
  sub_runs p r (String c s) =
  if p c then
    if starts_with p s then sub_runs p r s else r +:+ sub_runs p r s
  else String c (sub_runs p r s).
Proof.
  cbn [sub_runs]. destruct (p c); [|done].
  destruct s as [|c' s']; [|done]. by rewrite append_empty_r.
Qed.

(** Replacing the runs of a class by one character [r]: what is left is
    outside the class, or is [r]. *)
Lemma all_chars_sub_runs (q q' : ascii -> bool) r s :
  q r = true ->
  (forall c, q' c = true -> p c = false -> q c = true) ->
  all_chars q' s = true ->
  all_chars q (sub_runs p (String r EmptyString) s) = true.
Proof.
  intros Hr Himp. induction s as [|c s IH]; [done|].
  intros H. cbn [all_chars] in H. apply andb_true_iff in H as [Hc Hs].
  specialize (IH Hs). rewrite sub_runs_cons.
  destruct (p c) eqn:E.
  - destruct (starts_with p s); [exact IH|].
    rewrite append_cons, append_empty_l. cbn [all_chars]. by rewrite Hr, IH.
  - cbn [all_chars]. by rewrite IH, (Himp c Hc E).
Qed.

Lemma starts_with_sub_runs r s :
  p r = true ->
  starts_with p (sub_runs p (String r EmptyString) s) = starts_with p s.
Proof.
  intros Hr. induction s as [|c s IH]; [done|].
  rewrite sub_runs_cons. cbn [starts_with].
  destruct (p c) eqn:E; [|by simpl].
  destruct (starts_with p s) eqn:Es; [by rewrite IH|].
  by rewrite append_cons.
Qed.

(** Collapsing the runs of a class into one character of the class leaves
    no character of the class repeated. *)
Lemma no_repeat_sub_runs r s :
  p r = true ->
  no_repeat p (sub_runs p (String r EmptyString) s) = true.
Proof.
  intros Hr. induction s as [|c s IH]; [done|].
  rewrite sub_runs_cons.
  pose proof (starts_with_sub_runs r s Hr) as Hst.
  destruct (p c) eqn:E.
  - destruct (starts_with p s) eqn:Es; [exact IH|].
    rewrite append_cons, append_empty_l. cbn [no_repeat].
    destruct (sub_runs p (String r EmptyString) s) as [|c' t]; [done|].
    simpl in Hst. by rewrite Hst, andb_false_r, IH.
  - cbn [no_repeat].
    destruct (sub_runs p (String r EmptyString) s) as [|c' t]; [done|].
    by rewrite E, IH.
Qed.

Lemma no_repeat_tail c s :
  no_repeat p (String c s) = true -> no_repeat p s = true.
Proof.
  simpl. destruct s; [done|]. intros H.
  by apply andb_true_iff in H as [_ H].
Qed.

Lemma no_repeat_lstrip q s :
  no_repeat p s = true -> no_repeat p (lstrip_if q s) = true.
Proof.
  induction s as [|c s IH]; [done|]. intros H. cbn [lstrip_if].
  destruct (q c); [|done]. apply IH. by eapply no_repeat_tail.
Qed.

Lemma rstrip_head q c s :
  rstrip_if q (String c s) = EmptyString
  \/ exists r, rstrip_if q (String c s) = String c r
               /\ (rstrip_if q s = r).
Proof.
  simpl. destruct (rstrip_if q s) as [|c' r].
  - destruct (q c); [by left|right]. by exists EmptyString.
  - right. by exists (String c' r).
Qed.

Lemma rstrip_second q s c' r :
  rstrip_if q s = String c' r -> exists s', s = String c' s'.
Proof.
  destruct s as [|a s]; [done|]. intros H.
  destruct (rstrip_head q a s) as [E|[r' [E _]]]; rewrite E in H; [done|].
  injection H as -> _. by eexists.
Qed.

Lemma no_repeat_rstrip q s :
  no_repeat p s = true -> no_repeat p (rstrip_if q s) = true.
Proof.
  induction s as [|c s IH]; [done|]. intros H.
  pose proof (IH (no_repeat_tail c s H)) as IH'.
  destruct (rstrip_head q c s) as [E|[r [E Er]]]; rewrite E; [done|].
  subst r. destruct (rstrip_if q s) as [|c' r] eqn:Es; [done|].
  destruct (rstrip_second q s c' r Es) as [s' ->].
  cbn [no_repeat] in *. apply andb_true_iff in H as [H _].
  by rewrite H, IH'.
Qed.

Lemma starts_with_lstrip s : starts_with p (lstrip_if p s) = false.
Proof.
  induction s as [|c s IH]; [done|]. simpl.
  destruct (p c) eqn:E; [done|]. simpl. done.
Qed.

Lemma starts_with_rstrip s :
  starts_with p s = false -> starts_with p (rstrip_if p s) = false.
Proof.
  destruct s as [|c s]; [done|]. intros H.
  destruct (rstrip_head p c s) as [E|[r [E _]]]; by rewrite E.
Qed.

Lemma ends_with_rstrip s : ends_with p (rstrip_if p s) = false.
Proof.
  induction s as [|c s IH]; [done|]. simpl.
  destruct (rstrip_if p s) as [|c' r].
  - destruct (p c) eqn:E; [done|]. simpl. done.
  - cbn [ends_with] in *. exact IH.
Qed.

End StringFacts.

Import ContentProcessor.

Lemma lower_char_not_upper c : is_ascii_upper (lower_char c) = false.
Proof. by destruct c as [[] [] [] [] [] [] [] []]. Qed.

Lemma all_chars_lower s :
  all_chars (fun c => negb (is_ascii_upper c)) (lower s) = true.
Proof.
  induction s as [|c s IH]; [done|]. simpl.
  by rewrite lower_char_not_upper, IH.
Qed.

Lemma kept_char_shape c :
  negb (hashnode_special c) && negb (is_ascii_upper c) = true ->
  isspace c = false -> tag_char c = true.
Proof. by destruct c as [[] [] [] [] [] [] [] []]. Qed.

(** Every tag the Hashnode policy produces is lower-case-hyphenated. *)
Lemma sanitize_tag_for_hashnode_shape tag :
  hyphenated_tag (_sanitize_tag_for_hashnode tag) = true.
Proof.
  unfold _sanitize_tag_for_hashnode, strip_chars, hyphenated_tag.
  set (s2 := delete_chars hashnode_special (strip (lower tag))).
  assert (H2 : all_chars (fun c => negb (hashnode_special c)
                                   && negb (is_ascii_upper c)) s2 = true).
  { apply all_chars_and; [apply all_chars_delete_negb|].
    apply all_chars_delete, all_chars_strip, all_chars_lower. }
  change "-" with (String hyphen "").
  set (s3 := sub_runs isspace (String hyphen "") s2).
  assert (H3 : all_chars tag_char s3 = true).
  { eapply all_chars_sub_runs; [done| |exact H2].
    intros c. apply kept_char_shape. }
  set (s4 := sub_runs (Ascii.eqb hyphen) (String hyphen "") s3).
  assert (H4 : all_chars tag_char s4 = true).
  { eapply all_chars_sub_runs; [done| |exact H3]. auto. }
  assert (N4 : no_repeat (Ascii.eqb hyphen) s4 = true)
    by by apply no_repeat_sub_runs.
  unfold strip_if.
  rewrite all_chars_rstrip, no_repeat_rstrip, starts_with_rstrip,
    ends_with_rstrip; try done.
  - apply starts_with_lstrip.
  - by apply no_repeat_lstrip.
  - by apply all_chars_lstrip.
Qed.

Lemma filter_map_length {X Y} (f : X -> Y) (P : X -> Prop)
      `{!forall x, Decision (P x)} (l : list X) :
  Forall P l -> length (map f (filter P l)) = length l.
Proof.
  intros Hall. rewrite length_map. f_equal.
  induction Hall as [|x l Hx Hl IH]; [done|].
  rewrite filter_cons_True by done. by rewrite IH.
Qed.

Lemma split_comma_tags_plain tags :
  Forall (fun tag => contains_char comma tag = false) tags ->
  split_comma_tags tags = map strip tags.
Proof.
  induction 1 as [|tag rest Htag Hrest IH]; [done|].
  simpl. by rewrite Htag, IH.
Qed.

(** C9, as amended.  For the Hashnode policy, every entry is split at
    commas and trimmed, the empty ones are dropped, and each remaining one
    is sanitized: lower-cased, stripped of everything but letters, digits,
    blanks and hyphens, blanks turned into hyphens, repeated hyphens
    collapsed, hyphens trimmed at both ends, so each result is a
    lower-case-hyphenated tag.  No limit applies to the number of tags:
    plain, non-blank tags give a list of the same length, however long. *)
Theorem hashnode_tag_conversion tags platform_name :
  lower platform_name = "hashnode" ->
  convert_tags_for_platform tags platform_name
  = map _sanitize_tag_for_hashnode
        (filter (fun t => truthy_str t = true) (split_comma_tags tags))
  /\ Forall (fun t => hyphenated_tag t = true)
            (convert_tags_for_platform tags platform_name)
  /\ (Forall (fun tag => contains_char comma tag = false
                         /\ truthy_str (strip tag) = true) tags ->
      length (convert_tags_for_platform tags platform_name) = length tags)
  /\ convert_tags_for_platform ["C++"; "Node.js"; "Web Development"]
                               platform_name
     = ["c"; "nodejs"; "web-development"].
Proof.
  intros Hp.
  assert (Heq : convert_tags_for_platform tags platform_name
                = map _sanitize_tag_for_hashnode
                      (filter (fun t => truthy_str t = true)
                              (split_comma_tags tags))).
  { unfold convert_tags_for_platform. rewrite Hp.
    by destruct tags. }
  split; [exact Heq|]. split; [|split].
  - rewrite Heq. apply Forall_map, Forall_forall. intros t _.
    apply sanitize_tag_for_hashnode_shape.
  - intros Hplain. rewrite Heq.
    rewrite split_comma_tags_plain
      by (eapply Forall_impl; [exact Hplain|by intros ? [? _]]).
    rewrite filter_map_length; [by rewrite length_map|].
    apply Forall_map. eapply Forall_impl; [exact Hplain|].
    by intros ? [_ ?].
  - unfold convert_tags_for_platform. by rewrite Hp.
Qed.

Lemma hashnode_tag_conversion_witness :
  convert_tags_for_platform ["a"; "b"; "c"; "d"; "e"; "f"; "g"] "Hashnode"
  = ["a"; "b"; "c"; "d"; "e"; "f"; "g"]
  /\ length (convert_tags_for_platform
               ["a"; "b"; "c"; "d"; "e"; "f"; "g"] "Hashnode") = 7.
Proof.
  destruct (hashnode_tag_conversion ["a"; "b"; "c"; "d"; "e"; "f"; "g"]
              "Hashnode" eq_refl) as [Heq [_ [Hlen _]]].
  split; [rewrite Heq; reflexivity|].
  apply Hlen. repeat constructor.
Defined.

(** C9, as stated, fails: Hashnode accepts at most 5 tags (the client sends
    [tags[:5]]), and the conversion returns a sixth one. *)
Lemma hashnode_tags_are_not_capped :
  convert_tags_for_platform ["a"; "b"; "c"; "d"; "e"; "f"] "hashnode"
  = ["a"; "b"; "c"; "d"; "e"; "f"]
  /\ ~ (length (convert_tags_for_platform
                  ["a"; "b"; "c"; "d"; "e"; "f"] "hashnode") <= 5).
Proof. split; [reflexivity|]. simpl. lia. Qed.

(* ===================================================================== *)
(** * Normalization for comparison *)
(* ===================================================================== *)

Section NormalFacts.

Variable p : ascii -> bool.

Lemma ends_with_cons c s :
  s <> EmptyString -> ends_with p (String c s) = ends_with p s.
Proof. by destruct s. Qed.

Lemma sub_runs_nonempty r s :
  s <> EmptyString -> sub_runs p (String r EmptyString) s <> EmptyString.
Proof.
  induction s as [|c s IH]; [done|]. intros _. rewrite sub_runs_cons.
  destruct (p c); [|done].
  destruct (starts_with p s) eqn:Es; [|done].
  apply IH. by destruct s.
Qed.

Lemma ends_with_sub_runs r s :
  p r = true ->
  ends_with p (sub_runs p (String r EmptyString) s) = ends_with p s.
Proof.
  intros Hr. induction s as [|c s IH]; [done|].
  rewrite sub_runs_cons.
  destruct (decide (s = EmptyString)) as [->|Hs].
  { simpl. destruct (p c) eqn:E; simpl; by rewrite ?Hr, ?E. }
  rewrite (ends_with_cons c s Hs).
  pose proof (sub_runs_nonempty r s Hs) as Hne.
  destruct (p c).
  - destruct (starts_with p s); [exact IH|].
    rewrite append_cons, append_empty_l. by rewrite ends_with_cons.
  - by rewrite ends_with_cons.
Qed.

Lemma lstrip_fixed s : starts_with p s = false -> lstrip_if p s = s.
Proof. destruct s as [|c s]; [done|]. simpl. by intros ->. Qed.

Lemma rstrip_fixed s : ends_with p s = false -> rstrip_if p s = s.
Proof.
  induction s as [|c s IH]; [done|].
  destruct (decide (s = EmptyString)) as [->|Hs].
  - simpl. by intros ->.
  - rewrite (ends_with_cons c s Hs). intros H. cbn [rstrip_if].
    rewrite (IH H). by destruct s.
Qed.

Lemma strip_fixed s :
  starts_with p s = false -> ends_with p s = false -> strip_if p s = s.
Proof.
  intros Hs He. unfold strip_if. by rewrite (lstrip_fixed s Hs), rstrip_fixed.
Qed.

Lemma no_repeat_head c s :
  no_repeat p (String c s) = true -> p c = true -> starts_with p s = false.
Proof.
  destruct s as [|c' s]; [done|]. cbn [no_repeat starts_with].
  intros H Hc. apply andb_true_iff in H as [H _]. rewrite Hc in H.
  by destruct (p c').
Qed.

(** Text whose runs are already single occurrences of [r] is left as it
    is. *)
Lemma sub_runs_fixed r s :
  no_repeat p s = true ->
  all_chars (fun c => negb (p c) || Ascii.eqb c r) s = true ->
  sub_runs p (String r EmptyString) s = s.
Proof.
  induction s as [|c s IH]; [done|]. intros Hn Ha.
  cbn [all_chars] in Ha. apply andb_true_iff in Ha as [Hc Ha].
  rewrite sub_runs_cons, (IH (no_repeat_tail p c s Hn) Ha).
  destruct (p c) eqn:E; [|done].
  rewrite (no_repeat_head c s Hn E), append_cons, append_empty_l.
  simpl in Hc. apply Ascii.eqb_eq in Hc. by subst.
Qed.

Lemma all_chars_true s : all_chars (fun _ => true) s = true.
Proof. induction s as [|c s IH]; [done|]. exact IH. Qed.

Lemma prefix_all_chars (s1 : string) : forall s2,
  String.prefix s1 s2 = true ->
  all_chars p s2 = true -> all_chars p s1 = true.
Proof.
  induction s1 as [|a s1 IH]; [done|]. intros [|b s2]; [done|].
  cbn [String.prefix all_chars]. destruct (ascii_dec a b) as [->|]; [|done].
  intros H1 H2. apply andb_true_iff in H2 as [-> H2]. by apply (IH s2).
Qed.

End NormalFacts.

Lemma normalize_whitespace_normal s :
  whitespace_normal (normalize_whitespace s) = true.
Proof.
  unfold whitespace_normal, normalize_whitespace, strip.
  change " " with (String space "").
  rewrite (all_chars_sub_runs isspace plain_blank (fun _ => true)),
    no_repeat_sub_runs, starts_with_sub_runs, ends_with_sub_runs; try done.
  - unfold strip_if. by rewrite ends_with_rstrip, starts_with_rstrip;
      [|apply starts_with_lstrip].
  - intros c _ Hc. unfold plain_blank. by rewrite Hc.
  - apply all_chars_true.
Qed.

Lemma whitespace_normal_fixed z :
  whitespace_normal z = true -> normalize_whitespace z = z.
Proof.
  unfold whitespace_normal, normalize_whitespace, strip. intros H.
  apply andb_true_iff in H as [H He].
  apply andb_true_iff in H as [H Hs].
  apply andb_true_iff in H as [Ha Hn].
  apply negb_true_iff in He, Hs.
  rewrite (strip_fixed isspace z Hs He).
  change " " with (String space ""). by apply sub_runs_fixed.
Qed.

(** Text without a newline has no front matter to remove. *)
Lemma remove_frontmatter_plain z :
  all_chars plain_blank z = true -> _remove_frontmatter z = z.
Proof.
  intros Ha. unfold _remove_frontmatter.
  destruct (String.prefix ("---" +:+ chr nl) z) eqn:E; [|done].
  by pose proof (prefix_all_chars plain_blank _ z E Ha).
Qed.

Lemma whitespace_normal_plain z :
  whitespace_normal z = true -> all_chars plain_blank z = true.
Proof.
  unfold whitespace_normal. intros H.
  apply andb_true_iff in H as [H _].
  apply andb_true_iff in H as [H _].
  by apply andb_true_iff in H as [H _].
Qed.

(** Where the align stripping finds nothing, the normalized text is a
    fixed point. *)
Lemma normalize_fixed_when_nothing_stripped x :
  re_delete match_align_any (normalize_whitespace (_remove_frontmatter x))
  = normalize_whitespace (_remove_frontmatter x) ->
  normalize_content_for_comparison (normalize_content_for_comparison x)
  = normalize_content_for_comparison x.
Proof.
  intros Hx. unfold normalize_content_for_comparison at 2 3. rewrite Hx.
  set (y := normalize_whitespace (_remove_frontmatter x)) in *.
  pose proof (normalize_whitespace_normal (_remove_frontmatter x)) as Hy.
  fold y in Hy. unfold normalize_content_for_comparison.
  by rewrite (remove_frontmatter_plain y (whitespace_normal_plain y Hy)),
    (whitespace_normal_fixed y Hy).
Qed.

(** C4, as stated, fails: an align attribute at the very start leaves a
    blank in front of the text, which the second pass strips. *)
Lemma normalize_not_idempotent :
  normalize_content_for_comparison align_then_text = " foo"
  /\ normalize_content_for_comparison
       (normalize_content_for_comparison align_then_text) = "foo"
  /\ normalize_content_for_comparison
       (normalize_content_for_comparison align_then_text)
     <> normalize_content_for_comparison align_then_text.
Proof. repeat split; discriminate. Qed.

(** ** What the align stripping leaves of whitespace-normal text *)

Section DeleteFacts.

Variable m : string -> option nat.

Lemma re_delete_all_chars q s : forall skip,
  all_chars q s = true -> all_chars q (re_delete_from m skip s) = true.
Proof.
  induction s as [|c s IH]; [done|]. intros skip H.
  cbn [all_chars] in H. apply andb_true_iff in H as [Hc Hs].
  cbn [re_delete_from]. destruct skip as [|k]; [|by apply IH].
  destruct (m (String c s)); [by apply IH|].
  cbn [all_chars]. by rewrite Hc, IH.
Qed.

Lemma re_delete_length s : forall skip,
  String.length (re_delete_from m skip s) <= String.length s.
Proof.
  induction s as [|c s IH]; [done|]. intros skip.
  cbn [re_delete_from]. destruct skip as [|k].
  - destruct (m (String c s)).
    + specialize (IH (Nat.pred n)). simpl. lia.
    + specialize (IH 0). simpl. lia.
  - specialize (IH k). simpl. lia.
Qed.

(** Where the pattern matches at no position, nothing is deleted. *)
Lemma re_delete_no_match s :
  (forall k, m (drop k s) = None) -> re_delete m s = s.
Proof.
  unfold re_delete. induction s as [|c s IH]; [done|]. intros H.
  cbn [re_delete_from]. pose proof (H 0) as H0. cbn [drop] in H0.
  rewrite H0. f_equal. apply IH.
  intros k. apply (H (S k)).
Qed.

End DeleteFacts.

Section AlignFacts.

Variable lit : string.
Variable tail : string -> option nat.

#[local] Abbreviation pat := (match_ws_lit lit tail).

Lemma span_len_no_start q s : starts_with q s = false -> span_len q s = 0.
Proof. destruct s as [|c s]; [done|]. simpl. by intros ->. Qed.

(** A blank in front of a word does not decide whether the pattern
    matches: the blank is only skipped. *)
Lemma match_after_blank c s :
  isspace c = true -> starts_with isspace s = false ->
  pat (String c s) = None -> pat s = None.
Proof.
  intros Hc Hs. unfold match_ws_lit. cbn [span_len]. rewrite Hc.
  rewrite (span_len_no_start isspace s Hs). cbn [drop].
  destruct (String.prefix lit s); [|done].
  by destruct (tail (drop (String.length lit) s)).
Qed.

Lemma ends_with_tail q c s :
  ends_with q (String c s) = false -> ends_with q s = false.
Proof. destruct s as [|c' s]; [done|]. by rewrite ends_with_cons. Qed.

(** A kept blank is followed by the word that followed it in the text. *)
Lemma kept_blank_next c s :
  no_repeat isspace (String c s) = true ->
  ends_with isspace (String c s) = false ->
  isspace c = true ->
  pat (String c s) = None ->
  starts_with isspace (re_delete_from pat 0 s) = false
  /\ re_delete_from pat 0 s <> EmptyString.
Proof.
  intros Hn He Hc Hm.
  pose proof (no_repeat_head isspace c s Hn Hc) as Hs.
  destruct s as [|d s]; [by simpl in He; rewrite Hc in He|].
  pose proof (match_after_blank c (String d s) Hc Hs Hm) as Hm'.
  cbn [re_delete_from]. rewrite Hm'. split; [exact Hs|done].
Qed.

Lemma no_repeat_cons q a b s :
  no_repeat q (String a (String b s))
  = negb (q a && q b) && no_repeat q (String b s).
Proof. reflexivity. Qed.

Lemma re_delete_blank_shape s : forall skip,
  no_repeat isspace s = true ->
  ends_with isspace s = false ->
  no_repeat isspace (re_delete_from pat skip s) = true
  /\ ends_with isspace (re_delete_from pat skip s) = false.
Proof.
  induction s as [|c s IH]; [done|]. intros skip Hn He.
  pose proof (IH 0 (no_repeat_tail isspace c s Hn)
                (ends_with_tail isspace c s He)) as IH0.
  cbn [re_delete_from]. destruct skip as [|k].
  2: { apply IH; [by eapply no_repeat_tail|by eapply ends_with_tail]. }
  destruct (pat (String c s)) as [n|] eqn:Hm.
  { apply IH; [by eapply no_repeat_tail|by eapply ends_with_tail]. }
  destruct IH0 as [IHn IHe].
  destruct (isspace c) eqn:Hc.
  - destruct (kept_blank_next c s Hn He Hc Hm) as [Hst Hne].
    destruct (re_delete_from pat 0 s) as [|d z] eqn:Ez; [done|].
    split.
    + rewrite no_repeat_cons, IHn. cbn [starts_with] in Hst.
      by rewrite Hst, andb_false_r.
    + by rewrite ends_with_cons.
  - split.
    + destruct (re_delete_from pat 0 s) as [|d z]; [done|].
      by rewrite no_repeat_cons, Hc, IHn.
    + destruct (re_delete_from pat 0 s) as [|d z] eqn:Ez;
        [by simpl; rewrite Hc|].
      by rewrite ends_with_cons.
Qed.

End AlignFacts.

(** ** Occurrences of a word survive none of the normalization steps that
    they did not already survive in the source text *)

Section ContainsFacts.

Variable lit : string.

Lemma contains_cons c s :
  contains lit (String c s) = String.prefix lit (String c s) || contains lit s.
Proof. reflexivity. Qed.

Lemma prefix_contains s : String.prefix lit s = true -> contains lit s = true.
Proof. destruct s; simpl; by intros ->. Qed.

Lemma contains_empty_lit s : lit = EmptyString -> contains lit s = true.
Proof. intros ->. by destruct s. Qed.

Lemma contains_drop k : forall s,
  contains lit (drop k s) = true -> contains lit s = true.
Proof.
  induction k as [|k IH]; [done|]. intros [|c s]; [done|].
  cbn [drop]. intros H. rewrite contains_cons, (IH s H). apply orb_true_r.
Qed.

Lemma not_contains_no_prefix s k :
  contains lit s = false -> String.prefix lit (drop k s) = false.
Proof.
  intros H. destruct (String.prefix lit (drop k s)) eqn:E; [|done].
  by rewrite (contains_drop k s (prefix_contains _ E)) in H.
Qed.

Lemma find_after_drop pat s : forall r,
  find_after pat s = Some r -> exists k, r = drop k s.
Proof.
  induction s as [|c s IH]; intros r; cbn [find_after].
  - destruct (String.prefix pat ""); [|done]. intros [= <-]. by eexists.
  - destruct (String.prefix pat (String c s)).
    + intros [= <-]. by eexists.
    + intros H. destruct (IH r H) as [k ->]. by exists (S k).
Qed.

Lemma contains_remove_frontmatter x :
  contains lit (_remove_frontmatter x) = true -> contains lit x = true.
Proof.
  unfold _remove_frontmatter.
  destruct (String.prefix ("---" +:+ chr nl) x); [|done].
  destruct (find_after _ _) as [r|] eqn:E; [|done].
  destruct (find_after_drop _ _ r E) as [k ->].
  intros H. by apply contains_drop, contains_drop in H.
Qed.

Lemma contains_lstrip q s :
  contains lit (lstrip_if q s) = true -> contains lit s = true.
Proof.
  induction s as [|c s IH]; [done|]. cbn [lstrip_if].
  destruct (q c); [|done]. intros H.
  rewrite contains_cons, (IH H). apply orb_true_r.
Qed.

Lemma prefix_rstrip q s : forall l,
  String.prefix l (rstrip_if q s) = true -> String.prefix l s = true.
Proof.
  induction s as [|c s IH]; [done|]. intros [|a l]; [done|].
  destruct (rstrip_head q c s) as [E|[r [E Er]]]; rewrite E; [done|].
  subst r. cbn [String.prefix]. destruct (ascii_dec a c); [|done].
  apply IH.
Qed.

Lemma contains_rstrip q s :
  contains lit (rstrip_if q s) = true -> contains lit s = true.
Proof.
  induction s as [|c s IH]; [done|].
  destruct (rstrip_head q c s) as [E|[r [E Er]]]; rewrite E.
  - intros H. apply contains_empty_lit. by destruct lit.
  - subst r. rewrite !contains_cons. intros H.
    apply orb_true_iff in H as [H|H].
    + rewrite <- E in H. by rewrite (prefix_rstrip q _ _ H).
    + rewrite (IH H). apply orb_true_r.
Qed.

Lemma contains_strip q s :
  contains lit (strip_if q s) = true -> contains lit s = true.
Proof.
  unfold strip_if. intros H.
  by apply (contains_lstrip q), (contains_rstrip q).
Qed.

End ContainsFacts.

Section SubRunsContains.

Variable p : ascii -> bool.
Variable r : ascii.
Hypothesis p_r : p r = true.

(** A word without characters of the class that starts the collapsed text
    starts the source text. *)
Lemma prefix_sub_runs s : forall l,
  all_chars (fun c => negb (p c)) l = true ->
  String.prefix l (sub_runs p (String r EmptyString) s) = true ->
  String.prefix l s = true.
Proof.
  induction s as [|c s IH]; [done|]. intros [|a l]; [done|].
  cbn [all_chars]. intros Hl. apply andb_true_iff in Hl as [Ha Hl].
  apply negb_true_iff in Ha.
  rewrite sub_runs_cons. destruct (p c) eqn:E.
  - pose proof (starts_with_sub_runs p r s p_r) as Hst.
    destruct (starts_with p s) eqn:Es.
    + destruct (sub_runs p (String r "") s) as [|e t]; [done|].
      cbn [String.prefix]. destruct (ascii_dec a e) as [->|]; [|done].
      simpl in Hst. congruence.
    + rewrite append_cons, append_empty_l. cbn [String.prefix].
      destruct (ascii_dec a r) as [->|]; [|done]. congruence.
  - cbn [String.prefix]. destruct (ascii_dec a c); [|done]. by apply IH.
Qed.

Lemma contains_sub_runs l s :
  all_chars (fun c => negb (p c)) l = true ->
  contains l (sub_runs p (String r EmptyString) s) = true ->
  contains l s = true.
Proof.
  intros Hl. induction s as [|c s IH]; [done|].
  intros H. rewrite contains_cons.
  destruct (String.prefix l (sub_runs p (String r "") (String c s))) eqn:Ep.
  { by rewrite (prefix_sub_runs _ l Hl Ep). }
  rewrite IH; [apply orb_true_r|].
  rewrite sub_runs_cons in *. destruct (p c).
  - destruct (starts_with p s); [done|].
    rewrite append_cons, append_empty_l in *.
    rewrite contains_cons, Ep in H. exact H.
  - rewrite contains_cons, Ep in H. exact H.
Qed.

End SubRunsContains.

Lemma align_open_no_blank :
  all_chars (fun c => negb (isspace c)) align_open = true.
Proof. reflexivity. Qed.

(** Text in which no align attribute opens is left as it is by the align
    stripping. *)
Lemma strip_align_without_align s :
  contains align_open s = false -> re_delete match_align_any s = s.
Proof.
  intros H. apply re_delete_no_match. intros k.
  unfold match_align_any, match_ws_lit.
  assert (Hd : forall a b, drop a (drop b s) = drop (b + a) s).
  { intros a b. revert s H. induction b as [|b IH]; intros s H; [done|].
    destruct s as [|c s]; [by destruct a|].
    cbn [drop Nat.add]. apply IH.
    rewrite contains_cons in H. by apply orb_false_iff in H as [_ H]. }
  rewrite Hd. fold align_open.
  by rewrite (not_contains_no_prefix align_open s _ H).
Qed.

Lemma contains_normalize_whitespace l s :
  all_chars (fun c => negb (isspace c)) l = true ->
  contains l (normalize_whitespace s) = true -> contains l s = true.
Proof.
  unfold normalize_whitespace, strip. intros Hl H.
  change " " with (String space "") in H.
  apply (contains_sub_runs isspace space eq_refl l _ Hl) in H.
  by apply contains_strip in H.
Qed.

(** ** Idempotence of the normalization *)

Lemma ends_with_lstrip q s :
  ends_with q s = false -> ends_with q (lstrip_if q s) = false.
Proof.
  induction s as [|c s IH]; [done|]. intros H. cbn [lstrip_if].
  destruct (q c); [|done]. apply IH. by eapply ends_with_tail.
Qed.

Lemma lstrip_length q s :
  starts_with q s = true ->
  String.length (lstrip_if q s) < String.length s.
Proof.
  destruct s as [|c s]; [done|]. cbn [starts_with lstrip_if]. intros ->.
  assert (H : forall t, String.length (lstrip_if q t) <= String.length t).
  { induction t as [|d t IH]; [done|]. cbn [lstrip_if].
    destruct (q d); simpl; lia. }
  specialize (H s). simpl. lia.
Qed.

(** The normalized text has single plain spaces only, and none at its
    end; a blank may be left at its start. *)
Lemma normalize_shape x :
  all_chars plain_blank (normalize_content_for_comparison x) = true
  /\ no_repeat isspace (normalize_content_for_comparison x) = true
  /\ ends_with isspace (normalize_content_for_comparison x) = false.
Proof.
  unfold normalize_content_for_comparison, re_delete.
  pose proof (normalize_whitespace_normal (_remove_frontmatter x)) as Hy.
  set (y := normalize_whitespace (_remove_frontmatter x)) in *.
  unfold whitespace_normal in Hy.
  apply andb_true_iff in Hy as [Hy He].
  apply andb_true_iff in Hy as [Hy _].
  apply andb_true_iff in Hy as [Ha Hn].
  apply negb_true_iff in He.
  split; [by apply re_delete_all_chars|].
  by apply re_delete_blank_shape.
Qed.

(** Normalizing a normalized text: no front matter is found, the blank at
    the start (if any) is stripped, and the align stripping runs again. *)
Lemma normalize_of_normalized x :
  normalize_content_for_comparison (normalize_content_for_comparison x)
  = re_delete match_align_any
      (lstrip_if isspace (normalize_content_for_comparison x)).
Proof.
  destruct (normalize_shape x) as [Ha [Hn He]].
  set (z := normalize_content_for_comparison x) in *.
  unfold normalize_content_for_comparison at 1.
  rewrite (remove_frontmatter_plain z Ha).
  unfold normalize_whitespace, strip, strip_if.
  rewrite (rstrip_fixed isspace _ (ends_with_lstrip isspace z He)).
  change " " with (String space "").
  rewrite sub_runs_fixed; [done| |].
  - by apply no_repeat_lstrip.
  - by apply all_chars_lstrip.
Qed.

(** C4, as amended.  Normalizing twice equals normalizing once exactly
    when the normalized text does not start with a blank and no align
    attribute is left in it to strip; this is so for every text in which
    no align attribute opens.  And the example document normalizes to its
    body, with no front-matter delimiter left. *)
Theorem normalize_idempotence x :
  (normalize_content_for_comparison (normalize_content_for_comparison x)
   = normalize_content_for_comparison x
   <-> starts_with isspace (normalize_content_for_comparison x) = false
       /\ re_delete match_align_any (normalize_content_for_comparison x)
          = normalize_content_for_comparison x)
  /\ (contains align_open x = false ->
      normalize_content_for_comparison (normalize_content_for_comparison x)
      = normalize_content_for_comparison x)
  /\ normalize_content_for_comparison front_matter_example
     = normalize_content_for_comparison "Body"
  /\ contains "---" (normalize_content_for_comparison front_matter_example)
     = false.
Proof.
  split; [|split; [|by split]].
  - rewrite normalize_of_normalized.
    set (z := normalize_content_for_comparison x). split.
    + intros H.
      destruct (starts_with isspace z) eqn:Es.
      * exfalso.
        pose proof (lstrip_length isspace z Es) as Hl.
        pose proof (re_delete_length match_align_any
                      (lstrip_if isspace z) 0) as Hd.
        fold (re_delete match_align_any (lstrip_if isspace z)) in Hd.
        rewrite H in Hd. lia.
      * split; [done|]. by rewrite (lstrip_fixed isspace z Es) in H.
    + intros [Es H]. by rewrite (lstrip_fixed isspace z Es).
  - intros Hx. apply normalize_fixed_when_nothing_stripped.
    apply strip_align_without_align.
    destruct (contains align_open
                (normalize_whitespace (_remove_frontmatter x))) eqn:E;
      [|done].
    apply (contains_normalize_whitespace _ _ align_open_no_blank) in E.
    apply contains_remove_frontmatter in E. congruence.
Qed.

Lemma normalize_idempotence_witness :
  contains align_open front_matter_example = false
  /\ normalize_content_for_comparison
       (normalize_content_for_comparison front_matter_example)
     = normalize_content_for_comparison front_matter_example.
Proof.
  split; [reflexivity|].
  destruct (normalize_idempotence front_matter_example) as [_ [H _]].
  apply H. reflexivity.
Defined.

(* ===================================================================== *)
(** * More on the retry wrapper *)
(* ===================================================================== *)

Section RetryBounds.

Context {St A : Type}.
Variable max_retries : Z.
Variables base_delay max_delay backoff_factor : Q.
Variable func : St -> result A * St.

#[local] Abbreviation loop' :=
  (retry_loop (A:=A) max_retries base_delay max_delay backoff_factor
              (counted func)).

Lemma sleep_inv d slept slept' :
  sleep d slept = Ok slept' ->
  slept' = (slept ++ [d])%list /\ (0 <= d)%Q.
Proof.
  unfold sleep. destruct (Qle_bool 0 d) eqn:E; [|done].
  intros [= <-]. split; [done|]. by apply Qle_bool_iff.
Qed.

Lemma retry_delay_capped e attempt d :
  retry_delay base_delay max_delay backoff_factor e attempt = Ok d ->
  (d <= max_delay)%Q.
Proof.
  unfold retry_delay, rate_limit_delay, backoff_delay.
  destruct (exn_kind e), (is_rate_limited e) as [[|]|];
    try discriminate; intros [= <-];
    repeat match goal with
           | |- context [match ?x with _ => _ end] => destruct x
           end; apply Q.le_min_r.
Qed.

(** Every attempt but the last is followed by one sleep. *)
Lemma retry_loop_counts remaining : forall attempt last s n slept,
  (Z.of_nat attempt + Z.of_nat (S remaining))%Z = (max_retries + 1)%Z ->
  exists new,
    snd (loop' (S remaining) attempt last (s, n) slept)
    = (slept ++ new)%list
    /\ snd (snd (fst (loop' (S remaining) attempt last (s, n) slept)))
       = n + length new + 1
    /\ length new <= remaining
    /\ Forall (fun d => (0 <= d)%Q /\ (d <= max_delay)%Q) new.
Proof.
  induction remaining as [|r IH]; intros attempt last s n slept Hsum.
  - exists []. cbn [retry_loop]. rewrite counted_run.
    assert (Hlast : Z.eqb (Z.of_nat attempt) max_retries = true)
      by (apply Z.eqb_eq; lia).
    rewrite Hlast, app_nil_r.
    destruct (fst (func s)) as [v|e]; simpl;
      [by repeat split; try lia|].
    destruct (exn_kind e); simpl; repeat split; try done; lia.
  - cbn [retry_loop]. rewrite counted_run.
    assert (Hnot : Z.eqb (Z.of_nat attempt) max_retries = false)
      by (apply Z.eqb_neq; lia).
    rewrite Hnot.
    assert (Hstop : forall (out : result A),
      exists new : list Q,
        snd (out, (snd (func s), S n), slept) = (slept ++ new)%list
        /\ snd (snd (fst (out, (snd (func s), S n), slept)))
           = n + length new + 1
        /\ length new <= S r
        /\ Forall (fun d => (0 <= d)%Q /\ (d <= max_delay)%Q) new).
    { intros out. exists []. simpl. rewrite app_nil_r.
      repeat split; try done; lia. }
    destruct (fst (func s)) as [v|e]; [apply Hstop|].
    destruct (retry_delay base_delay max_delay backoff_factor e attempt)
      as [d|e'] eqn:Hd.
    2: { destruct (exn_kind e); apply Hstop. }
    destruct (sleep d slept) as [slept'|e'] eqn:Hs.
    2: { destruct (exn_kind e); apply Hstop. }
    destruct (sleep_inv d slept slept' Hs) as [-> Hd0].
    pose proof (retry_delay_capped e attempt d Hd) as Hdm.
    destruct (IH (S attempt) (Some e) (snd (func s)) (S n)
                (slept ++ [d])%list) as [new [Hsl [Hn [Hlen Hall]]]]; [lia|].
    assert (Hgo :
      exists new0 : list Q,
        snd (loop' (S r) (S attempt) (Some e) (snd (func s), S n)
                   (slept ++ [d])%list) = (slept ++ new0)%list
        /\ snd (snd (fst (loop' (S r) (S attempt) (Some e)
                            (snd (func s), S n) (slept ++ [d])%list)))
           = n + length new0 + 1
        /\ length new0 <= S r
        /\ Forall (fun d => (0 <= d)%Q /\ (d <= max_delay)%Q) new0).
    { exists (d :: new). rewrite Hsl, Hn. simpl.
      repeat split; try lia.
      - by rewrite <- app_assoc.
      - by constructor. }
    destruct (exn_kind e); try apply Hstop; exact Hgo.
Qed.

End RetryBounds.

(** X1. Whatever the wrapped function does, with [max_retries >= 0] the
    wrapper calls it at least once and at most [max_retries + 1] times,
    sleeps exactly once between two calls, and never sleeps a negative
    delay or one above [max_delay]. *)
Theorem retry_invocation_bound {St A : Type} (max_retries : Z)
        (base_delay max_delay backoff_factor : Q)
        (func : St -> result A * St) (s : St) :
  (0 <= max_retries)%Z ->
  let run := with_retry_and_rate_limiting max_retries base_delay max_delay
               backoff_factor (counted func) (s, 0) in
  snd (snd (fst run)) = length (snd run) + 1
  /\ snd (snd (fst run)) <= Z.to_nat max_retries + 1
  /\ Forall (fun d => (0 <= d)%Q /\ (d <= max_delay)%Q) (snd run).
Proof.
  intros Hn run. unfold run, with_retry_and_rate_limiting.
  replace (Z.to_nat (max_retries + 1)) with (S (Z.to_nat max_retries)) by lia.
  destruct (retry_loop_counts max_retries base_delay max_delay backoff_factor
              func (Z.to_nat max_retries) 0 None s 0 [])
    as [new [Hsl [Hc [Hlen Hall]]]]; [lia|].
  rewrite Hsl, Hc. simpl. repeat split; [lia|done].
Qed.

Lemma retry_invocation_bound_witness :
  snd (snd (fst (with_retry_and_rate_limiting 3 1 60 2
                   (counted Mock.always_http_500) (0, 0)))) <= 4.
Proof.
  destruct (retry_invocation_bound 3 1 60 2 Mock.always_http_500 0)
    as [_ [H _]]; [done|]. exact H.
Defined.

(** X2. With a negative [max_retries] the wrapped function is never
    called: the loop body does not run and the final [raise] of the
    missing last exception fails with a [TypeError]. *)
Theorem retry_negative_budget {St A : Type} (max_retries : Z)
        (base_delay max_delay backoff_factor : Q)
        (func : St -> result A * St) (s : St) :
  (max_retries < 0)%Z ->
  with_retry_and_rate_limiting max_retries base_delay max_delay
    backoff_factor (counted func) (s, 0)
  = (Raise (builtin_error "exceptions must derive from BaseException"),
     (s, 0), []).
Proof.
  intros Hn. unfold with_retry_and_rate_limiting.
  by replace (Z.to_nat (max_retries + 1)) with 0 by lia.
Qed.

Lemma retry_negative_budget_witness :
  with_retry_and_rate_limiting (-1) 1 60 2
    (counted Mock.rate_limited_function) (0, 0)
  = (Raise (builtin_error "exceptions must derive from BaseException"),
     (0, 0), []).
Proof.
  apply (retry_negative_budget (-1) 1 60 2 Mock.rate_limited_function 0).
  reflexivity.
Defined.

(** X3. After an HTTP 429 failure whose response carries a Retry-After
    header that reads as a positive integer [n], the wrapper sleeps
    [min(n, max_delay)], not the computed backoff, before it calls
    again. *)
Theorem retry_after_takes_precedence {St A : Type} (max_retries : Z)
        (base_delay max_delay backoff_factor : Q)
        (func : St -> result A * St) s0 s1 s2 e r h n v :
  (1 <= max_retries)%Z ->
  (0 <= max_delay)%Q ->
  exn_kind e = HTTPError ->
  exn_response e = Some (Some r) ->
  status_code r = 429%Z ->
  retry_after_header r = Some h ->
  py_int h = Some n ->
  (0 < n)%Z ->
  func s0 = (Raise e, s1) ->
  func s1 = (Ok v, s2) ->
  with_retry_and_rate_limiting max_retries base_delay max_delay
    backoff_factor func s0
  = (Ok v, s2, [Qmin (inject_Z n) max_delay]).
Proof.
  intros Hm Hmax Hk Hr Hst Hh Hi Hn H0 H1.
  unfold with_retry_and_rate_limiting.
  replace (Z.to_nat (max_retries + 1))
    with (S (S (Z.to_nat (max_retries - 1)))) by lia.
  cbn [retry_loop]. rewrite H0, Hk.
  assert (Hne : Z.eqb (Z.of_nat 0) max_retries = false)
    by (apply Z.eqb_neq; simpl; lia).
  rewrite Hne.
  assert (Hra : retry_after_of e = Some n).
  { unfold retry_after_of. rewrite Hr, Hh.
    destruct (String.eqb h "") eqn:E; [|done].
    apply String.eqb_eq in E. by subst h. }
  assert (Hd : retry_delay base_delay max_delay backoff_factor e 0
               = Ok (Qmin (inject_Z n) max_delay)).
  { unfold retry_delay, is_rate_limited, rate_limit_delay.
    rewrite Hk, Hr, Hst, Hra. simpl.
    destruct (Z.eqb n 0) eqn:E; [apply Z.eqb_eq in E; lia|done]. }
  rewrite Hd. unfold sleep.
  assert (Hpos : Qle_bool 0 (Qmin (inject_Z n) max_delay) = true).
  { apply Qle_bool_iff, Q.min_glb; [|done]. unfold Qle. simpl. lia. }
  rewrite Hpos. by rewrite H1.
Qed.

Lemma retry_after_takes_precedence_witness :
  with_retry_and_rate_limiting 3 1 60 2 Samples.refused_once 0
  = (Ok "done", 2, [Qmin (inject_Z 5) 60]).
Proof.
  apply (retry_after_takes_precedence 3 1 60 2 Samples.refused_once 0 1 2
           Samples.too_many_requests
           {| status_code := 429; retry_after_header := Some "5" |}
           "5" 5 "done"); try reflexivity; done.
Defined.

(* ===================================================================== *)
(** * Responses, and the dev.to client on top of the retry wrapper *)
(* ===================================================================== *)

Import HttpApi DevTo.

(** X4. [handle_api_response] returns the decoded body exactly for a
    response outside 400..599 that decodes; otherwise it raises one of the
    three classified errors (none of which carries a [response]):
    [AuthenticationError] for 401 and 403, [RateLimitError] for 429,
    [APIError] for every other 4xx/5xx code and for a body that is not
    JSON. *)
Theorem handle_api_response_classifies repr_container response platform
        operation article_title :
  match handle_api_response repr_container response platform operation
                            article_title with
  | Ok data =>
      raises_for_status response = false /\ resp_json response = Some data
  | Raise e =>
      exn_response e = None /\
      match exn_kind e with
      | AuthenticationError =>
          raises_for_status response = true
          /\ (resp_status response = 401 \/ resp_status response = 403)%Z
      | RateLimitError =>
          raises_for_status response = true /\ resp_status response = 429%Z
      | APIError =>
          (raises_for_status response = true
           /\ resp_status response <> 401%Z /\ resp_status response <> 403%Z
           /\ resp_status response <> 429%Z)
          \/ (raises_for_status response = false
              /\ resp_json response = None)
      | _ => False
      end
  end.
Proof.
  unfold handle_api_response.
  destruct (raises_for_status response) eqn:R.
  - destruct (Z.eqb (resp_status response) 401) eqn:E1;
      [apply Z.eqb_eq in E1; simpl; auto|].
    destruct (Z.eqb (resp_status response) 403) eqn:E3;
      [apply Z.eqb_eq in E3; simpl; auto|].
    destruct (Z.eqb (resp_status response) 429) eqn:E9;
      [apply Z.eqb_eq in E9; simpl; auto|].
    apply Z.eqb_neq in E1, E3, E9. simpl. split; [done|]. left. auto.
  - destruct (resp_json response); simpl; auto.
Qed.

(** An error status other than 429 gives an [AuthenticationError] or an
    [APIError]. *)
Lemma handle_api_response_error_kind repr_container response platform
      operation article_title :
  raises_for_status response = true ->
  resp_status response <> 429%Z ->
  exists e,
    handle_api_response repr_container response platform operation
                        article_title = Raise e
    /\ (exn_kind e = AuthenticationError \/ exn_kind e = APIError).
Proof.
  intros Hr Hs. unfold handle_api_response. rewrite Hr.
  destruct (Z.eqb (resp_status response) 401
            || Z.eqb (resp_status response) 403);
    [eexists; split; [done|by left]|].
  destruct (Z.eqb (resp_status response) 429) eqn:E9;
    [by apply Z.eqb_eq in E9|].
  eexists; split; [done|by right].
Qed.

Lemma get_articles_body_run {W} repr_container
      (http_get : string -> W -> result Response * W) w :
  get_articles_body repr_container http_get w =
  (fst (get_articles_body repr_container http_get w),
   snd (http_get (ARTICLES_URL +:+ "/me/all?per_page=1000") w)).
Proof.
  unfold get_articles_body.
  by destruct (http_get _ w).
Qed.

(** Whatever goes wrong inside [get_articles], the decorator sees one of
    the three classified errors. *)
Lemma get_articles_body_raises {W} repr_container
      (http_get : string -> W -> result Response * W) w e :
  fst (get_articles_body repr_container http_get w) = Raise e ->
  is_publishing_error e = true.
Proof.
  unfold get_articles_body, reraise_as_api_error.
  destruct (http_get _ w) as [got w']. cbn [fst].
  match goal with
  | |- match ?r with _ => _ end = _ -> _ => destruct r as [v|e0]
  end; [done|].
  destruct (is_publishing_error e0) eqn:P; by intros [= <-].
Qed.

(** X5. [get_articles] of the dev.to client makes a single request when
    the request fails for any reason other than a rate limit: a network
    failure (or any other unexpected exception) is turned into an
    [APIError] inside the decorated function, and the decorator does not
    retry an [APIError] or an [AuthenticationError].  Nothing is slept. *)
Theorem devto_get_articles_single_request {W} repr_container
        (http_get : string -> W -> result Response * W) (w : W) :
  let url := ARTICLES_URL +:+ "/me/all?per_page=1000" in
  let counted_get := fun u => counted (http_get u) in
  (forall e w1,
      http_get url w = (Raise e, w1) ->
      is_publishing_error e = false ->
      get_articles repr_container counted_get (w, 0)
      = (Raise (publishing_error APIError
                  ("Unexpected error retrieving DevTo articles: "
                   +:+ exn_msg e)),
         (w1, 1), []))
  /\ (forall response w1,
        http_get url w = (Ok response, w1) ->
        raises_for_status response = true ->
        resp_status response <> 429%Z ->
        exists e,
          get_articles repr_container counted_get (w, 0)
          = (Raise e, (w1, 1), [])
          /\ (exn_kind e = AuthenticationError \/ exn_kind e = APIError)).
Proof.
  intros url counted_get. unfold get_articles, with_retry_and_rate_limiting.
  change (Z.to_nat (3 + 1)) with 4. split.
  - intros e w1 Hget Hp.
    apply retry_loop_not_retried; [|done].
    unfold get_articles_body, counted_get. fold url.
    rewrite counted_run, Hget. simpl. by rewrite Hp.
  - intros response w1 Hget Hr Hs.
    destruct (handle_api_response_error_kind repr_container response
                "devto" "get_articles" None Hr Hs) as [e [Hh Hk]].
    exists e. split; [|done].
    apply retry_loop_not_retried.
    + unfold get_articles_body, counted_get. fold url.
      rewrite counted_run, Hget. simpl. rewrite Hh. simpl.
      unfold is_publishing_error. by destruct Hk as [-> | ->].
    + unfold not_retried. by destruct Hk as [-> | ->].
Qed.

(** X6. When every request is answered with status 429, [get_articles] of
    the dev.to client makes exactly 4 requests, sleeps the exponential
    backoff between them (1, 2 and 4 seconds) whatever the Retry-After
    header says, and raises the [RateLimitError]. *)
Theorem devto_get_articles_rate_limited {W} repr_container
        (http_get : string -> W -> result Response * W) (w : W) :
  let url := ARTICLES_URL +:+ "/me/all?per_page=1000" in
  let counted_get := fun u => counted (http_get u) in
  (forall w0, exists response,
      fst (http_get url w0) = Ok response /\ resp_status response = 429%Z) ->
  exists w4,
    get_articles repr_container counted_get (w, 0)
    = (Raise (publishing_error RateLimitError "Rate limit exceeded on devto"),
       (w4, 4),
       map (backoff_delay 1 60 2) [0; 1; 2])
    /\ Forall2 Qeq (map (backoff_delay 1 60 2) [0; 1; 2]) [1%Q; 2%Q; 4%Q].
Proof.
  intros url counted_get Hall.
  set (e := publishing_error RateLimitError "Rate limit exceeded on devto").
  assert (Hbody : forall w0 n,
    get_articles_body repr_container counted_get (w0, n)
    = (Raise e, (snd (http_get url w0), S n))).
  { intros w0 n. destruct (Hall w0) as [response [Hget Hs]].
    unfold get_articles_body, counted_get. fold url.
    rewrite counted_run, Hget. simpl.
    unfold handle_api_response, raises_for_status. by rewrite Hs. }
  assert (Hstep : forall remaining attempt last w0 n slept,
    Z.of_nat attempt <> 3%Z ->
    retry_loop 3 1 60 2 (get_articles_body repr_container counted_get)
               (S remaining) attempt last (w0, n) slept
    = retry_loop 3 1 60 2 (get_articles_body repr_container counted_get)
                 remaining (S attempt) (Some e)
                 (snd (http_get url w0), S n)
                 (slept ++ [backoff_delay 1 60 2 attempt])%list).
  { intros remaining attempt last w0 n slept Hne.
    destruct (retry_loop_transient 3 1 60 2 ltac:(done) ltac:(done)
                ltac:(done)
                (get_articles_body repr_container counted_get)
                remaining attempt last (w0, n)
                (snd (http_get url w0), S n) e slept
                (Hbody w0 n) eq_refl Hne) as [d [Hd Hrun]].
    injection Hd as <-. exact Hrun. }
  eexists. split.
  - unfold get_articles, with_retry_and_rate_limiting.
    change (Z.to_nat (3 + 1)) with 4.
    rewrite (Hstep 3 0), (Hstep 2 1), (Hstep 1 2) by lia.
    apply retry_loop_last; [apply Hbody|done|done].
  - repeat constructor.
Qed.

Lemma devto_get_articles_single_request_witness :
  get_articles HttpSamples.sample_repr
    (fun u => counted (HttpSamples.unreachable u)) (tt, 0)
  = (Raise (publishing_error APIError
              "Unexpected error retrieving DevTo articles: Connection refused"),
     (tt, 1), []).
Proof.
  destruct (devto_get_articles_single_request HttpSamples.sample_repr
              HttpSamples.unreachable tt) as [H _].
  apply (H _ tt eq_refl eq_refl).
Defined.

Lemma devto_get_articles_rate_limited_witness :
  exists w4,
    get_articles HttpSamples.sample_repr
      (fun u => counted (HttpSamples.throttled u)) (tt, 0)
    = (Raise (publishing_error RateLimitError "Rate limit exceeded on devto"),
       (w4, 4), map (backoff_delay 1 60 2) [0; 1; 2]).
Proof.
  destruct (devto_get_articles_rate_limited HttpSamples.sample_repr
              HttpSamples.throttled tt
              (fun w0 => ex_intro _ _ (conj eq_refl eq_refl)))
    as [w4 [H _]].
  exists w4. exact H.
Defined.

Import DevToNotions.

Lemma scan_articles_skip repr_container title pre rest :
  Forall (fun v => other_title title v = true) pre ->
  scan_articles repr_container title (pre ++ rest)
  = scan_articles repr_container title rest.
Proof.
  induction 1 as [|v pre Hv Hpre IH]; [done|].
  destruct v as [| | | | |fields]; try done.
  cbn [app scan_articles]. unfold other_title in Hv.
  destruct (obj_get fields "title") as [[| | |t| |]|]; try exact IH.
  apply negb_true_iff in Hv. by rewrite Hv.
Qed.

(** X7. [find_article_by_title] of the dev.to client, on a list of
    articles: the first article whose title is exactly the given text
    decides, and its id is returned as text (the text of [None] if it has
    none); with no such article the answer is (None, None); and an element
    that is not an object, met before any match, also gives (None, None),
    whatever follows. *)
Theorem devto_find_article_first_match {W} repr_container
        (http_get : string -> W -> result Response * W)
        title w items w' slept :
  get_articles repr_container http_get w = (Ok (JArr items), w', slept) ->
  (forall pre fields post,
      items = (pre ++ JObj fields :: post)%list ->
      Forall (fun v => other_title title v = true) pre ->
      obj_get fields "title" = Some (JStr title) ->
      find_article_by_title repr_container http_get title w
      = (Ok (Some (py_str repr_container
                          (default JNull (obj_get fields "id")),
                   default (JBool false) (obj_get fields "published"))),
         w', slept))
  /\ (Forall (fun v => other_title title v = true) items ->
      find_article_by_title repr_container http_get title w
      = (Ok None, w', slept))
  /\ (forall pre v post,
        items = (pre ++ v :: post)%list ->
        Forall (fun v => other_title title v = true) pre ->
        is_object v = false ->
        find_article_by_title repr_container http_get title w
        = (Ok None, w', slept)).
Proof.
  intros Hget. unfold find_article_by_title. rewrite Hget. cbn [iterate].
  split; [|split].
  - intros pre fields post -> Hpre Ht.
    rewrite (scan_articles_skip _ _ _ _ Hpre). cbn [scan_articles].
    by rewrite Ht, String.eqb_refl.
  - intros Hall.
    rewrite <- (app_nil_r items), (scan_articles_skip _ _ _ _ Hall). done.
  - intros pre v post -> Hpre Hv.
    rewrite (scan_articles_skip _ _ _ _ Hpre).
    by destruct v.
Qed.

Lemma devto_find_article_first_match_witness :
  find_article_by_title HttpSamples.sample_repr HttpSamples.serving
    "First" tt
  = (Ok (Some ("1", JBool true)), tt, [])
  /\ find_article_by_title HttpSamples.sample_repr HttpSamples.serving
       "first" tt
     = (Ok None, tt, []).
Proof.
  destruct (devto_find_article_first_match HttpSamples.sample_repr
              HttpSamples.serving "First" tt HttpSamples.three_articles
              tt [] eq_refl) as [H1 _].
  destruct (devto_find_article_first_match HttpSamples.sample_repr
              HttpSamples.serving "first" tt HttpSamples.three_articles
              tt [] eq_refl) as [_ [H2 _]].
  split.
  - apply (H1 [] _ _ eq_refl); [constructor|reflexivity].
  - apply H2. repeat constructor.
Defined.

(* ===================================================================== *)
(** * More on the publication coordinator *)
(* ===================================================================== *)

Import PlatformClient StatusCheck.

Section CoordinatorFacts.

Context {W : Type}.
Variable toc : string -> string.

Implicit Types (st : @mstate W) (client : PlatformClient W)
         (post : PostContent).

#[local] Arguments truthy_dict : simpl never.
#[local] Arguments dict_get : simpl never.

Ltac run_monad :=
  unfold try_except, bind, ret, raise, invoke in *; simpl in *.

(** The calls [_publish_to_platform] makes: reads, then at most one
    mutating call, which is the one its result reports. *)
Lemma publish_to_platform_trace post name client st :
  let cd := _create_content_dict
              post (ContentProcessor.process_content_for_platform toc post name)
              name in
  let pub := negb (save_as_draft post) in
  exists reads mutation,
    calls (snd (_publish_to_platform toc post name client st))
    = (calls st ++ reads ++ mutation)%list
    /\ Forall (fun pc => fst pc = name /\ is_mutation (snd pc) = false) reads
    /\ match fst (_publish_to_platform toc post name client st) with
       | Ok r =>
           platform r = name /\ success r = true /\ error_message r = None
           /\ ((action r = "created"
                /\ mutation = [(name, PublishArticle cd pub)])
               \/ (action r = "updated" /\ article_id r <> VNone
                   /\ mutation = [(name, UpdateArticle (article_id r) cd pub)])
               \/ (action r = "skipped" /\ article_id r <> VNone
                   /\ mutation = []))
       | Raise e =>
           mutation = []
           \/ mutation = [(name, PublishArticle cd pub)]
           \/ exists aid, mutation = [(name, UpdateArticle aid cd pub)]
       end.
Proof.
  intros cd pub. subst cd pub.
  unfold _publish_to_platform. run_monad.
  destruct (find_article_by_title client (title post) (world st))
    as [[[aid ispub]|e] w1]; simpl.
  2: { exists [(name, FindArticleByTitle (title post))], [].
       rewrite app_nil_r. repeat split; [by repeat constructor|by left]. }
  destruct aid; simpl.
  1: { exists [(name, FindArticleByTitle (title post))]. eexists [_].
       destruct (publish_article client _ _ w1) as [[resp|e] w2]; simpl;
         rewrite <- app_assoc;
         (split; [done|]); (split; [by repeat constructor|]).
       - repeat split. by left.
       - right. by left. }
  all: match goal with
       | |- context [_needs_update ?p ?a ?c ?n ?s] =>
           destruct (needs_update_calls p a c n s) as [new [Hnew Hshape]];
           destruct (_needs_update p a c n s) as [[[|]|e] st2]; simpl in *
       end.
  all: try match goal with
       | |- context [update_article ?c ?a ?d ?b ?w] =>
           destruct (update_article c a d b w) as [[resp|e] w2]; simpl
       end.
  all: exists ((name, FindArticleByTitle (title post)) :: new).
  all: assert (Hreads : Forall (fun pc => fst pc = name
                                          /\ is_mutation (snd pc) = false)
                               ((name, FindArticleByTitle (title post)) :: new))
    by (destruct Hshape as [-> | ->]; repeat constructor).
  all: try (eexists [_]; rewrite Hnew, <- !app_assoc;
            split; [done|]; split; [exact Hreads|];
            first [ by repeat split; right; left
                  | by right; right; eexists ]).
  all: exists []; rewrite Hnew, <- !app_assoc, app_nil_r;
    split; [done|]; split; [exact Hreads|];
    first [ by repeat split; right; right | by left ].
Qed.


Lemma publish_loop_forall (P : PublicationResult -> Prop) post :
  (forall name client st,
      P (outcome_of name (fst (_publish_to_platform toc post name client st)))) ->
  forall clients results st,
    Forall P results ->
    exists rs,
      fst (publish_loop toc post clients results st) = Ok rs /\ Forall P rs.
Proof.
  intros HP clients.
  induction clients as [|[name client] rest IH]; intros results st Hres.
  - by exists results.
  - rewrite publish_loop_cons. apply IH.
    apply Forall_app. split; [done|]. constructor; [apply HP|constructor].
Qed.

Lemma count_mutations_app l1 l2 :
  count_mutations (l1 ++ l2) = count_mutations l1 + count_mutations l2.
Proof. unfold count_mutations. by rewrite filter_app, length_app. Qed.

Lemma count_mutations_reads (name : string) reads :
  Forall (fun pc => fst pc = name /\ is_mutation (snd pc) = false) reads ->
  count_mutations reads = 0.
Proof.
  unfold count_mutations. induction 1 as [|pc l [_ Hpc] Hl IH]; [done|].
  rewrite filter_cons_False; [done|]. by rewrite Hpc.
Qed.

Lemma publish_loop_budget post clients : forall results st,
  exists rs new,
    fst (publish_loop toc post clients results st) = Ok (results ++ rs)%list
    /\ calls (snd (publish_loop toc post clients results st))
       = (calls st ++ new)%list
    /\ length (filter (fun r => is_change r = true) rs) <= count_mutations new
    /\ count_mutations new <= length clients.
Proof.
  induction clients as [|[name client] rest IH]; intros results st.
  - exists [], []. simpl. rewrite !app_nil_r. repeat split; done.
  - rewrite publish_loop_cons.
    destruct (publish_to_platform_trace post name client st)
      as [reads [mutation [Hcalls [Hreads Hres]]]].
    set (r0 := outcome_of name
                 (fst (_publish_to_platform toc post name client st))) in *.
    destruct (IH (results ++ [r0])%list
                 (snd (_publish_to_platform toc post name client st)))
      as [rs [new [Hok [Hnew [Hlow Hup]]]]].
    exists (r0 :: rs), (reads ++ mutation ++ new)%list.
    rewrite Hok, Hnew, Hcalls, <- !app_assoc.
    split; [done|]. split; [done|].
    rewrite !count_mutations_app, (count_mutations_reads name reads Hreads).
    assert (Hm : count_mutations mutation <= 1
                 /\ (is_change r0 = true -> count_mutations mutation = 1)).
    { subst r0.
      destruct (fst (_publish_to_platform toc post name client st)) as [r|e];
        simpl.
      - destruct Hres as [_ [_ [_ [[Ha ->]|[[Ha [_ ->]]|[Ha [_ ->]]]]]]];
          unfold is_change, count_mutations; rewrite Ha; simpl;
          (split; [lia|done]).
      - unfold is_change, count_mutations. simpl.
        destruct Hres as [->|[->|[aid ->]]]; simpl; (split; [lia|done]). }
    destruct Hm as [Hm1 Hm2]. simpl.
    destruct (decide (is_change r0 = true)) as [Hc|Hc].
    + rewrite filter_cons_True by done. rewrite (Hm2 Hc). simpl. lia.
    + rewrite filter_cons_False by done. lia.
Qed.

(** X8. Every result [publish_to_all_platforms] returns is consistent:
    its action is one of created, updated, skipped and error; it is a
    success exactly when the action is not error, and exactly then it has
    no error message; an updated or skipped result carries the id that was
    found, and an error result carries none. *)
Theorem publish_result_invariants post clients st :
  exists results,
    fst (publish_to_all_platforms toc clients post st) = Ok results
    /\ Forall (fun r =>
                 (action r = "created" \/ action r = "updated"
                  \/ action r = "skipped" \/ action r = "error")
                 /\ (success r = true <-> action r <> "error")
                 /\ (success r = true <-> error_message r = None)
                 /\ (action r = "updated" \/ action r = "skipped" ->
                     article_id r <> VNone)
                 /\ (action r = "error" -> article_id r = VNone))
              results.
Proof.
  unfold publish_to_all_platforms.
  apply publish_loop_forall; [|constructor].
  intros name client st'.
  destruct (publish_to_platform_trace post name client st')
    as [reads [mutation [_ [_ Hres]]]].
  destruct (fst (_publish_to_platform toc post name client st')) as [r|e];
    simpl.
  - destruct Hres as [_ [Hs [He Hact]]]. rewrite Hs, He.
    destruct Hact as [[Ha _]|[[Ha [Hid _]]|[Ha [Hid _]]]]; rewrite Ha;
      repeat split; intros; try done; auto;
      repeat match goal with H : _ \/ _ |- _ => destruct H end; done.
  - repeat split; intros; try done; auto.
    repeat match goal with H : _ \/ _ |- _ => destruct H end; done.
Qed.

(** X9. For every platform of a run, the calls made for it are reads (the
    lookup and the fetches) followed by at most one mutating call, all
    addressed to that platform; a created result comes with exactly the
    call [publish_article(content, not save_as_draft)], an updated one with
    exactly [update_article(id, content, not save_as_draft)] for the id it
    reports, and a skipped one with none, where [content] is the dictionary
    [_create_content_dict] builds from the processed body. *)
Theorem publish_one_mutation_per_platform post clients st i name client :
  clients !! i = Some (name, client) ->
  let cd := _create_content_dict
              post (ContentProcessor.process_content_for_platform toc post name)
              name in
  let pub := negb (save_as_draft post) in
  exists results r reads mutation,
    fst (publish_to_all_platforms toc clients post st) = Ok results
    /\ results !! i = Some r
    /\ calls (state_before toc post clients (S i) st)
       = (calls (state_before toc post clients i st) ++ reads ++ mutation)%list
    /\ Forall (fun pc => fst pc = name /\ is_mutation (snd pc) = false) reads
    /\ Forall (fun pc => fst pc = name /\ is_mutation (snd pc) = true)
              mutation
    /\ length mutation <= 1
    /\ (action r = "created" -> mutation = [(name, PublishArticle cd pub)])
    /\ (action r = "updated" ->
        mutation = [(name, UpdateArticle (article_id r) cd pub)])
    /\ (action r = "skipped" -> mutation = []).
Proof.
  intros Hi cd pub. unfold publish_to_all_platforms.
  destruct (publish_loop_lookup toc post clients [] st i name client Hi)
    as [rs [Hrs Hlk]].
  fold (publish_to_all_platforms toc (take i clients) post st) in Hlk.
  fold (state_before toc post clients i st) in Hlk.
  rewrite (state_before_S toc post clients st i name client Hi).
  set (sti := state_before toc post clients i st) in *.
  destruct (publish_to_platform_trace post name client sti)
    as [reads [mutation [Hcalls [Hreads Hres]]]].
  exists rs. eexists. exists reads, mutation.
  split; [exact Hrs|]. split; [exact Hlk|]. split; [exact Hcalls|].
  split; [exact Hreads|].
  destruct (fst (_publish_to_platform toc post name client sti)) as [r|e];
    simpl.
  - destruct Hres as [_ [_ [_ [[Ha ->]|[[Ha [_ ->]]|[Ha [_ ->]]]]]]];
      rewrite Ha; repeat split; try done; simpl; try lia;
      by repeat constructor.
  - destruct Hres as [->|[->|[aid ->]]]; repeat split; try done;
      simpl; try lia; by repeat constructor.
Qed.

(** X10. Over a whole run of [publish_to_all_platforms], the number of
    mutating calls ([publish_article] and [update_article]) is at most the
    number of platforms and at least the number of results that report
    created or updated. *)
Theorem publish_mutation_budget post clients st :
  exists results new,
    fst (publish_to_all_platforms toc clients post st) = Ok results
    /\ calls (snd (publish_to_all_platforms toc clients post st))
       = (calls st ++ new)%list
    /\ length (filter (fun r => is_change r = true) results)
       <= count_mutations new
    /\ count_mutations new <= length clients.
Proof.
  unfold publish_to_all_platforms.
  destruct (publish_loop_budget post clients [] st)
    as [rs [new [Hok [Hnew [Hlow Hup]]]]].
  by exists rs, new.
Qed.

(** X11. [_needs_update] lets only the three classified errors out, and
    only as a fetch raised them; any other failure of a fetch, like a
    fetched article whose body is not text, makes the answer [True]. *)
Theorem needs_update_raises_only_classified post aid client name st :
  (forall e,
      fst (_needs_update post aid client name st) = Raise e ->
      is_publishing_error e = true
      /\ ((exists w1, get_article client aid true (world st) = (Raise e, w1))
          \/ (exists a1 w1 w2,
                 get_article client aid true (world st) = (Ok a1, w1)
                 /\ truthy_dict a1 = false
                 /\ get_article client aid false w1 = (Raise e, w2))))
  /\ (forall e w1,
        get_article client aid true (world st) = (Raise e, w1) ->
        fst (_needs_update post aid client name st)
        = if is_publishing_error e then Raise e else Ok true)
  /\ (forall a1 e w1 w2,
        get_article client aid true (world st) = (Ok a1, w1) ->
        truthy_dict a1 = false ->
        get_article client aid false w1 = (Raise e, w2) ->
        fst (_needs_update post aid client name st)
        = if is_publishing_error e then Raise e else Ok true)
  /\ (forall existing w',
        fetch_existing client aid (world st) = Some (existing, w') ->
        (forall body,
            dict_get existing "body_markdown" (VStr "") <> VStr body) ->
        fst (_needs_update post aid client name st) = Ok true).
Proof using Type.
  clear toc. split; [|split; [|split]].
  - intros e H.
    unfold _needs_update, compare_with_existing, normalize_value,
      try_except, bind, ret, raise, invoke in H.
    destruct (get_article client aid true (world st)) as [[a1|e1] w1] eqn:G1;
      simpl in H.
    + destruct (truthy_dict a1) eqn:T1; simpl in H.
      * destruct a1 as [m|]; [|done]. simpl in H. rewrite T1 in H.
        by destruct (dict_get m "body_markdown" (VStr "")).
      * destruct (get_article client aid false w1) as [[a2|e2] w2] eqn:G2;
          simpl in H.
        -- destruct a2 as [m|]; [|done].
           destruct (truthy_dict (Some m)); [|done].
           by destruct (dict_get m "body_markdown" (VStr "")).
        -- destruct (is_publishing_error e2) eqn:E2; [|done].
           injection H as <-. split; [done|]. right. by exists a1, w1, w2.
    + destruct (is_publishing_error e1) eqn:E1; [|done].
      injection H as <-. split; [done|]. left. by exists w1.
  - intros e w1 G1.
    unfold _needs_update, try_except, bind, invoke. rewrite G1. simpl.
    by destruct (is_publishing_error e).
  - intros a1 e w1 w2 G1 T1 G2.
    unfold _needs_update, try_except, bind, invoke, ret.
    rewrite G1. simpl. rewrite T1. simpl. rewrite G2. simpl.
    by destruct (is_publishing_error e).
  - intros existing w' Hf Hbody. unfold fetch_existing in Hf.
    unfold _needs_update, compare_with_existing, normalize_value,
      try_except, bind, ret, raise, invoke.
    destruct (get_article client aid true (world st)) as [[a1|e1] w1];
      simpl in *; [|done].
    destruct (truthy_dict a1) eqn:T1; simpl.
    + destruct a1 as [m|]; [|done]. injection Hf as -> ->.
      simpl. rewrite T1.
      destruct (dict_get existing "body_markdown" (VStr ""))
        as [| | |body|] eqn:Eb; simpl; try done.
      by destruct (Hbody body).
    + destruct (get_article client aid false w1) as [[[m|]|e2] w2];
        simpl in *; try done.
      destruct (truthy_dict (Some m)) eqn:T2; [|done].
      injection Hf as -> ->.
      destruct (dict_get existing "body_markdown" (VStr ""))
        as [| | |body|] eqn:Eb; simpl; try done.
      by destruct (Hbody body).
Qed.

Lemma status_step_run post status name client st :
  exists s new,
    fst (status_step post status (name, client) st)
    = Ok (<[name := s]> status)
    /\ calls (snd (status_step post status (name, client) st))
       = (calls st ++ new)%list
    /\ Forall (fun pc => fst pc = name /\ is_mutation (snd pc) = false) new
    /\ (if st_exists s
        then truthy (st_article_id s) = true /\ st_error s = None
        else s = absent (st_error s)).
Proof using Type.
  clear toc. unfold status_step. run_monad.
  destruct (find_article_by_title client (title post) (world st))
    as [[[aid ispub]|e] w1]; simpl.
  2: { destruct (is_publishing_error e); simpl;
         eexists; exists [(name, FindArticleByTitle (title post))];
         (split; [done|]); (split; [done|]);
         (split; [by repeat constructor|done]). }
  destruct (truthy aid) eqn:Ht.
  2: { eexists; exists [(name, FindArticleByTitle (title post))];
         (split; [done|]); (split; [done|]);
         (split; [by repeat constructor|done]). }
  match goal with
  | |- context [_needs_update ?p ?a ?c ?n ?s] =>
      destruct (needs_update_calls p a c n s) as [new [Hnew Hshape]];
      destruct (_needs_update p a c n s) as [[b|e] st2]; simpl in *
  end.
  - eexists. exists ((name, FindArticleByTitle (title post)) :: new).
    split; [done|]. rewrite Hnew, <- app_assoc. split; [done|].
    split; [|done].
    destruct Hshape as [-> | ->]; repeat constructor.
  - destruct (is_publishing_error e); simpl;
      eexists; exists ((name, FindArticleByTitle (title post)) :: new);
      (split; [done|]); rewrite Hnew, <- app_assoc; (split; [done|]);
      (split; [|done]);
      destruct Hshape as [-> | ->]; repeat constructor.
Qed.

Lemma status_loop_inv post clients : forall status st,
  (forall name s, status !! name = Some s ->
                  if st_exists s
                  then truthy (st_article_id s) = true /\ st_error s = None
                  else s = absent (st_error s)) ->
  exists status' new,
    fst (status_loop post clients status st) = Ok status'
    /\ calls (snd (status_loop post clients status st)) = (calls st ++ new)%list
    /\ Forall (fun pc => pc.1 ∈ map fst clients
                         /\ is_mutation (snd pc) = false) new
    /\ dom status' = dom status ∪ list_to_set (map fst clients)
    /\ (forall name s, status' !! name = Some s ->
                       if st_exists s
                       then truthy (st_article_id s) = true
                            /\ st_error s = None
                       else s = absent (st_error s)).
Proof using Type.
  clear toc.
  induction clients as [|[name client] rest IH]; intros status st Hinv.
  - exists status, []. simpl. rewrite app_nil_r.
    repeat split; [constructor| |done].
    by rewrite (right_id_L ∅ (∪)).
  - cbn [status_loop]. unfold bind.
    destruct (status_step_run post status name client st)
      as [s [new [Hok [Hcalls [Hreads Hs]]]]].
    destruct (status_step post status (name, client) st) as [r st1].
    simpl in Hok, Hcalls. subst r. cbn beta iota.
    destruct (IH (<[name := s]> status) st1) as [status' [new' H']].
    { intros n s'. rewrite lookup_insert_Some.
      intros [[_ <-]|[_ Hn]]; [exact Hs|by apply (Hinv n)]. }
    destruct H' as [Hok' [Hcalls' [Hreads' [Hdom Hinv']]]].
    exists status', (new ++ new')%list.
    split; [done|]. split; [by rewrite Hcalls', Hcalls, <- app_assoc|].
    split; [|split; [|done]].
    + apply Forall_app. split.
      * eapply Forall_impl; [exact Hreads|].
        intros pc [-> Hpc]. split; [|done]. apply elem_of_cons. by left.
      * eapply Forall_impl; [exact Hreads'|].
        intros pc [Hin Hpc]. split; [|done]. apply elem_of_cons. by right.
    + rewrite Hdom, dom_insert_L. simpl.
      by rewrite (comm_L (∪) {[name]} (dom status)), <- (assoc_L (∪)).
Qed.

(** X12. [get_platform_status] never raises and never changes a platform:
    it returns a status for exactly the configured platforms, whatever the
    clients do, and the calls it makes are lookups and fetches addressed to
    those platforms.  A status that says the article exists carries a
    truthy id and no error; any other status is the default one (no id, not
    published, no update needed), with or without an error text. *)
Theorem get_platform_status_reads_only post clients st :
  exists status new,
    fst (get_platform_status clients post st) = Ok status
    /\ calls (snd (get_platform_status clients post st))
       = (calls st ++ new)%list
    /\ Forall (fun pc => pc.1 ∈ map fst clients
                         /\ is_mutation (snd pc) = false) new
    /\ dom status = list_to_set (map fst clients)
    /\ (forall name s,
          status !! name = Some s ->
          if st_exists s
          then truthy (st_article_id s) = true /\ st_error s = None
          else s = absent (st_error s)).
Proof using Type.
  clear toc. unfold get_platform_status.
  destruct (status_loop_inv post clients ∅ st) as [status [new H]]; [done|].
  destruct H as [Hok [Hcalls [Hreads [Hdom Hinv]]]].
  exists status, new. repeat split; try done.
  by rewrite Hdom, dom_empty_L, (left_id_L ∅ (∪)).
Qed.
End CoordinatorFacts.

Lemma publish_result_invariants_witness :
  exists results,
    fst (publish_to_all_platforms no_toc mock_clients sample_post mock_st0)
    = Ok results
    /\ Forall (fun r => success r = true <-> action r <> "error") results.
Proof.
  destruct (publish_result_invariants no_toc sample_post mock_clients mock_st0)
    as [results [Hok Hall]].
  exists results. split; [exact Hok|].
  eapply Forall_impl; [exact Hall|]. intros r [_ [H _]]. exact H.
Defined.

Lemma publish_one_mutation_per_platform_witness :
  mock_clients !! 0 = Some ("devto", MockPlatformClient "devto" false)
  /\ exists results r mutation,
       fst (publish_to_all_platforms no_toc mock_clients sample_post mock_st0)
       = Ok results
       /\ results !! 0 = Some r
       /\ length mutation <= 1
       /\ (action r = "created" ->
           mutation
           = [("devto",
               PublishArticle
                 (_create_content_dict
                    sample_post
                    (process_content_for_platform no_toc sample_post "devto")
                    "devto")
                 (negb (save_as_draft sample_post)))]).
Proof.
  split; [reflexivity|].
  destruct (publish_one_mutation_per_platform
              no_toc sample_post mock_clients mock_st0 0 "devto"
              (MockPlatformClient "devto" false) eq_refl)
    as [results [r [reads [mutation H]]]].
  exists results, r, mutation.
  destruct H as [Hok [Hr [_ [_ [_ [Hlen [Hcreated _]]]]]]].
  split; [exact Hok|]. split; [exact Hr|].
  split; [exact Hlen|exact Hcreated].
Defined.

Lemma needs_update_raises_only_classified_witness :
  get_article (MockPlatformClient "hashnode" true) (VInt 1) true
              (world mock_st0)
  = (Raise (mock_failure "hashnode"), [])
  /\ fst (_needs_update sample_post (VInt 1)
                        (MockPlatformClient "hashnode" true) "hashnode"
                        mock_st0)
     = Ok true.
Proof.
  split; [reflexivity|].
  destruct (needs_update_raises_only_classified
              sample_post (VInt 1) (MockPlatformClient "hashnode" true)
              "hashnode" mock_st0) as [_ [H _]].
  exact (H (mock_failure "hashnode") [] eq_refl).
Defined.

Lemma get_platform_status_reads_only_witness :
  exists status new,
    fst (get_platform_status mock_clients sample_post mock_st1) = Ok status
    /\ calls (snd (get_platform_status mock_clients sample_post mock_st1))
       = (calls mock_st1 ++ new)%list
    /\ Forall (fun pc => is_mutation (snd pc) = false) new
    /\ (forall s, status !! "hashnode" = Some s -> st_exists s = true ->
                  st_error s = None).
Proof.
  destruct (get_platform_status_reads_only sample_post mock_clients mock_st1)
    as [status [new [Hok [Hcalls [Hreads [_ Hinv]]]]]].
  exists status, new. split; [exact Hok|]. split; [exact Hcalls|]. split.
  - eapply Forall_impl; [exact Hreads|]. intros pc [_ H]. exact H.
  - intros s Hs He. pose proof (Hinv "hashnode" s Hs) as H.
    rewrite He in H. exact (proj2 H).
Defined.

(* ===================================================================== *)
(** * Tags, from the front matter to the request *)
(* ===================================================================== *)

Import ClientPayload.

Lemma contains_char_no_comma s :
  contains_char comma s = negb (no_comma s).
Proof.
  unfold no_comma. induction s as [|c s IH]; [done|]. simpl.
  rewrite IH. by destruct (Ascii.eqb c comma).
Qed.

Lemma split_no_comma s : no_comma s = true -> split comma s = [s].
Proof.
  unfold no_comma. induction s as [|c s IH]; [done|]. simpl.
  intros H. apply andb_true_iff in H as [Hc Hs].
  apply negb_true_iff in Hc. by rewrite Hc, (IH Hs).
Qed.

Lemma split_app_comma x rest :
  no_comma x = true ->
  split comma (x +:+ String comma rest) = x :: split comma rest.
Proof.
  unfold no_comma. induction x as [|c x IH]; intros H.
  - rewrite append_empty_l. by simpl.
  - simpl in H. apply andb_true_iff in H as [Hc Hx].
    apply negb_true_iff in Hc. rewrite append_cons. cbn [split].
    by rewrite Hc, (IH Hx).
Qed.

(** Joining with commas and splitting again gives the list back, unless it
    is empty. *)
Lemma split_join l :
  Forall (fun t => no_comma t = true) l ->
  split comma (join "," l) = match l with [] => [""] | _ => l end.
Proof.
  unfold join. induction 1 as [|t l Ht Hl IH]; [done|].
  destruct l as [|u l].
  - simpl. by apply split_no_comma.
  - change (String.concat "," (t :: u :: l))
      with (t +:+ String comma (String.concat "," (u :: l))).
    by rewrite (split_app_comma _ _ Ht), IH.
Qed.

Lemma split_pieces_no_comma s :
  Forall (fun t => no_comma t = true) (split comma s).
Proof.
  induction s as [|c s IH]; [by repeat constructor|]. cbn [split].
  destruct (Ascii.eqb c comma) eqn:Hc; [by constructor|].
  destruct (split comma s) as [|h t].
  { constructor; [|done]. unfold no_comma. cbn [all_chars]. by rewrite Hc. }
  inversion IH as [|? ? Hh Ht]; subst.
  constructor; [|done]. unfold no_comma in *. cbn [all_chars].
  by rewrite Hc, Hh.
Qed.

Lemma no_comma_strip s : no_comma s = true -> no_comma (strip s) = true.
Proof. apply all_chars_strip. Qed.

Lemma lower_char_comma c :
  Ascii.eqb (lower_char c) comma = Ascii.eqb c comma.
Proof. by destruct c as [[] [] [] [] [] [] [] []]. Qed.

Lemma no_comma_lower s : no_comma (lower s) = no_comma s.
Proof.
  unfold no_comma. induction s as [|c s IH]; [done|]. simpl.
  by rewrite lower_char_comma, IH.
Qed.

Lemma split_comma_tags_no_comma tags :
  Forall (fun t => no_comma t = true) (split_comma_tags tags).
Proof.
  induction tags as [|tag rest IH]; [constructor|]. cbn [split_comma_tags].
  apply Forall_app. split; [|done].
  destruct (contains_char comma tag) eqn:Hc.
  - apply Forall_forall. intros t Ht.
    apply list_elem_of_filter in Ht as [_ Ht].
    apply list_elem_of_fmap in Ht as [u [-> Hu]].
    apply no_comma_strip.
    by apply (proj1 (Forall_forall _ _) (split_pieces_no_comma tag)).
  - constructor; [|constructor]. apply no_comma_strip.
    rewrite contains_char_no_comma in Hc. by apply negb_false_iff in Hc.
Qed.

Lemma tag_char_no_comma s :
  all_chars tag_char s = true -> no_comma s = true.
Proof.
  apply all_chars_impl. intros c. by destruct c as [[] [] [] [] [] [] [] []].
Qed.

Lemma hyphenated_tag_chars s :
  hyphenated_tag s = true -> all_chars tag_char s = true.
Proof.
  unfold hyphenated_tag. intros H.
  apply andb_true_iff in H as [H _]. apply andb_true_iff in H as [H _].
  by apply andb_true_iff in H as [H _].
Qed.

(** No tag that [convert_tags_for_platform] returns contains a comma. *)
Lemma convert_tags_no_comma tags platform_name :
  Forall (fun t => no_comma t = true)
         (convert_tags_for_platform tags platform_name).
Proof.
  unfold convert_tags_for_platform. destruct tags as [|t0 rest]; [constructor|].
  pose proof (split_comma_tags_no_comma (t0 :: rest)) as Hall.
  set (processed := split_comma_tags (t0 :: rest)) in *.
  destruct (String.eqb (lower platform_name) "hashnode").
  - apply Forall_map, Forall_forall. intros t _. simpl.
    apply tag_char_no_comma, hyphenated_tag_chars,
      sanitize_tag_for_hashnode_shape.
  - assert (Hlow : forall P `{!forall x, Decision (P x)},
               Forall (fun t => no_comma t = true)
                      (map (fun t => lower (strip t)) (filter P processed))).
    { intros P HP. apply Forall_map, Forall_forall. intros t Ht. simpl.
      apply list_elem_of_filter in Ht as [_ Ht].
      rewrite no_comma_lower. apply no_comma_strip.
      by apply (proj1 (Forall_forall _ _) Hall). }
    destruct (String.eqb (lower platform_name) "devto"); apply Hlow.
Qed.

(** X13. The tags the dev.to client sends are the converted tags, exactly:
    the coordinator joins them with commas and the client splits at
    commas, and no converted tag contains one.  With no tags at all the
    client sends one empty tag. *)
Theorem devto_payload_tags_round_trip post processed_content platform_name :
  devto_payload_tags
    (_create_content_dict post processed_content platform_name)
  = match convert_tags_for_platform (tags post) platform_name with
    | [] => [""]
    | converted => converted
    end
  /\ Forall (fun t => no_comma t = true)
            (convert_tags_for_platform (tags post) platform_name).
Proof.
  split; [|apply convert_tags_no_comma].
  unfold devto_payload_tags, _create_content_dict. cbn [cd_tags].
  rewrite split_join by apply convert_tags_no_comma.
  by destruct (convert_tags_for_platform (tags post) platform_name).
Qed.

Section ClassFacts.

Variable p : ascii -> bool.

(** Text without a character of the class [p]. *)
Lemma starts_with_none s :
  all_chars (fun c => negb (p c)) s = true -> starts_with p s = false.
Proof.
  destruct s as [|c s]; [done|]. cbn [all_chars starts_with].
  intros H. apply andb_true_iff in H as [H _]. by apply negb_true_iff in H.
Qed.

Lemma ends_with_none s :
  all_chars (fun c => negb (p c)) s = true -> ends_with p s = false.
Proof.
  induction s as [|c s IH]; [done|]. cbn [all_chars].
  intros H. apply andb_true_iff in H as [Hc Hs].
  apply negb_true_iff in Hc.
  destruct s as [|d s]; [exact Hc|]. rewrite ends_with_cons by done.
  by apply IH.
Qed.

Lemma no_repeat_none s :
  all_chars (fun c => negb (p c)) s = true -> no_repeat p s = true.
Proof.
  induction s as [|c s IH]; [done|]. cbn [all_chars].
  intros H. apply andb_true_iff in H as [Hc Hs].
  apply negb_true_iff in Hc.
  destruct s as [|d s]; [done|]. rewrite no_repeat_cons, Hc. by apply IH.
Qed.

Lemma delete_chars_none s :
  all_chars (fun c => negb (p c)) s = true -> delete_chars p s = s.
Proof.
  induction s as [|c s IH]; [done|]. cbn [all_chars delete_chars].
  intros H. apply andb_true_iff in H as [Hc Hs].
  apply negb_true_iff in Hc. by rewrite Hc, (IH Hs).
Qed.

Lemma strip_none s :
  all_chars (fun c => negb (p c)) s = true -> strip_if p s = s.
Proof.
  intros H. apply strip_fixed; [by apply starts_with_none|].
  by apply ends_with_none.
Qed.

Lemma sub_runs_none r s :
  all_chars (fun c => negb (p c)) s = true ->
  sub_runs p (String r EmptyString) s = s.
Proof.
  intros H. apply sub_runs_fixed; [by apply no_repeat_none|].
  eapply all_chars_impl; [|exact H]. intros c Hc. simpl in Hc.
  by rewrite Hc.
Qed.

End ClassFacts.

Lemma replace_char_none a b s :
  all_chars (fun c => negb (Ascii.eqb c a)) s = true ->
  replace_char a b s = s.
Proof.
  induction s as [|c s IH]; [done|]. cbn [all_chars replace_char].
  intros H. apply andb_true_iff in H as [Hc Hs].
  apply negb_true_iff in Hc. by rewrite Hc, (IH Hs).
Qed.

Lemma lower_tag_chars s : all_chars tag_char s = true -> lower s = s.
Proof.
  induction s as [|c s IH]; [done|]. cbn [all_chars lower].
  intros H. apply andb_true_iff in H as [Hc Hs]. rewrite (IH Hs).
  f_equal. revert Hc. by destruct c as [[] [] [] [] [] [] [] []].
Qed.

Lemma tag_chars_no_blank s :
  all_chars tag_char s = true ->
  all_chars (fun c => negb (isspace c)) s = true.
Proof.
  apply all_chars_impl. intros c. by destruct c as [[] [] [] [] [] [] [] []].
Qed.

Lemma tag_chars_not_special s :
  all_chars tag_char s = true ->
  all_chars (fun c => negb (hashnode_special c)) s = true.
Proof.
  apply all_chars_impl. intros c. by destruct c as [[] [] [] [] [] [] [] []].
Qed.

Lemma tag_chars_no_space s :
  all_chars tag_char s = true ->
  all_chars (fun c => negb (Ascii.eqb c space)) s = true.
Proof.
  apply all_chars_impl. intros c. by destruct c as [[] [] [] [] [] [] [] []].
Qed.

Lemma tag_chars_no_underscore s :
  all_chars tag_char s = true ->
  all_chars (fun c => negb (Ascii.eqb c underscore)) s = true.
Proof.
  apply all_chars_impl. intros c. by destruct c as [[] [] [] [] [] [] [] []].
Qed.

(** A lower-case-hyphenated tag is left as it is by the Hashnode policy. *)
Lemma sanitize_hyphenated u :
  hyphenated_tag u = true -> _sanitize_tag_for_hashnode u = u.
Proof.
  intros H. pose proof (hyphenated_tag_chars u H) as Hc.
  unfold hyphenated_tag in H.
  apply andb_true_iff in H as [H He]. apply andb_true_iff in H as [H Hs].
  apply andb_true_iff in H as [_ Hn]. apply negb_true_iff in He, Hs.
  unfold _sanitize_tag_for_hashnode, strip, strip_chars.
  rewrite (lower_tag_chars u Hc).
  rewrite (strip_none isspace u (tag_chars_no_blank u Hc)).
  rewrite (delete_chars_none hashnode_special u (tag_chars_not_special u Hc)).
  change "-" with (String hyphen "").
  rewrite (sub_runs_none isspace hyphen u (tag_chars_no_blank u Hc)).
  rewrite (sub_runs_fixed (Ascii.eqb hyphen) hyphen u Hn).
  - by apply strip_fixed.
  - clear. induction u as [|c u IH]; [done|]. cbn [all_chars].
    rewrite IH, andb_true_r. rewrite (Ascii.eqb_sym c hyphen).
    by destruct (Ascii.eqb hyphen c).
Qed.

(** X15. The Hashnode tag policy is idempotent, and the tags it leaves as
    they are are exactly the lower-case-hyphenated ones (the empty tag
    among them). *)
Theorem sanitize_tag_for_hashnode_fixed_points tag :
  _sanitize_tag_for_hashnode (_sanitize_tag_for_hashnode tag)
  = _sanitize_tag_for_hashnode tag
  /\ (_sanitize_tag_for_hashnode tag = tag <-> hyphenated_tag tag = true).
Proof.
  split.
  - apply sanitize_hyphenated, sanitize_tag_for_hashnode_shape.
  - split.
    + intros H. rewrite <- H. apply sanitize_tag_for_hashnode_shape.
    + apply sanitize_hyphenated.
Qed.

Lemma Forall_filter_keep {X} (P Q : X -> Prop) `{!forall x, Decision (Q x)}
      (l : list X) :
  Forall P l -> Forall P (filter Q l).
Proof.
  induction 1 as [|x l Hx Hl IH]; [constructor|].
  destruct (decide (Q x)).
  - rewrite filter_cons_True by done. by constructor.
  - by rewrite filter_cons_False.
Qed.

Lemma map_ext_Forall_eq {X Y} (f g : X -> Y) (l : list X) :
  Forall (fun x => f x = g x) l -> map f l = map g l.
Proof. induction 1 as [|x l Hx Hl IH]; [done|]. simpl. by rewrite Hx, IH. Qed.

(** Trimming and dropping blank tags, on tags that have no blank in them. *)
Lemma strip_filter_plain l :
  Forall (fun t => all_chars tag_char t = true) l ->
  map strip (filter (fun tag => truthy_str (strip tag) = true) l)
  = filter (fun t => truthy_str t = true) l.
Proof.
  induction 1 as [|t l Ht Hl IH]; [done|].
  pose proof (strip_none isspace t (tag_chars_no_blank t Ht)) as Hs.
  fold (strip t) in Hs.
  destruct (decide (truthy_str t = true)) as [Hn|Hn].
  - rewrite !filter_cons_True by (by rewrite ?Hs). simpl.
    by rewrite Hs, IH.
  - rewrite !filter_cons_False by (by rewrite ?Hs). exact IH.
Qed.

(** X14. For the Hashnode policy, the tag objects of the request are the
    first five non-empty converted tags, each with a slug equal to its
    name: the limit of five tags is applied by the client, here, and a tag
    that the conversion emptied is dropped here too. *)
Theorem hashnode_payload_tags_capped post processed_content platform_name :
  lower platform_name = "hashnode" ->
  let converted := convert_tags_for_platform (tags post) platform_name in
  let sent :=
    hashnode_tag_objects
      (hashnode_tags
         (_create_content_dict post processed_content platform_name)) in
  sent = map (fun t => (t, t))
             (take 5 (filter (fun t => truthy_str t = true) converted))
  /\ length sent <= 5.
Proof.
  intros Hp converted sent.
  assert (Hconv : Forall (fun t => all_chars tag_char t = true) converted).
  { unfold converted, convert_tags_for_platform. rewrite Hp.
    destruct (tags post) as [|t0 rest]; [constructor|].
    apply Forall_map, Forall_forall. intros t _. simpl.
    apply hyphenated_tag_chars, sanitize_tag_for_hashnode_shape. }
  assert (Htags :
    hashnode_tags (_create_content_dict post processed_content platform_name)
    = filter (fun t => truthy_str t = true) converted).
  { unfold hashnode_tags, _create_content_dict. cbn [cd_tags].
    rewrite split_join by apply convert_tags_no_comma. fold converted.
    destruct converted as [|t l]; [done|].
    by apply strip_filter_plain. }
  assert (Hsent :
    sent = map (fun t => (t, t))
               (take 5 (filter (fun t => truthy_str t = true) converted))).
  { unfold sent, hashnode_tag_objects. rewrite Htags.
    apply map_ext_Forall_eq, Forall_take, Forall_filter_keep.
    eapply Forall_impl; [exact Hconv|]. intros t Ht. simpl. f_equal.
    rewrite (lower_tag_chars t Ht).
    rewrite (replace_char_none space hyphen t (tag_chars_no_space t Ht)).
    by rewrite (replace_char_none underscore hyphen t
                  (tag_chars_no_underscore t Ht)). }
  split; [exact Hsent|].
  rewrite Hsent, length_map, length_take. lia.
Qed.

Lemma hashnode_payload_tags_capped_witness :
  hashnode_tag_objects
    (hashnode_tags
       (_create_content_dict
          {| title := "T"; subtitle := ""; slug := "t";
             tags := ["a"; "b, C++"; "!!"; "d"; "e"; "f"; "g"];
             cover := ""; domain := "example.com"; save_as_draft := false;
             enable_toc := false; body_markdown := "";
             canonical_url := ""; series_name := None |}
          "" "Hashnode"))
  = [("a", "a"); ("b", "b"); ("c", "c"); ("d", "d"); ("e", "e")].
Proof.
  exact (proj1 (hashnode_payload_tags_capped
                  {| title := "T"; subtitle := ""; slug := "t";
                     tags := ["a"; "b, C++"; "!!"; "d"; "e"; "f"; "g"];
                     cover := ""; domain := "example.com";
                     save_as_draft := false; enable_toc := false;
                     body_markdown := ""; canonical_url := "";
                     series_name := None |}
                  "" "Hashnode" eq_refl)).
Defined.

(* ===================================================================== *)
(** * Front matter *)
(* ===================================================================== *)

Import FrontMatter.

Lemma prefix_append_l a b : forall t,
  String.prefix (a +:+ b) t = true -> String.prefix a t = true.
Proof.
  induction a as [|c a IH]; [by intros []|]. intros [|d t]; [done|].
  rewrite append_cons. cbn [String.prefix].
  destruct (ascii_dec c d); [apply IH|done].
Qed.

Lemma prefix_refl_append a b : String.prefix a (a +:+ b) = true.
Proof.
  induction a as [|c a IH]; [by destruct b|].
  rewrite append_cons. cbn [String.prefix].
  by destruct (ascii_dec c c).
Qed.

Lemma drop_length_append a b : drop (String.length a) (a +:+ b) = b.
Proof. induction a as [|c a IH]; [done|]. by rewrite append_cons. Qed.

(** A closing line that starts inside the block ends inside the block or
    on the newline that follows it. *)
Lemma closing_line_cut c block rest :
  String.prefix closing_line (String c block +:+ closing_line +:+ rest) = true ->
  String.prefix closing_line (String c block +:+ chr nl) = true.
Proof.
  assert (Hcl : closing_line
                = String nl (String hyphen (String hyphen (String hyphen
                    (String nl EmptyString))))) by reflexivity.
  rewrite Hcl. unfold chr. clear Hcl.
  destruct block as [|c2 [|c3 [|c4 [|c5 block]]]];
    rewrite ?append_cons, ?append_empty_l; cbn [String.prefix];
    repeat (match goal with
            | |- context [ascii_dec ?a ?b] =>
                let E := fresh "E" in
                destruct (ascii_dec a b) as [E|];
                [try discriminate E; try subst|try done]
            end; cbn [String.prefix]; rewrite ?append_cons, ?append_empty_l);
    try done.
  intros _. by destruct (block +:+ String nl EmptyString).
Qed.

Lemma find_after_closing_line block rest :
  contains closing_line (block +:+ chr nl) = false ->
  find_after closing_line (block +:+ closing_line +:+ rest) = Some rest.
Proof.
  induction block as [|c block IH]; intros H.
  - rewrite append_empty_l.
    destruct (closing_line +:+ rest) as [|d t] eqn:E; [done|].
    cbn [find_after]. rewrite <- E, prefix_refl_append.
    by rewrite drop_length_append.
  - rewrite append_cons, contains_cons in H.
    apply orb_false_iff in H as [Hp Hc].
    rewrite append_cons. cbn [find_after].
    destruct (String.prefix closing_line
                (String c (block +:+ closing_line +:+ rest))) eqn:E.
    + rewrite <- append_cons in E. apply closing_line_cut in E.
      rewrite append_cons in E. congruence.
    + by apply IH.
Qed.

(** X16. Front matter is removed exactly: for a document made of the
    opening line, a block, the closing line and a body, where no closing
    line occurs earlier (in the block followed by its newline),
    [_remove_frontmatter] returns the body, and the normalization for
    comparison does not depend on the block.  In every case the result is
    the text itself or the text after one of its closing lines. *)
Theorem remove_frontmatter_round_trip block body :
  contains closing_line (block +:+ chr nl) = false ->
  _remove_frontmatter (with_front_matter block body) = body
  /\ (String.prefix ("---" +:+ chr nl) body = false ->
      normalize_content_for_comparison (with_front_matter block body)
      = normalize_content_for_comparison body)
  /\ (forall x, exists k, _remove_frontmatter x = drop k x).
Proof.
  intros H.
  assert (Hrm : _remove_frontmatter (with_front_matter block body) = body).
  { unfold _remove_frontmatter, with_front_matter.
    change ("---" +:+ chr nl +:+ block +:+ closing_line +:+ body)
      with (("---" +:+ chr nl) +:+ (block +:+ closing_line +:+ body)).
    rewrite prefix_refl_append, drop_length_append.
    fold closing_line. by rewrite find_after_closing_line. }
  split; [exact Hrm|]. split.
  - intros Hb. unfold normalize_content_for_comparison. rewrite Hrm.
    unfold _remove_frontmatter at 1. by rewrite Hb.
  - intros x. unfold _remove_frontmatter.
    destruct (String.prefix ("---" +:+ chr nl) x); [|by exists 0].
    destruct (find_after _ _) as [r|] eqn:E; [|by exists 0].
    destruct (find_after_drop _ _ r E) as [k ->].
    exists (String.length ("---" +:+ chr nl) + k).
    generalize (String.length ("---" +:+ chr nl)). clear.
    intros n. revert x. induction n as [|n IH]; intros x; [done|].
    destruct x as [|c x]; [by destruct k|]. apply IH.
Qed.

Lemma remove_frontmatter_round_trip_witness :
  _remove_frontmatter front_matter_example = "Body".
Proof.
  exact (proj1 (remove_frontmatter_round_trip "a: 1" "Body" eq_refl)).
Defined.

Lemma drop_length k : forall s, String.length (drop k s) <= String.length s.
Proof.
  induction k as [|k IH]; intros [|c s]; simpl; try lia.
  specialize (IH s). lia.
Qed.

Lemma lstrip_length_le q s :
  String.length (lstrip_if q s) <= String.length s.
Proof.
  induction s as [|c s IH]; [done|]. cbn [lstrip_if].
  destruct (q c); simpl; lia.
Qed.

Lemma rstrip_length_le q s :
  String.length (rstrip_if q s) <= String.length s.
Proof.
  induction s as [|c s IH]; [done|].
  destruct (rstrip_head q c s) as [E|[r [E <-]]]; rewrite E; simpl; lia.
Qed.

Lemma sub_runs_length q r s :
  String.length (sub_runs q (String r EmptyString) s) <= String.length s.
Proof.
  induction s as [|c s IH]; [done|]. rewrite sub_runs_cons.
  destruct (q c); [|simpl; lia].
  destruct (starts_with q s); [simpl; lia|].
  rewrite append_cons, append_empty_l. simpl. lia.
Qed.

(** X17. The text [normalize_content_for_comparison] returns has no blank
    other than the plain space, no two blanks in a row and no blank at its
    end, and is never longer than the text it was given. *)
Theorem normalized_text_shape x :
  all_chars plain_blank (normalize_content_for_comparison x) = true
  /\ no_repeat isspace (normalize_content_for_comparison x) = true
  /\ ends_with isspace (normalize_content_for_comparison x) = false
  /\ String.length (normalize_content_for_comparison x) <= String.length x.
Proof.
  destruct (normalize_shape x) as [Ha [Hn He]].
  repeat split; try done.
  unfold normalize_content_for_comparison, re_delete.
  etrans; [apply re_delete_length|].
  unfold normalize_whitespace, strip, strip_if.
  change " " with (String space "").
  etrans; [apply sub_runs_length|].
  etrans; [apply rstrip_length_le|]. etrans; [apply lstrip_length_le|].
  unfold _remove_frontmatter.
  destruct (String.prefix ("---" +:+ chr nl) x); [|done].
  destruct (find_after _ _) as [r|] eqn:E; [|done].
  destruct (find_after_drop _ _ r E) as [k ->].
  etrans; apply drop_length.
Qed.

(** The stripping of one align value finds nothing in a text where no
    align attribute opens. *)
Lemma strip_align_value_without_align v s :
  contains align_open s = false -> re_delete (match_align_value v) s = s.
Proof.
  intros H. apply re_delete_no_match. intros k.
  unfold match_align_value, match_ws_lit.
  assert (Hd : forall a b, drop a (drop b s) = drop (b + a) s).
  { intros a b. clear H. revert s. induction b as [|b IH]; intros s; [done|].
    destruct s as [|c s]; [by destruct a|]. cbn [drop Nat.add]. apply IH. }
  rewrite Hd.
  destruct (String.prefix _ (drop (k + span_len isspace (drop k s)) s))
    eqn:E; [|done].
  change ("align=" +:+ chr dquote +:+ v +:+ chr dquote)
    with (align_open +:+ (v +:+ chr dquote)) in E.
  apply prefix_append_l in E.
  by rewrite (not_contains_no_prefix align_open s _ H) in E.
Qed.

(** X18. With no table of contents to add (it is disabled, or the
    generator returns nothing), [process_content_for_platform] returns the
    body as it is for every platform other than Hashnode, and for Hashnode
    too when no align attribute opens in the body; for every platform the
    result is no longer than the body. *)
Theorem process_content_passthrough
        (_generate_table_of_contents : string -> string) post platform_name :
  enable_toc post = false
  \/ _generate_table_of_contents (body_markdown post) = "" ->
  (lower platform_name <> "hashnode" ->
   process_content_for_platform _generate_table_of_contents post platform_name
   = body_markdown post)
  /\ (contains align_open (body_markdown post) = false ->
      process_content_for_platform _generate_table_of_contents post
                                   platform_name
      = body_markdown post)
  /\ String.length
       (process_content_for_platform _generate_table_of_contents post
                                     platform_name)
     <= String.length (body_markdown post).
Proof.
  intros Htoc.
  assert (Hp :
    process_content_for_platform _generate_table_of_contents post platform_name
    = if String.eqb (lower platform_name) "hashnode"
      then _apply_hashnode_transformations (body_markdown post)
      else body_markdown post).
  { unfold process_content_for_platform, _apply_devto_transformations.
    assert (Hc : (if enable_toc post then
                    if truthy_str
                         (_generate_table_of_contents (body_markdown post))
                    then _generate_table_of_contents (body_markdown post)
                         +:+ chr nl +:+ chr nl +:+ body_markdown post
                    else body_markdown post
                  else body_markdown post) = body_markdown post).
    { destruct Htoc as [-> | ->]; [done|]. by destruct (enable_toc post). }
    rewrite Hc.
    by destruct (String.eqb (lower platform_name) "hashnode"),
      (String.eqb (lower platform_name) "devto"). }
  rewrite Hp. split; [|split].
  - intros Hn. apply String.eqb_neq in Hn. by rewrite Hn.
  - intros Ha. destruct (String.eqb (lower platform_name) "hashnode"); [|done].
    unfold _apply_hashnode_transformations.
    by rewrite (strip_align_value_without_align "center" _ Ha),
      (strip_align_value_without_align "left" _ Ha),
      (strip_align_value_without_align "right" _ Ha).
  - destruct (String.eqb (lower platform_name) "hashnode"); [|done].
    unfold _apply_hashnode_transformations, re_delete.
    etrans; [apply re_delete_length|]. etrans; apply re_delete_length.
Qed.

Lemma process_content_passthrough_witness :
  process_content_for_platform no_toc sample_post "Hashnode"
  = body_markdown sample_post.
Proof.
  destruct (process_content_passthrough no_toc sample_post "Hashnode"
              (or_introl eq_refl)) as [_ [H _]].
  apply H. reflexivity.
Defined.

Lemma map_fixed {X} (f : X -> X) (l : list X) :
  Forall (fun x => f x = x) l -> map f l = l.
Proof. induction 1 as [|x l Hx Hl IH]; [done|]. simpl. by rewrite Hx, IH. Qed.

Lemma strip_strip s : strip (strip s) = strip s.
Proof.
  unfold strip. apply strip_fixed.
  - unfold strip_if. apply starts_with_rstrip, starts_with_lstrip.
  - unfold strip_if. apply ends_with_rstrip.
Qed.

(** X19. A post built by [from_frontmatter] keeps the body, and its
    canonical URL is the one both clients rebuild from the domain and the
    slug of the dictionary [_create_content_dict] hands them, whatever the
    platform.  When the tags entry of the front matter is a string, the
    tags of the post are its pieces between commas, trimmed and not empty,
    so the comma splitting of [convert_tags_for_platform] finds them as
    they are. *)
Theorem from_frontmatter_consistent frontmatter_data body post :
  from_frontmatter frontmatter_data body = Some post ->
  body_markdown post = body
  /\ canonical_url post = "https://" +:+ domain post +:+ "/" +:+ slug post
  /\ (forall processed_content platform_name,
        client_canonical_url
          (_create_content_dict post processed_content platform_name)
        = cd_canonicalUrl
            (_create_content_dict post processed_content platform_name))
  /\ (forall s,
        dict_get frontmatter_data "tags" (VStr "") = VStr s ->
        Forall (fun t => truthy_str t = true /\ strip t = t
                         /\ no_comma t = true) (tags post)
        /\ split_comma_tags (tags post) = tags post).
Proof.
  unfold from_frontmatter. intros H.
  repeat match type of H with
         | (?m ≫= _) = Some _ =>
             destruct m eqn:?; simpl in H; [|discriminate]
         end.
  injection H as <-.
  split; [done|]. split; [done|]. split.
  - intros processed_content platform_name.
    unfold client_canonical_url, _create_content_dict, generate_canonical_url.
    cbn [cd_domain cd_slug cd_canonicalUrl canonical_url].
    by destruct (String.eqb (lower platform_name) "devto"),
      (String.eqb (lower platform_name) "hashnode").
  - intros text Hs. cbn [tags]. rewrite Hs. cbn [frontmatter_tags].
    assert (Hall :
      Forall (fun t => truthy_str t = true /\ strip t = t /\ no_comma t = true)
             (map strip
                  (filter (fun tag => truthy_str (strip tag) = true)
                          (split comma text)))).
    { apply Forall_map, Forall_forall. intros t Ht.
      apply list_elem_of_filter in Ht as [Hn Ht]. simpl.
      split; [exact Hn|]. split; [apply strip_strip|].
      apply no_comma_strip.
      by apply (proj1 (Forall_forall _ _) (split_pieces_no_comma text)). }
    split; [exact Hall|].
    rewrite split_comma_tags_plain.
    + apply map_fixed. eapply Forall_impl; [exact Hall|].
      by intros t [_ [? _]].
    + eapply Forall_impl; [exact Hall|]. intros t [_ [_ Hc]].
      rewrite contains_char_no_comma. by rewrite Hc.
Qed.

Lemma sanitize_tag_for_hashnode_fixed_points_witness :
  hyphenated_tag "web-development" = true
  /\ _sanitize_tag_for_hashnode "web-development" = "web-development".
Proof.
  split; [reflexivity|].
  exact (proj2 (proj2 (sanitize_tag_for_hashnode_fixed_points
                         "web-development")) eq_refl).
Defined.

Lemma from_frontmatter_consistent_witness :
  from_frontmatter FrontMatterSamples.sample_front_matter "Body"
  = Some FrontMatterSamples.sample_parsed
  /\ split_comma_tags (tags FrontMatterSamples.sample_parsed)
     = tags FrontMatterSamples.sample_parsed
  /\ client_canonical_url
       (_create_content_dict FrontMatterSamples.sample_parsed "Body" "devto")
     = "https://example.com/t".
Proof.
  assert (H0 : from_frontmatter FrontMatterSamples.sample_front_matter "Body"
               = Some FrontMatterSamples.sample_parsed)
    by (vm_compute; reflexivity).
  split; [exact H0|].
  destruct (from_frontmatter_consistent
              FrontMatterSamples.sample_front_matter "Body"
              FrontMatterSamples.sample_parsed H0) as [_ [_ [Hurl Htags]]].
  split.
  - refine (proj2 (Htags "a, b,,c " _)). vm_compute. reflexivity.
  - exact (Hurl "Body" "devto").
Defined.

(* ===================================================================== *)
(** * Tags in the change detection *)
(* ===================================================================== *)

Lemma lower_char_lower c : lower_char (lower_char c) = lower_char c.
Proof. by destruct c as [[] [] [] [] [] [] [] []]. Qed.

Lemma lower_lower s : lower (lower s) = lower s.
Proof.
  induction s as [|c s IH]; [done|]. simpl. by rewrite lower_char_lower, IH.
Qed.

(** Every policy of [convert_tags_for_platform] returns lower-case tags. *)
Lemma convert_tags_lower tags platform_name :
  Forall (fun u => lower u = u)
         (convert_tags_for_platform tags platform_name).
Proof.
  unfold convert_tags_for_platform. destruct tags as [|t0 rest]; [constructor|].
  destruct (String.eqb (lower platform_name) "hashnode").
  - apply Forall_map, Forall_forall. intros t _. simpl.
    apply lower_tag_chars, hyphenated_tag_chars,
      sanitize_tag_for_hashnode_shape.
  - destruct (String.eqb (lower platform_name) "devto");
      apply Forall_map, Forall_forall; intros t _; simpl;
      unfold _sanitize_tag_for_devto; apply lower_lower.
Qed.

Section TagComparison.

Context {W : Type}.

#[local] Arguments truthy_dict : simpl never.
#[local] Arguments dict_get : simpl never.

(** X20. Against a platform that returns the tags it was sent (the result
    of [convert_tags_for_platform]), the tag comparison of [_needs_update]
    works on the raw tags of the post: it finds no change when the
    conversion left the tags as they were, and it always finds one when a
    tag of the post is not in lower case, since every converted tag is.
    Such a post is then never skipped: [_needs_update] answers [True]
    whenever it gets the article. *)
Theorem tags_not_in_lower_case_force_update post existing platform_name :
  dict_get existing "tags" (VList [])
  = VList (convert_tags_for_platform (tags post) platform_name) ->
  (convert_tags_for_platform (tags post) platform_name = tags post ->
   tags_changed post existing = false)
  /\ ((exists t, t ∈ tags post /\ lower t <> t) ->
      tags_changed post existing = true
      /\ forall aid (client : PlatformClient W) name st w',
           fetch_existing client aid (world st) = Some (existing, w') ->
           fst (_needs_update post aid client name st) = Ok true).
Proof.
  intros Htags.
  assert (Hsame :
    convert_tags_for_platform (tags post) platform_name = tags post ->
    tags_changed post existing = false).
  { intros Heq. unfold tags_changed. rewrite Htags. cbn [existing_tags_of].
    rewrite Heq. by rewrite bool_decide_eq_true_2. }
  split; [exact Hsame|]. intros [t [Ht Hl]].
  assert (Hchanged : tags_changed post existing = true).
  { unfold tags_changed. rewrite Htags. cbn [existing_tags_of].
    apply negb_true_iff, bool_decide_eq_false. intros Heq.
    assert (Hin : t ∈ convert_tags_for_platform (tags post) platform_name).
    { apply (elem_of_list_to_set (C := gset string)). rewrite <- Heq.
      by apply elem_of_list_to_set. }
    by pose proof (proj1 (Forall_forall _ _)
                     (convert_tags_lower (tags post) platform_name) t Hin). }
  split; [exact Hchanged|].
  intros aid client name st w' Hf. unfold fetch_existing in Hf.
  unfold _needs_update, compare_with_existing, normalize_value,
    try_except, bind, ret, raise, invoke.
  destruct (get_article client aid true (world st)) as [[a1|e1] w1];
    simpl in *; [|done].
  destruct (truthy_dict a1) eqn:T1; simpl.
  - destruct a1 as [m|]; [|done]. injection Hf as -> ->.
    simpl. rewrite T1.
    destruct (dict_get existing "body_markdown" (VStr "")); simpl; try done.
    by rewrite Hchanged, orb_true_r.
  - destruct (get_article client aid false w1) as [[[m|]|e2] w2];
      simpl in *; try done.
    destruct (truthy_dict (Some m)) eqn:T2; [|done].
    injection Hf as -> ->.
    destruct (dict_get existing "body_markdown" (VStr "")); simpl; try done.
    by rewrite Hchanged, orb_true_r.
Qed.

End TagComparison.

Lemma tags_not_in_lower_case_force_update_witness :
  tags_changed TagSamples.capital_post TagSamples.echoed_article = true.
Proof.
  destruct (tags_not_in_lower_case_force_update
              (W := unit) TagSamples.capital_post TagSamples.echoed_article
              "devto" eq_refl) as [_ H].
  refine (proj1 (H (ex_intro _ "Python" (conj _ _)))).
  - apply elem_of_cons. left. reflexivity.
  - discriminate.
Defined.

(* ===================================================================== *)
(** * The summary by platform *)
(* ===================================================================== *)

Module SummaryFacts.
Import ProgressTracker.

Lemma count_result_inv c r :
  total (count_result c r) = total c + 1
  /\ (total c = successful c + failed c ->
      total (count_result c r)
      = successful (count_result c r) + failed (count_result c r))
  /\ (skipped c + published c + deleted c <= successful c ->
      skipped (count_result c r) + published (count_result c r)
      + deleted (count_result c r) <= successful (count_result c r)).
Proof.
  unfold count_result.
  destruct (op_success r); [|simpl; lia].
  destruct (String.eqb (op_action r) "skipped"); [simpl; lia|].
  destruct (String.eqb (op_action r) "created"
            || String.eqb (op_action r) "updated"); [simpl; lia|].
  destruct (String.eqb (op_action r) "deleted"); simpl; lia.
Qed.

Lemma summary_step_lookup summary r p :
  summary_step summary r !! p
  = if decide (p = op_platform r)
    then Some (count_result (default no_counts (summary !! p)) r)
    else summary !! p.
Proof.
  unfold summary_step. destruct (decide (p = op_platform r)) as [->|Hne].
  - destruct (summary !! op_platform r) as [c|] eqn:E.
    + rewrite E. by rewrite lookup_insert_eq.
    + rewrite lookup_insert_eq. by rewrite lookup_insert_eq.
  - destruct (summary !! op_platform r) as [c|] eqn:E.
    + rewrite E. by rewrite lookup_insert_ne.
    + rewrite lookup_insert_eq. by rewrite !lookup_insert_ne.
Qed.

Lemma foldl_summary_inv results : forall summary,
  (forall p c, summary !! p = Some c ->
               total c = successful c + failed c
               /\ skipped c + published c + deleted c <= successful c
               /\ 1 <= total c) ->
  (forall p c, foldl summary_step summary results !! p = Some c ->
               total c = successful c + failed c
               /\ skipped c + published c + deleted c <= successful c
               /\ 1 <= total c)
  /\ (forall p,
        total (default no_counts (foldl summary_step summary results !! p))
        = total (default no_counts (summary !! p))
          + length (results_of p results))
  /\ dom (foldl summary_step summary results)
     = dom summary ∪ list_to_set (map op_platform results).
Proof.
  induction results as [|r results IH]; intros summary Hinv.
  - simpl. split; [exact Hinv|]. split; [intros p; simpl; lia|].
    by rewrite (right_id_L ∅ (∪)).
  - cbn [foldl].
    destruct (IH (summary_step summary r)) as [H1 [H2 H3]].
    { intros p c. rewrite summary_step_lookup.
      destruct (decide (p = op_platform r)) as [->|Hne]; [|apply Hinv].
      intros [= <-].
      destruct (count_result_inv
                  (default no_counts (summary !! op_platform r)) r)
        as [Ht [Hs Hk]].
      destruct (summary !! op_platform r) as [c|] eqn:E; simpl in *.
      - destruct (Hinv _ _ E) as [Ha [Hb Hc]].
        split; [by apply Hs|]. split; [by apply Hk|]. lia.
      - split; [by apply Hs|]. split; [by apply Hk|]. lia. }
    split; [exact H1|]. split.
    + intros p. rewrite H2, summary_step_lookup.
      unfold results_of.
      destruct (decide (p = op_platform r)) as [->|Hne].
      * rewrite filter_cons_True by done. simpl.
        destruct (count_result_inv
                    (default no_counts (summary !! op_platform r)) r)
          as [Ht _].
        rewrite Ht. lia.
      * rewrite filter_cons_False by done. done.
    + rewrite H3. simpl.
      assert (Hd : dom (summary_step summary r)
                   = dom summary ∪ {[op_platform r]}).
      { apply set_eq. intros p. rewrite elem_of_union, !elem_of_dom,
          elem_of_singleton, summary_step_lookup.
        destruct (decide (p = op_platform r)) as [->|Hne].
        - split; [by right|by eexists].
        - split; [by left|]. by intros [?|?]. }
      rewrite Hd. by rewrite <- (assoc_L (∪)).
Qed.

End SummaryFacts.

(** X21. The summary [get_platform_summary] computes has an entry for
    exactly the platforms that occur in the results.  For every platform,
    [total] is the number of its results (so at least one) and equals
    [successful + failed], and the skipped, published and deleted results
    are counted among the successful ones. *)
Theorem platform_summary_counts results :
  dom (ProgressTracker.get_platform_summary results)
  = list_to_set (map ProgressTracker.op_platform results)
  /\ forall p c,
       ProgressTracker.get_platform_summary results !! p = Some c ->
       ProgressTracker.total c
       = length (ProgressTracker.results_of p results)
       /\ 1 <= ProgressTracker.total c
       /\ ProgressTracker.total c
          = ProgressTracker.successful c + ProgressTracker.failed c
       /\ ProgressTracker.skipped c + ProgressTracker.published c
          + ProgressTracker.deleted c <= ProgressTracker.successful c.
Proof.
  destruct (SummaryFacts.foldl_summary_inv results ∅) as [H1 [H2 H3]];
    [done|].
  fold (ProgressTracker.get_platform_summary results) in H1, H2, H3.
  split.
  - by rewrite H3, dom_empty_L, (left_id_L ∅ (∪)).
  - intros p c Hc. destruct (H1 p c Hc) as [Ha [Hb Hd]].
    specialize (H2 p). rewrite Hc, lookup_empty in H2. simpl in H2.
    repeat split; done.
Qed.

(* ===================================================================== *)
(** * The dev.to client: one article, and its deletion *)
(* ===================================================================== *)

Import DevToArticle.

Lemma retry_loop_returns {St A} max_retries base_delay max_delay
      backoff_factor (func : St -> result A * St)
      remaining attempt last s s' v slept :
  func s = (Ok v, s') ->
  retry_loop max_retries base_delay max_delay backoff_factor func
             (S remaining) attempt last s slept
  = (Ok v, s', slept).
Proof. intros Hf. cbn [retry_loop]. by rewrite Hf. Qed.

(** A classified error other than a rate limit leaves the wrapper at
    once. *)
Lemma retry_loop_classified {St A} max_retries base_delay max_delay
      backoff_factor (func : St -> result A * St)
      remaining attempt last s s' e slept :
  func s = (Raise e, s') ->
  exn_kind e = AuthenticationError \/ exn_kind e = APIError ->
  retry_loop max_retries base_delay max_delay backoff_factor func
             (S remaining) attempt last s slept
  = (Raise e, s', slept).
Proof.
  intros Hf Hk. cbn [retry_loop]. rewrite Hf.
  by destruct Hk as [-> | ->].
Qed.

Lemma find_by_id_skip subscript_error n pre rest :
  Forall (fun v => id_equals subscript_error v n = Ok false) pre ->
  find_by_id subscript_error n (pre ++ rest)
  = find_by_id subscript_error n rest.
Proof.
  induction 1 as [|v pre Hv Hpre IH]; [done|].
  cbn [app find_by_id]. by rewrite Hv.
Qed.

Lemma handle_api_response_raises repr_container response platform operation
      article_title e :
  handle_api_response repr_container response platform operation
                      article_title = Raise e ->
  is_publishing_error e = true
  /\ (raises_for_status response = false -> resp_json response = None).
Proof.
  unfold handle_api_response.
  destruct (raises_for_status response).
  - destruct (_ || _); [by intros [= <-]|].
    destruct (Z.eqb _ 429); by intros [= <-].
  - destruct (resp_json response); [done|]. by intros [= <-].
Qed.

Lemma handle_api_response_kind repr_container response platform operation
      article_title e :
  handle_api_response repr_container response platform operation
                      article_title = Raise e ->
  resp_status response <> 429%Z ->
  exn_kind e = AuthenticationError \/ exn_kind e = APIError.
Proof.
  unfold handle_api_response.
  destruct (raises_for_status response).
  - destruct (_ || _); [intros [= <-]; by left|].
    destruct (Z.eqb _ 429) eqn:E9; [by apply Z.eqb_eq in E9|].
    intros [= <-]. by right.
  - destruct (resp_json response); [done|]. intros [= <-]. by right.
Qed.

(** X22. [get_article] of the dev.to client, for a published article.  An
    id that [int] rejects gives [None] without any request.  Otherwise one
    request is made, to the URL built from the id as it was given, and,
    unless the answer is a 429: status 404 gives [None] whatever the body;
    status 200 gives the decoded body; any other status outside 400..599
    gives [None] when the body decodes (the body is dropped) and an error
    when it does not; and every error raised is one of the three
    classified ones, raised after that single request. *)
Theorem devto_get_article_published {W} repr_container subscript_error
        (http_get : string -> W -> result Response * W) article_id (w : W) :
  let counted_get := fun u => counted (http_get u) in
  let run published :=
    get_article repr_container subscript_error counted_get article_id
                published (w, 0) in
  (py_int article_id = None ->
   forall published, run published = (Ok JNull, (w, 0), []))
  /\ (forall n response w1,
        py_int article_id = Some n ->
        http_get (article_url article_id) w = (Ok response, w1) ->
        resp_status response <> 429%Z ->
        exists outcome,
          run true = (outcome, (w1, 1), [])
          /\ match outcome with
             | Ok a =>
                 (resp_status response = 404%Z /\ a = JNull)
                 \/ (resp_status response <> 404%Z
                     /\ raises_for_status response = false
                     /\ exists data,
                          resp_json response = Some data
                          /\ a = if Z.eqb (resp_status response) 200
                                 then data else JNull)
             | Raise e =>
                 resp_status response <> 404%Z
                 /\ (exn_kind e = AuthenticationError
                     \/ exn_kind e = APIError)
                 /\ (raises_for_status response = false ->
                     resp_json response = None)
             end).
Proof.
  intros counted_get run. split.
  - intros Hid published. unfold run, get_article,
      with_retry_and_rate_limiting.
    change (Z.to_nat (3 + 1)) with 4.
    apply retry_loop_returns. unfold get_article_body. by rewrite Hid.
  - intros n response w1 Hid Hget Hs.
    assert (Hbody :
      get_article_body repr_container subscript_error counted_get article_id
                       true (w, 0)
      = (reraise_as_api_error "Unexpected error retrieving DevTo article: "
           (if Z.eqb (resp_status response) 200 then
              handle_api_response repr_container response "devto"
                                  "get_article" None
            else if Z.eqb (resp_status response) 404 then Ok JNull
            else
              match handle_api_response repr_container response "devto"
                                        "get_article" None with
              | Ok _ => Ok JNull
              | Raise e => Raise e
              end),
         (w1, 1))).
    { unfold get_article_body, counted_get. rewrite Hid.
      change (ARTICLES_URL +:+ "/" +:+ article_id)
        with (article_url article_id).
      by rewrite counted_run, Hget. }
    unfold run, get_article, with_retry_and_rate_limiting.
    change (Z.to_nat (3 + 1)) with 4.
    destruct (handle_api_response repr_container response "devto"
                                  "get_article" None) as [data|e] eqn:Hh.
    + assert (Hok : raises_for_status response = false
                    /\ resp_json response = Some data).
      { revert Hh. unfold handle_api_response.
        destruct (raises_for_status response).
        - destruct (_ || _); [done|]. by destruct (Z.eqb _ 429).
        - destruct (resp_json response); [|done]. by intros [= ->]. }
      destruct Hok as [Hr Hj].
      destruct (Z.eqb (resp_status response) 200) eqn:E2.
      * exists (Ok data). split; [by apply retry_loop_returns|].
        right. apply Z.eqb_eq in E2. split; [lia|]. split; [done|].
        by exists data.
      * exists (Ok JNull). split.
        { apply retry_loop_returns. rewrite Hbody.
          by destruct (Z.eqb (resp_status response) 404). }
        destruct (Z.eqb (resp_status response) 404) eqn:E4.
        { left. by apply Z.eqb_eq in E4. }
        right. apply Z.eqb_neq in E4. split; [done|]. split; [done|].
        by exists data.
    + pose proof (handle_api_response_raises _ _ _ _ _ _ Hh) as [Hp Hj].
      pose proof (handle_api_response_kind _ _ _ _ _ _ Hh Hs) as Hk.
      destruct (Z.eqb (resp_status response) 200) eqn:E2.
      * exists (Raise e). apply Z.eqb_eq in E2. split.
        { apply retry_loop_classified; [|done]. rewrite Hbody.
          simpl. by rewrite Hp. }
        split; [lia|]. by split.
      * destruct (Z.eqb (resp_status response) 404) eqn:E4.
        { exists (Ok JNull). split; [by apply retry_loop_returns|].
          left. by apply Z.eqb_eq in E4. }
        exists (Raise e). apply Z.eqb_neq in E4. split.
        { apply retry_loop_classified; [|done]. rewrite Hbody.
          simpl. by rewrite Hp. }
        by repeat split.
Qed.

(** X23. [get_article] of the dev.to client, for an article that is not
    published: over the list of unpublished articles that the platform
    returns, the first article whose id equals [int(article_id)] is
    returned, after one request; if no article has that id the result is
    [None]; and an article without an id that comes before the wanted one
    makes the call fail with an [APIError], whatever follows. *)
Theorem devto_get_article_unpublished {W} repr_container subscript_error
        (http_get : string -> W -> result Response * W) article_id (w : W)
        n response w1 articles :
  let counted_get := fun u => counted (http_get u) in
  let run :=
    get_article repr_container subscript_error counted_get article_id
                false (w, 0) in
  let differs v := id_equals subscript_error v n = Ok false in
  py_int article_id = Some n ->
  http_get (ARTICLES_URL +:+ "/me/unpublished?per_page=1000") w
  = (Ok response, w1) ->
  raises_for_status response = false ->
  resp_json response = Some (JArr articles) ->
  (forall pre article rest,
      articles = (pre ++ article :: rest)%list ->
      Forall differs pre ->
      id_equals subscript_error article n = Ok true ->
      run = (Ok article, (w1, 1), []))
  /\ (Forall differs articles -> run = (Ok JNull, (w1, 1), []))
  /\ (forall pre fields rest,
        articles = (pre ++ JObj fields :: rest)%list ->
        Forall differs pre ->
        obj_get fields "id" = None ->
        run = (Raise (publishing_error APIError
                        "Unexpected error retrieving DevTo article: 'id'"),
               (w1, 1), [])).
Proof.
  intros counted_get run differs Hid Hget Hr Hj.
  assert (Hbody :
    get_article_body repr_container subscript_error counted_get article_id
                     false (w, 0)
    = (reraise_as_api_error "Unexpected error retrieving DevTo article: "
         (find_by_id subscript_error n articles),
       (w1, 1))).
  { unfold get_article_body, counted_get. rewrite Hid.
    rewrite counted_run, Hget. cbn [fst snd].
    unfold handle_api_response. by rewrite Hr, Hj. }
  unfold run, get_article, with_retry_and_rate_limiting.
  change (Z.to_nat (3 + 1)) with 4.
  split; [|split].
  - intros pre article rest -> Hpre Ha.
    apply retry_loop_returns. rewrite Hbody.
    rewrite (find_by_id_skip _ _ _ _ Hpre). cbn [find_by_id].
    by rewrite Ha.
  - intros Hall. apply retry_loop_returns. rewrite Hbody.
    rewrite <- (app_nil_r articles).
    by rewrite (find_by_id_skip _ _ _ _ Hall).
  - intros pre fields rest -> Hpre Hnone.
    apply retry_loop_classified; [|by right]. rewrite Hbody.
    rewrite (find_by_id_skip _ _ _ _ Hpre). cbn [find_by_id id_equals].
    by rewrite Hnone.
Qed.

Lemma delete_url_length article_id :
  String.length (delete_url article_id)
  = S (String.length (article_url article_id) + 8).
Proof.
  unfold delete_url, article_url.
  assert (Happ : forall a b, String.length (a +:+ b)
                             = String.length a + String.length b).
  { intros a b. induction a as [|c a IH]; [done|]. simpl. by rewrite IH. }
  rewrite !Happ. simpl. lia.
Qed.

Lemma delete_article_body_run {W} repr_container
      (http_delete : string -> W -> result Response * W) article_id w n
      response w1 :
  http_delete (delete_url article_id) w = (Ok response, w1) ->
  delete_article_body repr_container
    (fun u => counted (http_delete u)) article_id (w, n)
  = (if Z.eqb (resp_status response) 204 then
       Ok {| dr_success := true; already_deleted := false |}
     else if Z.eqb (resp_status response) 404 then
       Ok {| dr_success := false; already_deleted := true |}
     else if Z.eqb (resp_status response) 429 then
       Raise (publishing_error RateLimitError
                ("Rate limit exceeded when deleting article "
                 +:+ article_id))
     else
       match handle_api_response repr_container response "devto" "delete"
                                 (Some ("Article ID " +:+ article_id)) with
       | Ok _ => Ok {| dr_success := false; already_deleted := false |}
       | Raise e => Raise e
       end,
     (w1, S n)).
Proof.
  intros Hdel. unfold delete_article_body.
  rewrite counted_run, Hdel. cbn [fst snd]. f_equal.
  destruct (Z.eqb (resp_status response) 204); [done|].
  destruct (Z.eqb (resp_status response) 404); [done|].
  destruct (Z.eqb (resp_status response) 429); [done|].
  destruct (handle_api_response _ _ _ _ _) as [v|e] eqn:Hh; [done|].
  by rewrite (proj1 (handle_api_response_raises _ _ _ _ _ _ Hh)).
Qed.

(** X24. [delete_article] of the dev.to client.  The request goes to a URL
    that repeats the [articles] segment, so it is never the URL under
    which the article is read and updated.  A failure of the request
    itself is not raised and not retried: one request, and a result that
    is false.  When the platform answers with a status other than 429,
    one request is made and nothing is slept; the result is true exactly
    for the statuses 204 (deleted) and 404 (already deleted), a 2xx answer
    other than 204 counts as a failure, and an error is raised only for a
    status in 400..599 or a body that does not decode. *)
Theorem devto_delete_article_outcomes {W} repr_container
        (http_delete : string -> W -> result Response * W) article_id
        (w : W) :
  let counted_delete := fun u => counted (http_delete u) in
  let run := delete_article repr_container counted_delete article_id (w, 0) in
  delete_url article_id <> article_url article_id
  /\ (forall e w1,
        http_delete (delete_url article_id) w = (Raise e, w1) ->
        is_publishing_error e = false ->
        run = (Ok {| dr_success := false; already_deleted := false |},
               (w1, 1), []))
  /\ (forall response w1,
        http_delete (delete_url article_id) w = (Ok response, w1) ->
        resp_status response <> 429%Z ->
        exists outcome,
          run = (outcome, (w1, 1), [])
          /\ match outcome with
             | Ok r =>
                 (dr_success r = true <-> resp_status response = 204%Z)
                 /\ (already_deleted r = true
                     <-> resp_status response = 404%Z)
                 /\ (delete_result_bool r = true
                     <-> resp_status response = 204%Z
                         \/ resp_status response = 404%Z)
             | Raise e =>
                 resp_status response <> 204%Z
                 /\ resp_status response <> 404%Z
                 /\ (exn_kind e = AuthenticationError
                     \/ exn_kind e = APIError)
                 /\ (raises_for_status response = false ->
                     resp_json response = None)
             end).
Proof.
  intros counted_delete run. split; [|split].
  - intros Heq. pose proof (delete_url_length article_id) as Hlen.
    rewrite Heq in Hlen. lia.
  - intros e w1 Hdel Hp. unfold run, delete_article,
      with_retry_and_rate_limiting.
    change (Z.to_nat (3 + 1)) with 4.
    apply retry_loop_returns. unfold delete_article_body, counted_delete.
    rewrite counted_run, Hdel. cbn [fst snd]. by rewrite Hp.
  - intros response w1 Hdel Hs. unfold run, delete_article,
      with_retry_and_rate_limiting.
    change (Z.to_nat (3 + 1)) with 4.
    pose proof (delete_article_body_run repr_container http_delete
                  article_id w 0 response w1 Hdel) as Hbody.
    fold counted_delete in Hbody.
    destruct (Z.eqb (resp_status response) 204) eqn:E2.
    { eexists. split; [by apply retry_loop_returns|].
      apply Z.eqb_eq in E2. unfold delete_result_bool. simpl.
      repeat split; try done; try lia; auto. }
    destruct (Z.eqb (resp_status response) 404) eqn:E4.
    { eexists. split; [by apply retry_loop_returns|].
      apply Z.eqb_eq in E4. unfold delete_result_bool. simpl.
      repeat split; try done; try lia; auto. }
    destruct (Z.eqb (resp_status response) 429) eqn:E9;
      [by apply Z.eqb_eq in E9|].
    apply Z.eqb_neq in E2, E4.
    destruct (handle_api_response repr_container response "devto" "delete"
                (Some ("Article ID " +:+ article_id))) as [v|e] eqn:Hh.
    + eexists. split; [by apply retry_loop_returns|].
      unfold delete_result_bool. simpl.
      repeat split; try done. by intros [?|?].
    + pose proof (handle_api_response_raises _ _ _ _ _ _ Hh) as [Hp Hj].
      pose proof (handle_api_response_kind _ _ _ _ _ _ Hh Hs) as Hk.
      exists (Raise e). split; [by apply retry_loop_classified|].
      by repeat split.
Qed.

(** X25. When every delete request is answered with status 429,
    [delete_article] of the dev.to client makes exactly 4 requests, sleeps
    2, 4 and 8 seconds between them whatever the Retry-After header says
    (the header is stored in the error, where the decorator does not look
    for it), and raises the [RateLimitError]. *)
Theorem devto_delete_article_rate_limited {W} repr_container
        (http_delete : string -> W -> result Response * W) article_id
        (w : W) :
  let counted_delete := fun u => counted (http_delete u) in
  (forall w0, exists response,
      fst (http_delete (delete_url article_id) w0) = Ok response
      /\ resp_status response = 429%Z) ->
  exists w4,
    delete_article repr_container counted_delete article_id (w, 0)
    = (Raise (publishing_error RateLimitError
                ("Rate limit exceeded when deleting article "
                 +:+ article_id)),
       (w4, 4),
       map (backoff_delay 2 60 2) [0; 1; 2])
    /\ Forall2 Qeq (map (backoff_delay 2 60 2) [0; 1; 2]) [2%Q; 4%Q; 8%Q].
Proof.
  intros counted_delete Hall.
  set (e := publishing_error RateLimitError
              ("Rate limit exceeded when deleting article " +:+ article_id)).
  assert (Hbody : forall w0 n,
    delete_article_body repr_container counted_delete article_id (w0, n)
    = (Raise e, (snd (http_delete (delete_url article_id) w0), S n))).
  { intros w0 n. destruct (Hall w0) as [response [Hdel Hs]].
    unfold counted_delete.
    rewrite (delete_article_body_run repr_container http_delete article_id
               w0 n response
               (snd (http_delete (delete_url article_id) w0))).
    - by rewrite Hs.
    - rewrite <- Hdel. by destruct (http_delete _ w0). }
  assert (Hstep : forall remaining attempt last w0 n slept,
    Z.of_nat attempt <> 3%Z ->
    retry_loop 3 2 60 2
               (delete_article_body repr_container counted_delete article_id)
               (S remaining) attempt last (w0, n) slept
    = retry_loop 3 2 60 2
                 (delete_article_body repr_container counted_delete
                                      article_id)
                 remaining (S attempt) (Some e)
                 (snd (http_delete (delete_url article_id) w0), S n)
                 (slept ++ [backoff_delay 2 60 2 attempt])%list).
  { intros remaining attempt last w0 n slept Hne.
    destruct (retry_loop_transient 3 2 60 2 ltac:(done) ltac:(done)
                ltac:(done)
                (delete_article_body repr_container counted_delete
                                     article_id)
                remaining attempt last (w0, n)
                (snd (http_delete (delete_url article_id) w0), S n) e slept
                (Hbody w0 n) eq_refl Hne) as [d [Hd Hrun]].
    injection Hd as <-. exact Hrun. }
  eexists. split.
  - unfold delete_article, with_retry_and_rate_limiting.
    change (Z.to_nat (3 + 1)) with 4.
    rewrite (Hstep 3 0), (Hstep 2 1), (Hstep 1 2) by lia.
    apply retry_loop_last; [apply Hbody|done|done].
  - repeat constructor.
Qed.

Lemma platform_summary_counts_witness :
  exists c,
    ProgressTracker.get_platform_summary SummarySamples.sample_results
    !! "devto" = Some c
    /\ ProgressTracker.total c = 2.
Proof.
  destruct (platform_summary_counts SummarySamples.sample_results)
    as [_ H].
  eexists. split; [vm_compute; reflexivity|].
  exact (proj1 (H "devto" _ ltac:(vm_compute; reflexivity))).
Defined.

Lemma devto_get_article_published_witness :
  get_article HttpSamples.sample_repr ArticleSamples.sample_subscript
    (fun u => counted (ArticleSamples.drafts_only u)) "twelve" true (tt, 0)
  = (Ok JNull, (tt, 0), [])
  /\ get_article HttpSamples.sample_repr ArticleSamples.sample_subscript
       (fun u => counted (ArticleSamples.drafts_only u)) "12" true (tt, 0)
     = (Ok JNull, (tt, 1), []).
Proof.
  split.
  - destruct (devto_get_article_published
                HttpSamples.sample_repr ArticleSamples.sample_subscript
                ArticleSamples.drafts_only "twelve" tt) as [H _].
    exact (H eq_refl true).
  - destruct (devto_get_article_published
                HttpSamples.sample_repr ArticleSamples.sample_subscript
                ArticleSamples.drafts_only "12" tt) as [_ H].
    destruct (H 12%Z ArticleSamples.not_found tt eq_refl eq_refl
                ltac:(discriminate)) as [outcome [Hrun Hout]].
    rewrite Hrun. destruct outcome as [a|e].
    + destruct Hout as [[_ ->]|[Hne _]]; [reflexivity|].
      exfalso. apply Hne. reflexivity.
    + exfalso. apply (proj1 Hout). reflexivity.
Defined.

Lemma devto_get_article_unpublished_witness :
  get_article HttpSamples.sample_repr ArticleSamples.sample_subscript
    (fun u => counted (ArticleSamples.drafts_only u)) "12" false (tt, 0)
  = (Ok (ArticleSamples.draft 12 "b"), (tt, 1), []).
Proof.
  destruct (devto_get_article_unpublished
              HttpSamples.sample_repr ArticleSamples.sample_subscript
              ArticleSamples.drafts_only "12" tt 12%Z ArticleSamples.listing
              tt [ArticleSamples.draft 7 "a"; ArticleSamples.draft 12 "b";
                  ArticleSamples.draft 12 "c"]
              eq_refl eq_refl eq_refl eq_refl) as [H _].
  apply (H [ArticleSamples.draft 7 "a"] (ArticleSamples.draft 12 "b")
           [ArticleSamples.draft 12 "c"] eq_refl).
  - by repeat constructor.
  - reflexivity.
Defined.

Lemma devto_delete_article_outcomes_witness :
  exists r,
    delete_article HttpSamples.sample_repr
      (fun u => counted (ArticleSamples.deleting u)) "12" (tt, 0)
    = (Ok r, (tt, 1), [])
    /\ dr_success r = true.
Proof.
  destruct (devto_delete_article_outcomes HttpSamples.sample_repr
              ArticleSamples.deleting "12" tt) as [_ [_ H]].
  destruct (H _ tt eq_refl ltac:(discriminate)) as [outcome [Hrun Hout]].
  destruct outcome as [r|e].
  - exists r. split; [exact Hrun|]. apply (proj1 Hout). reflexivity.
  - exfalso. apply (proj1 Hout). reflexivity.
Defined.

Lemma devto_delete_article_rate_limited_witness :
  exists w4,
    delete_article HttpSamples.sample_repr
      (fun u => counted (HttpSamples.throttled u)) "12" (tt, 0)
    = (Raise (publishing_error RateLimitError
                "Rate limit exceeded when deleting article 12"),
       (w4, 4), map (backoff_delay 2 60 2) [0; 1; 2]).
Proof.
  destruct (devto_delete_article_rate_limited HttpSamples.sample_repr
              HttpSamples.throttled "12" tt
              (fun w0 => ex_intro _ _ (conj eq_refl eq_refl)))
    as [w4 [H _]].
  exists w4. exact H.
Defined.

(* ===================================================================== *)
(** * The Hashnode client: queries and deletion *)
(* ===================================================================== *)

Import HashnodeQuery HashnodeNotions.

Section HashnodeFacts.

Context {W : Type}.
Variable time : W -> Q * W.
Variable pass : Q -> W -> W.
Variable execute : string -> json -> W -> outcome json * W.

Lemma rounds_step query variables attempt k :
  rounds query variables attempt (S k)
  = ([Executed query variables;
      Slept (2 * inject_Z (2 ^ Z.of_nat attempt))%Q]
     ++ rounds query variables (S attempt) k)%list.
Proof. reflexivity. Qed.

(** What [_rate_limit] adds to the record. *)
Lemma rate_limit_log (s : Client W) :
  let wait := (rate_limit_delay
               - (fst (time (net s)) - last_request_time s))%Q in
  log (_rate_limit time pass s) = log s
  \/ (log (_rate_limit time pass s) = (log s ++ [Slept wait])%list
      /\ (0 < wait)%Q
      /\ ((last_request_time s <= fst (time (net s)))%Q ->
          (wait <= rate_limit_delay)%Q)).
Proof.
  intros wait. unfold _rate_limit.
  destruct (time (net s)) as [current_time w1] eqn:Ht. cbn [fst] in wait.
  destruct (Qle_bool rate_limit_delay (current_time - last_request_time s))
    eqn:Hle; cbn [negb].
  - left. cbn [net]. by destruct (time w1).
  - right. unfold sleep. cbn [net log].
    destruct (time (pass _ w1)). cbn [log]. split; [done|].
    assert (Hlt : ~ (rate_limit_delay
                     <= current_time - last_request_time s)%Q).
    { intros H. apply Qle_bool_iff in H. by rewrite H in Hle. }
    apply Qnot_le_lt in Hlt. unfold wait, rate_limit_delay in *.
    split.
    + apply (Qplus_lt_l _ _ (current_time - last_request_time s)).
      ring_simplify. ring_simplify in Hlt. exact Hlt.
    + intros Hmono.
      apply (Qplus_le_l _ _ (current_time - last_request_time s)).
      ring_simplify.
      apply (Qplus_le_l _ _ (last_request_time s - 2)). ring_simplify.
      exact Hmono.
Qed.

(** The loop of [_run_query]: what it adds to the record and what it can
    give. *)
Lemma query_loop_spec query variables remaining :
  forall attempt last_exception (s : Client W),
    attempt + S remaining = 4 ->
    let run := query_loop pass execute query variables (S remaining) attempt
                          last_exception s in
    classified (fst run) = true
    /\ exists k,
         k <= remaining
         /\ log (snd run)
            = (log s ++ rounds query variables attempt k
               ++ [Executed query variables])%list.
Proof.
  induction remaining as [|r IH]; intros attempt last_exception s Hsum run.
  - unfold run. cbn [query_loop].
    destruct (execute query variables (net s)) as [[result|[text|e]] w'].
    + split; [done|]. by exists 0.
    + assert (Hlast : (attempt <? max_retries) = false)
        by (apply Nat.ltb_ge; unfold max_retries; lia).
      rewrite Hlast.
      destruct (contains "401" text || contains "403" text
                || contains "Unauthorized" text);
        [split; [done|by exists 0]|].
      destruct (contains "429" text || contains "rate limit" (lower text));
        (split; [done|by exists 0]).
    + split; [done|]. by exists 0.
  - unfold run. cbn [query_loop].
    destruct (execute query variables (net s)) as [[result|[text|e]] w'].
    + split; [done|]. exists 0. split; [lia|done].
    + assert (Hgo : (attempt <? max_retries) = true)
        by (apply Nat.ltb_lt; unfold max_retries; lia).
      rewrite Hgo.
      destruct (contains "401" text || contains "403" text
                || contains "Unauthorized" text);
        [split; [done|exists 0; split; [lia|done]]|].
      assert (Hnext : forall s1 : Client W,
        log s1 = (log s ++ [Executed query variables;
                            Slept (2 * inject_Z (2 ^ Z.of_nat attempt))%Q])%list ->
        let run' := query_loop pass execute query variables (S r)
                      (S attempt) (Some (TransportError text)) s1 in
        classified (fst run') = true
        /\ exists k,
             k <= S r
             /\ log (snd run')
                = (log s ++ rounds query variables attempt k
                   ++ [Executed query variables])%list).
      { intros s1 Hlog run'.
        destruct (IH (S attempt) (Some (TransportError text)) s1)
          as [Hc [k [Hk Hl]]]; [lia|].
        split; [exact Hc|]. exists (S k). split; [lia|].
        fold run' in Hl. rewrite Hl, Hlog, rounds_step.
        by rewrite <- !app_assoc. }
      destruct (contains "429" text || contains "rate limit" (lower text));
        apply Hnext; unfold sleep; cbn [log]; by rewrite <- app_assoc.
    + split; [done|]. exists 0. split; [lia|done].
Qed.

(** Whatever the platform does, [_run_query] returns or raises a
    classified error. *)
Lemma hashnode_run_query_classified query variables (s : Client W) :
  classified (fst (_run_query time pass execute query variables s)) = true.
Proof.
  unfold _run_query. change (max_retries + 1) with 4.
  by destruct (query_loop_spec query variables 3 0 None
                 (_rate_limit time pass s) eq_refl) as [Hc _].
Qed.

End HashnodeFacts.

(** X26. [_run_query] of the Hashnode client never lets a transport error
    or an unexpected exception out: it returns a result or raises one of
    the three classified errors.  After the pause of [_rate_limit] it runs
    the query at least once and at most 4 times, and sleeps 2, 4, 8
    seconds between two runs, for a rate limit as for any other transport
    error.  The pause itself is at most one sleep, positive, and of at
    most 2 seconds unless the clock went back.  A transport error whose
    text contains 401, 403 or Unauthorized is an authentication failure,
    raised at once, whatever else the text says. *)
Theorem hashnode_run_query_outcomes {W} (time : W -> Q * W)
        (pass : Q -> W -> W)
        (execute : string -> json -> W -> outcome json * W)
        query variables (s : Client W) :
  let started := _rate_limit time pass s in
  let run := _run_query time pass execute query variables s in
  classified (fst run) = true
  /\ (exists k,
        k <= 3
        /\ log (snd run)
           = (log started ++ rounds query variables 0 k
              ++ [Executed query variables])%list)
  /\ (log started = log s
      \/ exists wait,
           log started = (log s ++ [Slept wait])%list
           /\ (0 < wait)%Q
           /\ ((last_request_time s <= fst (time (net s)))%Q ->
               (wait <= 2)%Q))
  /\ (forall text w',
        execute query variables (net started)
        = (Failed (TransportError text), w') ->
        authentication_text text = true ->
        fst run
        = Failed (Exn (publishing_error AuthenticationError
                         ("Authentication failed for Hashnode: " +:+ text)))
        /\ log (snd run)
           = (log started ++ [Executed query variables])%list).
Proof.
  intros started run.
  destruct (query_loop_spec pass execute query variables 3 0 None started
              eq_refl) as [Hc Hk].
  split; [exact Hc|]. split; [exact Hk|]. split.
  - destruct (rate_limit_log time pass s) as [H|[H1 [H2 H3]]];
      [by left|right]. eexists. split; [exact H1|]. by split.
  - intros text w' Hex Ha. unfold run, _run_query. fold started.
    change (max_retries + 1) with 4. cbn [query_loop]. rewrite Hex.
    unfold authentication_text in Ha. by rewrite Ha.
Qed.

Lemma obj_get_absent fields key :
  existsb (fun kv : string * json => String.eqb (fst kv) key) fields = false ->
  obj_get fields key = None.
Proof.
  intros Hnone. unfold obj_get.
  destruct (find _ (rev fields)) as [kv|] eqn:Hf; [|done].
  apply find_some in Hf as [Hin Hkey]. apply in_rev in Hin.
  assert (Hex : existsb (fun kv : string * json => String.eqb (fst kv) key)
                        fields = true)
    by (apply existsb_exists; by exists kv).
  by rewrite Hex in Hnone.
Qed.

(** The test made on the result of the removal, without its exceptions. *)
Lemma removal_confirmed_shape result :
  default false (removal_confirmed result) = removal_shape result.
Proof.
  unfold removal_confirmed, removal_shape.
  destruct result as [|b|z|text|items|fields]; cbn [json_truthy].
  - done.
  - by destruct b.
  - by destruct (Z.eqb z 0).
  - destruct (String.eqb text ""); [done|]. cbn [negb json_contains].
    by destruct (contains "removePost" text).
  - destruct items; [done|]. cbn [json_contains].
    by destruct (existsb _ _).
  - destruct fields as [|kv fields]; [done|].
    cbn [json_contains json_getitem].
    destruct (existsb _ (kv :: fields)) eqn:Hex.
    + destruct (obj_get (kv :: fields) "removePost") as [inner|]; [|done].
      destruct inner; try done. cbn [json_getitem].
      by destruct (obj_get _ "post").
    + by rewrite (obj_get_absent _ _ Hex).
Qed.

(** X27. [delete_article] of the Hashnode client gives what [_run_query]
    gives, with a result turned into the answer: True exactly for an
    object whose [removePost] entry is an object with a [post] entry that
    is true, False for any other result.  It raises only the three
    classified errors.  Its handler for transport errors is never used,
    since no transport error leaves [_run_query]: when the platform
    refuses every attempt with a transport error that is neither an
    authentication failure nor a rate limit -- a lack of permission, for
    instance -- the call does not return True; it runs the query 4 times,
    sleeping 2, 4 and 8 seconds, and raises an [APIError]. *)
Theorem hashnode_delete_article_outcomes {W} (time : W -> Q * W)
        (pass : Q -> W -> W)
        (execute : string -> json -> W -> outcome json * W)
        article_id (s : Client W) :
  let variables := JObj [("input", JObj [("id", JStr article_id)])] in
  let query := _run_query time pass execute "RemovePost" variables s in
  let run := delete_article time pass execute article_id s in
  snd run = snd query
  /\ fst run = match fst query with
               | Returned result => Returned (removal_shape result)
               | Failed r => Failed r
               end
  /\ classified (fst run) = true
  /\ (forall text,
        (forall w, fst (execute "RemovePost" variables w)
                   = Failed (TransportError text)) ->
        authentication_text text = false ->
        rate_limit_text text = false ->
        fst run
        = Failed (Exn (publishing_error APIError
                         ("Hashnode API request failed after 3 retries: "
                          +:+ text)))
        /\ log (snd run)
           = (log (_rate_limit time pass s)
              ++ rounds "RemovePost" variables 0 3
              ++ [Executed "RemovePost" variables])%list).
Proof.
  intros variables query run.
  pose proof (hashnode_run_query_classified time pass execute "RemovePost"
                variables s) as Hc.
  fold query in Hc.
  assert (Hrun : run = (match fst query with
                        | Returned result => Returned (removal_shape result)
                        | Failed r => Failed r
                        end, snd query)).
  { unfold run, delete_article. fold variables. fold query.
    destruct query as [[result|[text|e]] s']; cbn [fst snd] in *.
    - rewrite <- removal_confirmed_shape.
      by destruct (removal_confirmed result).
    - done.
    - unfold classified in Hc. by rewrite Hc. }
  split; [by rewrite Hrun|]. split; [by rewrite Hrun|]. split.
  { rewrite Hrun. cbn [fst]. by destruct (fst query) as [result|[text|e]]. }
  intros text Hall Ha Hr.
  assert (Hstep : forall remaining attempt last_exception (c : Client W),
    attempt < 3 ->
    query_loop pass execute "RemovePost" variables (S remaining) attempt
               last_exception c
    = query_loop pass execute "RemovePost" variables remaining (S attempt)
        (Some (TransportError text))
        (sleep pass (2 * inject_Z (2 ^ Z.of_nat attempt))%Q
           {| net := snd (execute "RemovePost" variables (net c));
              last_request_time := last_request_time c;
              log := (log c ++ [Executed "RemovePost" variables])%list |})).
  { intros remaining attempt last_exception c Hlt. cbn [query_loop].
    pose proof (Hall (net c)) as Hex.
    destruct (execute "RemovePost" variables (net c)) as [out w'].
    cbn [fst snd] in *. subst out.
    unfold authentication_text in Ha. unfold rate_limit_text in Hr.
    rewrite Ha, Hr.
    assert (Hgo : (attempt <? max_retries) = true)
      by (apply Nat.ltb_lt; unfold max_retries; lia).
    by rewrite Hgo. }
  rewrite Hrun. cbn [fst snd]. unfold query, _run_query.
  change (max_retries + 1) with 4.
  rewrite (Hstep 3 0), (Hstep 2 1), (Hstep 1 2) by lia.
  cbn [query_loop].
  match goal with
  | |- context [execute "RemovePost" variables ?w] =>
      pose proof (Hall w) as Hex;
      destruct (execute "RemovePost" variables w) as [out w4]
  end.
  cbn [fst] in Hex. subst out.
  unfold authentication_text in Ha. unfold rate_limit_text in Hr.
  rewrite Ha, Hr. change (3 <? max_retries) with false. cbn iota.
  split; [reflexivity|].
  unfold sleep. cbn [fst snd log]. unfold rounds. cbn [seq flat_map app].
  by rewrite <- !app_assoc.
Qed.

Lemma reraise_classified {A} prefix (out : outcome A) :
  classified (wrap_unexpected prefix out) = true.
Proof.
  destruct out as [v|[text|e]]; try done. simpl.
  by destruct (is_publishing_error e) eqn:He.
Qed.

(** X28. The Hashnode client uses neither the [published] flag nor the
    [saveAsDraft] entry of the dictionary: for [publish_article] and for
    [update_article], the request sent and the outcome are the same
    whatever the two are, so a post saved as a draft is sent like any
    other.  Both raise only the three classified errors.  The input of the publication has no entry that is
    [None], and so neither [publishedAt] nor [seriesId]; but inside its
    [metaTags] entry the description is [None] when the post has no
    subtitle. *)
Theorem hashnode_publish_ignores_published {W} type_error publication_id
        (time : W -> Q * W) (pass : Q -> W -> W)
        (execute : string -> json -> W -> outcome json * W)
        post_content article_id published (s : Client W) :
  let publish := publish_article type_error publication_id time pass execute
                                 post_content in
  let update := update_article type_error time pass execute article_id
                               post_content in
  (forall draft other,
      publish_article type_error publication_id time pass execute
                      (with_draft post_content draft) other s
      = publish published s)
  /\ (forall draft other,
        update_article type_error time pass execute article_id
                       (with_draft post_content draft) other s
        = update published s)
  /\ classified (fst (publish published s)) = true
  /\ classified (fst (update published s)) = true
  /\ Forall (fun kv => snd kv <> JNull
                       /\ fst kv <> "publishedAt" /\ fst kv <> "seriesId")
            (publish_input publication_id post_content published)
  /\ (cd_subtitle post_content = "" ->
      obj_get (publish_input publication_id post_content published)
              "metaTags"
      = Some (JObj [("title", JStr (cd_title post_content));
                    ("description", JNull)])).
Proof.
  intros publish update.
  split; [intros draft other; by destruct published, other|].
  split; [done|].
  split.
  { unfold publish, publish_article.
    destruct (_run_query _ _ _ _ _ _) as [got s']. apply reraise_classified. }
  split.
  { unfold update, update_article.
    destruct (_run_query _ _ _ _ _ _) as [got s']. apply reraise_classified. }
  split.
  - unfold publish_input, without_none, text_or_none, cover_options,
      tag_objects, meta_tags.
    destruct published;
      destruct (ContentProcessor.truthy_str (cd_subtitle post_content));
      destruct (ContentProcessor.truthy_str (cd_cover post_content));
      destruct (ContentProcessor.truthy_str
                  (client_canonical_url post_content));
      cbn [List.filter snd fst negb]; repeat constructor; done.
  - intros Hsub. unfold publish_input, without_none, text_or_none,
      cover_options, tag_objects, meta_tags. rewrite Hsub.
    destruct published;
      destruct (ContentProcessor.truthy_str (cd_cover post_content));
      destruct (ContentProcessor.truthy_str
                  (client_canonical_url post_content));
      reflexivity.
Qed.

Lemma hashnode_run_query_outcomes_witness :
  fst (_run_query HashnodeSamples.frozen HashnodeSamples.no_pass
                  HashnodeSamples.unauthorized "GetPost" JNull
                  HashnodeSamples.fresh)
  = Failed (Exn (publishing_error AuthenticationError
      "Authentication failed for Hashnode: 401 Unauthorized (429 rate limit)")).
Proof.
  destruct (hashnode_run_query_outcomes
              HashnodeSamples.frozen HashnodeSamples.no_pass
              HashnodeSamples.unauthorized "GetPost" JNull
              HashnodeSamples.fresh) as [_ [_ [_ H]]].
  exact (proj1 (H _ tt eq_refl eq_refl)).
Defined.

Lemma hashnode_delete_article_outcomes_witness :
  contains "FORBIDDEN" HashnodeSamples.forbidden_text = true
  /\ fst (delete_article HashnodeSamples.frozen HashnodeSamples.no_pass
                         HashnodeSamples.forbidding "abc"
                         HashnodeSamples.fresh)
     = Failed (Exn (publishing_error APIError
         ("Hashnode API request failed after 3 retries: "
          +:+ HashnodeSamples.forbidden_text))).
Proof.
  split; [reflexivity|].
  destruct (hashnode_delete_article_outcomes
              HashnodeSamples.frozen HashnodeSamples.no_pass
              HashnodeSamples.forbidding "abc" HashnodeSamples.fresh)
    as [_ [_ [_ H]]].
  exact (proj1 (H HashnodeSamples.forbidden_text (fun w => eq_refl)
                  eq_refl eq_refl)).
Defined.

Lemma hashnode_publish_ignores_published_witness :
  obj_get (publish_input "5f1e" HashnodeSamples.plain_content false)
          "metaTags"
  = Some (JObj [("title", JStr "T"); ("description", JNull)]).
Proof.
  destruct (hashnode_publish_ignores_published
              HashnodeSamples.sample_type_error "5f1e"
              HashnodeSamples.frozen HashnodeSamples.no_pass
              HashnodeSamples.forbidding HashnodeSamples.plain_content
              "abc" false HashnodeSamples.fresh) as [_ [_ [_ [_ [_ H]]]]].
  exact (H eq_refl).
Defined.
